(** * max.nn.linear: configuration and execution paths of Linear and MLP

    A shallow embedding of [src/max/nn/linear.py].  The module has two faces
    and the development follows them:

    - the _configuration_ face (construction, sharding-strategy propagation,
      [shard]) manipulates [Weight] objects by reference.  It is modelled with
      an explicit store of [Weight] objects and a state-and-exception monad;
    - the _execution_ face ([__call__]) composes kernels of the graph runtime.
      It is modelled over an interface of kernels, and instantiated with
      matrices over an arbitrary scalar type. *)

From Stdlib Require Import ZArith QArith Qround.
From stdpp Require Import base option list strings gmap.

Local Open Scope string_scope.
Local Open Scope Z_scope.
Local Open Scope list_scope.

(** ** Enumerations and configuration records (lines 50-168) *)

Inductive Float8ScaleGranularity := TENSOR | ROWWISE | COLWISE | BLOCK.

Inductive Float8ScaleOrigin := STATIC | DYNAMIC.

#[global] Instance Float8ScaleGranularity_eq_dec : EqDecision Float8ScaleGranularity.
Proof. solve_decision. Defined.

#[global] Instance Float8ScaleOrigin_eq_dec : EqDecision Float8ScaleOrigin.
Proof. solve_decision. Defined.

(** Modelled from the spec: [max.dtype.DType] is declared outside the
    sources at hand; only the element types this file names are listed, the
    layer never inspects them. *)
Inductive DType := float32 | bfloat16 | float8_e4m3fn | uint8 | int32.

(** Modelled from the spec: [max.graph.DeviceRef], a device kind and an
    index, compared structurally. *)
Inductive DeviceRef := CPU (id : nat) | GPU (id : nat).

#[global] Instance DeviceRef_eq_dec : EqDecision DeviceRef.
Proof. solve_decision. Defined.

(** Modelled from the spec: [max.graph.quantization.QuantizationEncoding];
    the file only tests an encoding for presence and for being [GPTQ]. *)
Inductive QuantizationEncoding := Q4_0 | Q4_K | Q6_K | GPTQ.

Record Float8WeightScaleSpec := {
  ws_granularity : Float8ScaleGranularity;
  ws_dtype : DType;
}.

Definition is_tensor (s : Float8WeightScaleSpec) : bool :=
  bool_decide (ws_granularity s = TENSOR).
Definition is_rowwise (s : Float8WeightScaleSpec) : bool :=
  bool_decide (ws_granularity s = ROWWISE).
Definition is_colwise (s : Float8WeightScaleSpec) : bool :=
  bool_decide (ws_granularity s = COLWISE).
Definition is_block (s : Float8WeightScaleSpec) : bool :=
  bool_decide (ws_granularity s = BLOCK).

Record Float8InputScaleSpec := {
  is_granularity : Float8ScaleGranularity;
  is_origin : Float8ScaleOrigin;
  is_dtype : DType;
  activation_scale_ub : option Q;
}.

(** The fields [input_scale] and [weight_scale] of the dataclass are
    [f8_input_scale] and [f8_weight_scale] here: [Linear] has attributes of
    the same names. *)
Record Float8Config := {
  f8_input_scale : Float8InputScaleSpec;
  f8_weight_scale : Float8WeightScaleSpec;
  mlp_in_float8 : gset Z;
  attn_qkv_in_float8 : gset Z;
  embedding_output_dtype : option DType;
  quant_method : option string;
}.

Definition is_static (c : Float8Config) : bool :=
  bool_decide (is_origin (f8_input_scale c) = STATIC).
Definition is_dynamic (c : Float8Config) : bool :=
  bool_decide (is_origin (f8_input_scale c) = DYNAMIC).

(** ** Exceptions, the store of [Weight] objects and the monad *)

Inductive ValueErrorKind :=
  | BiasDeviceMismatch (bias_device weight_device : DeviceRef)
  | UnsupportedInputScaleGranularity (g : Float8ScaleGranularity)
  | UnsupportedWeightScaleGranularity (g : Float8ScaleGranularity)
  | LinearNoShardingStrategy
  | WeightNoShardingStrategy
  | EmptyDevices
  | TiedWeightWithFloat8OrBias
  | DimOutOfRange.

Inductive Exception :=
  | ValueError (k : ValueErrorKind)
  | AssertionError
  | IndexError
  | ZeroDivisionError
  | AttributeError
  | DanglingReference.

Inductive Outcome (A : Type) :=
  | Ok (a : A)
  | Raise (e : Exception).
Arguments Ok {A} a.
Arguments Raise {A} e.

(** The constructor generated by [@dataclass]: the class declares no
    [__post_init__], construction stores the fields. *)
Definition Float8Config_init (input_scale : Float8InputScaleSpec)
    (weight_scale : Float8WeightScaleSpec) (mlp attn : gset Z)
    (embedding : option DType) (method : option string)
  : Outcome Float8Config :=
  Ok {| f8_input_scale := input_scale; f8_weight_scale := weight_scale;
        mlp_in_float8 := mlp; attn_qkv_in_float8 := attn;
        embedding_output_dtype := embedding; quant_method := method |}.

(** Modelled from the spec: [max.graph.ShardingStrategy], "a tagged value ...
    structurally comparable by kind and device count". *)
Inductive ShardingKind :=
  Replicate | Rowwise | Columnwise | HeadAwareColumnwise | TensorParallel.

#[global] Instance ShardingKind_eq_dec : EqDecision ShardingKind.
Proof. solve_decision. Defined.

Record ShardingStrategy := {
  num_devices : Z;
  kind : ShardingKind;
}.

#[global] Instance ShardingStrategy_eq_dec : EqDecision ShardingStrategy.
Proof. solve_decision. Defined.

Module Strategy.
Definition replicate (n : Z) := {| num_devices := n; kind := Replicate |}.
Definition rowwise (n : Z) := {| num_devices := n; kind := Rowwise |}.
Definition columnwise (n : Z) := {| num_devices := n; kind := Columnwise |}.
Definition head_aware_columnwise (n : Z) :=
  {| num_devices := n; kind := HeadAwareColumnwise |}.
Definition tensor_parallel (n : Z) :=
  {| num_devices := n; kind := TensorParallel |}.

Definition is_replicate (s : ShardingStrategy) := bool_decide (kind s = Replicate).
Definition is_rowwise (s : ShardingStrategy) := bool_decide (kind s = Rowwise).
Definition is_colwise (s : ShardingStrategy) := bool_decide (kind s = Columnwise).
Definition is_head_aware_colwise (s : ShardingStrategy) :=
  bool_decide (kind s = HeadAwareColumnwise).
Definition is_tensor_parallel (s : ShardingStrategy) :=
  bool_decide (kind s = TensorParallel).
End Strategy.

(** Modelled from the spec: the [Weight] entity of [max.graph], "a named
    tensor with: data type, shape, owning device, optional quantization
    encoding", and the sharding strategy assigned to it. *)
Record Weight := {
  w_name : string;
  w_dtype : DType;
  w_shape : list Z;
  w_device : DeviceRef;
  w_quantization_encoding : option QuantizationEncoding;
  w_sharding_strategy : option ShardingStrategy;
}.

(** Modelled from the spec: the setter of [Weight.sharding_strategy] is
    declared outside the sources at hand.  It records the strategy and places
    the tensor on the host, [cpu:0], from where [Weight.shard] cuts the
    shards for the devices; the name, the element type, the shape and the
    encoding are kept. *)
Definition set_w_sharding_strategy (s : ShardingStrategy) (w : Weight) : Weight :=
  {| w_name := w_name w; w_dtype := w_dtype w; w_shape := w_shape w;
     w_device := CPU 0;
     w_quantization_encoding := w_quantization_encoding w;
     w_sharding_strategy := Some s |}.

(** Python objects are handled by reference: a reference is an index into
    the store, allocation appends. *)
Abbreviation ref := nat.
Abbreviation Heap := (list Weight).

Definition M (A : Type) : Type := Heap → Outcome A * Heap.

Definition ret {A} (a : A) : M A := λ h, (Ok a, h).
Definition raise {A} (e : Exception) : M A := λ h, (Raise e, h).
Definition bind {A B} (m : M A) (f : A → M B) : M B :=
  λ h, match m h with
       | (Ok a, h') => f a h'
       | (Raise e, h') => (Raise e, h')
       end.

#[global] Instance M_ret : MRet M := @ret.
#[global] Instance M_bind : MBind M := λ A B f m, bind m f.

Definition alloc (w : Weight) : M ref := λ h, (Ok (length h), h ++ [w]).

Definition read (r : ref) : M Weight :=
  λ h, match h !! r with
       | Some w => (Ok w, h)
       | None => (Raise DanglingReference, h)
       end.

Definition modify (r : ref) (f : Weight → Weight) : M unit :=
  λ h, match h !! r with
       | Some w => (Ok tt, <[r := f w]> h)
       | None => (Raise DanglingReference, h)
       end.

(** A static dimension of the graph is a signed 64-bit integer. *)
Definition dim_ok (d : Z) : Prop := - 2 ^ 63 ≤ d < 2 ^ 63.

#[global] Instance dim_ok_dec d : Decision (dim_ok d).
Proof. unfold dim_ok. apply _. Defined.

(** Modelled from the spec: the property [Weight.shape] is declared
    outside the sources at hand.  The constructor of [Weight] stores the
    shape it is given; reading [t.shape] builds the dimensions of the graph
    from it, and fails with a [ValueError] when one of them does not fit a
    signed 64-bit integer. *)
Definition Weight_shape (w : Weight) : M (list Z) :=
  if bool_decide (Forall dim_ok (w_shape w)) then ret (w_shape w)
  else raise (ValueError DimOutOfRange).

(** [int(t.shape[i])]: the shape is read, then indexed, with [IndexError]
    past the end. *)
Definition shape_at (w : Weight) (i : nat) : M Z :=
  shape ← Weight_shape w;
  match shape !! i with
  | Some d => ret d
  | None => raise IndexError
  end.

(** [len(t.shape)]. *)
Definition shape_len (w : Weight) : M nat :=
  shape ← Weight_shape w;
  ret (length shape).

(** [for i, x in enumerate(xs)] with a body that may allocate or raise. *)
Fixpoint for_each {A B} (body : nat → A → M B) (i : nat) (xs : list A)
  : M (list B) :=
  match xs with
  | [] => ret []
  | x :: xs' =>
      y ← body i x;
      ys ← for_each body (S i) xs';
      ret (y :: ys)
  end.

(** ** Linear (lines 171-446) *)

(** A [Linear] holds its tensors through handles of type [W]: references
    into the store on the configuration face, graph values on the execution
    face.  [device] is annotated [DeviceRef] in the source, and a [DeviceRef]
    object is truthy. *)
Record Linear (W : Type) := mkLinear {
  weight : W;
  bias : option W;
  input_scale : option W;
  weight_scale : option W;
  device : DeviceRef;
  clip_weight : option Q;
  float8_config : option Float8Config;
}.
Arguments mkLinear {W}.
Arguments weight {W}.
Arguments bias {W}.
Arguments input_scale {W}.
Arguments weight_scale {W}.
Arguments device {W}.
Arguments clip_weight {W}.
Arguments float8_config {W}.

Definition set_weight {W} (x : W) (l : Linear W) : Linear W :=
  mkLinear x (bias l) (input_scale l) (weight_scale l) (device l)
    (clip_weight l) (float8_config l).
Definition set_bias {W} (x : option W) (l : Linear W) : Linear W :=
  mkLinear (weight l) x (input_scale l) (weight_scale l) (device l)
    (clip_weight l) (float8_config l).
Definition set_input_scale {W} (x : option W) (l : Linear W) : Linear W :=
  mkLinear (weight l) (bias l) x (weight_scale l) (device l)
    (clip_weight l) (float8_config l).
Definition set_weight_scale {W} (x : option W) (l : Linear W) : Linear W :=
  mkLinear (weight l) (bias l) (input_scale l) x (device l)
    (clip_weight l) (float8_config l).
Definition set_device {W} (x : DeviceRef) (l : Linear W) : Linear W :=
  mkLinear (weight l) (bias l) (input_scale l) (weight_scale l) x
    (clip_weight l) (float8_config l).

(** [f"{name}.weight" if name else "weight"]: an empty name is falsy. *)
Definition attr_name (name : option string) (attr : string) : string :=
  match name with
  | Some n => if bool_decide (n = "") then attr else n +:+ "." +:+ attr
  | None => attr
  end.

(** Keyword arguments forwarded by [ColumnParallelLinear] to [Linear]: each
    is absent ([None]), or passed with a value that may itself be Python's
    [None] ([Some None]). *)
Record Kwargs := {
  kw_has_bias : option (option bool);
  kw_quantization_encoding : option (option QuantizationEncoding);
  kw_float8_config : option (option Float8Config);
  kw_name : option (option string);
  kw_clip_weight : option (option Q);
}.

(** [kwargs.get(key)]: [None] when the key is absent, else its value. *)
Definition kwargs_get {A} (entry : option (option A)) : option A := mjoin entry.

Record ColumnParallelLinear := {
  cpl_linear : Linear ref;
  devices : list DeviceRef;
  cpl_num_devices : nat;
  distributed_linear_layers : list (Linear ref);
}.

Section Configuration.

(** The two primitives of the [Weight] entity that this file calls and
    that live outside it: the constructor [Weight(name=, dtype=, shape=,
    device=, quantization_encoding=)], and the partition rule by which a
    strategy cuts the shard of a given index for a given device. *)
Variable Weight_new :
  string → DType → list Z → DeviceRef → option QuantizationEncoding → Weight.
Variable partition : ShardingStrategy → Weight → nat → DeviceRef → Weight.

(** Modelled from the spec: [Weight.shard(devices)] is declared outside the
    sources at hand; it "produces N new Weight entities, each owned by one
    device-shard", and fails when no strategy is set. *)
Definition Weight_shard (r : ref) (devs : list DeviceRef) : M (list ref) :=
  w ← read r;
  match w_sharding_strategy w with
  | None => raise (ValueError WeightNoShardingStrategy)
  | Some s => for_each (λ i d, alloc (partition s w i d)) 0%nat devs
  end.

(** [Linear.__init__], lines 217-312. *)
Definition Linear_init (in_dim out_dim : Z) (dtype : DType)
    (dev : DeviceRef) (has_bias : bool)
    (quantization_encoding : option QuantizationEncoding)
    (f8 : option Float8Config) (name : option string)
    (clip : option Q) : M (Linear ref) :=
  weight_ref ← alloc (Weight_new (attr_name name "weight") dtype
                         [out_dim; in_dim] dev quantization_encoding);
  bias_ref ←
    (if has_bias then
       b ← alloc (Weight_new (attr_name name "bias") dtype [out_dim] dev
                     quantization_encoding);
       bw ← read b;
       ww ← read weight_ref;
       if bool_decide (w_device bw ≠ w_device ww)
       then raise (ValueError (BiasDeviceMismatch (w_device bw) (w_device ww)))
       else ret (Some b)
     else ret None);
  scales ←
    match f8 with
    | Some cfg =>
        input_scale_ref ←
          (if is_static cfg then
             r ← alloc (Weight_new (attr_name name "input_scale")
                           (is_dtype (f8_input_scale cfg)) [] (CPU 0)
                           quantization_encoding);
             ret (Some r)
           else ret None);
        _ ← (if bool_decide (is_granularity (f8_input_scale cfg) ∉ [TENSOR; COLWISE])
         then raise (ValueError (UnsupportedInputScaleGranularity
                                   (is_granularity (f8_input_scale cfg))))
         else ret tt);
        let weight_scale_spec := f8_weight_scale cfg in
        weight_scale_shape ←
          (if is_rowwise weight_scale_spec then
             ww ← read weight_ref;
             d ← shape_at ww 0;
             ret [d; 1]
           else if is_tensor weight_scale_spec then ret []
           else raise (ValueError (UnsupportedWeightScaleGranularity
                                     (ws_granularity weight_scale_spec))));
        r ← alloc (Weight_new (attr_name name "weight_scale")
                      (ws_dtype weight_scale_spec) weight_scale_shape (CPU 0)
                      quantization_encoding);
        ret (input_scale_ref, Some r)
    | None => ret (None, None)
    end;
  ret (mkLinear weight_ref bias_ref scales.1 scales.2 dev clip f8).

(** The [sharding_strategy] setter, lines 319-356.  A [Weight] object is
    truthy, so [if self.weight_scale:] tests presence. *)
Definition Linear_set_sharding_strategy (self : Linear ref)
    (strategy : ShardingStrategy) : M unit :=
  _ ← modify (weight self) (set_w_sharding_strategy strategy);
  _ ← (match weight_scale self with
   | Some ws =>
       match float8_config self with
       | None => raise AssertionError
       | Some cfg =>
           let should_replicate :=
             is_tensor (f8_weight_scale cfg)
             || ((Strategy.is_colwise strategy
                  || Strategy.is_head_aware_colwise strategy)
                 && is_rowwise (f8_weight_scale cfg)) in
           modify ws (set_w_sharding_strategy
                        (if should_replicate
                         then Strategy.replicate (num_devices strategy)
                         else strategy))
       end
   | None => ret tt
   end);
  (match bias self with
   | Some b =>
       modify b (set_w_sharding_strategy
                   (if Strategy.is_rowwise strategy
                    then strategy
                    else Strategy.replicate (num_devices strategy)))
   | None => ret tt
   end).

(** The sharded output dimension, lines 372-378: both arms of the
    conditional expression read [self.weight.shape[0]]; [//] is floor
    division and raises on a zero divisor. *)
Definition Linear_shard_out_dim (w : Weight) (s : ShardingStrategy) : M Z :=
  d0 ← shape_at w 0;
  if Strategy.is_rowwise s then
    if bool_decide (num_devices s = 0) then raise ZeroDivisionError
    else ret (d0 / num_devices s)
  else ret d0.

(** The body of the loop of [Linear.shard], lines 396-444. *)
Definition Linear_shard_one (self : Linear ref) (out_dim : Z)
    (sharded_biases sharded_weight_scales : list ref)
    (shard_idx : nat) (dw : DeviceRef * ref) : M (Linear ref) :=
  let '(dev, weight_shard) := dw in
  w ← read (weight self);
  in_dim ← shape_at w 1;
  sharded ← Linear_init in_dim out_dim (w_dtype w) dev
               (bool_decide (is_Some (bias self))) None
               (float8_config self) None (clip_weight self);
  let sharded := set_weight weight_shard sharded in
  sharded ←
    match bias self with
    | Some _ =>
        w ← read (weight self);
        match w_sharding_strategy w with
        | None => raise AttributeError
        | Some s =>
            let is_colwise :=
              Strategy.is_colwise s || Strategy.is_head_aware_colwise s in
            if is_colwise && bool_decide (0 < shard_idx)%nat
            then ret (set_bias None sharded)
            else match sharded_biases !! shard_idx with
                 | Some b => ret (set_bias (Some b) sharded)
                 | None => raise IndexError
                 end
        end
    | None => ret sharded
    end;
  match float8_config self with
  | Some _ =>
      sharded ←
        match input_scale self with
        | Some r =>
            isw ← read r;
            rank ← shape_len isw;
            if bool_decide (rank = 0%nat)
            then ret (set_input_scale (Some r) sharded)
            else raise AssertionError
        | None => ret sharded
        end;
      match weight_scale self with
      | Some r =>
          wsw ← read r;
          rank ← shape_len wsw;
          if bool_decide (rank = 0%nat)
          then ret (set_weight_scale (Some r) sharded)
          else match sharded_weight_scales !! shard_idx with
               | Some r' => ret (set_weight_scale (Some r') sharded)
               | None => raise IndexError
               end
      | None => ret sharded
      end
  | None => ret sharded
  end.

(** [Linear.shard], lines 358-446. *)
Definition Linear_shard (self : Linear ref) (devs : list DeviceRef)
  : M (list (Linear ref)) :=
  w ← read (weight self);
  match w_sharding_strategy w with
  | None => raise (ValueError LinearNoShardingStrategy)
  | Some s =>
      out_dim ← Linear_shard_out_dim w s;
      sharded_weights ← Weight_shard (weight self) devs;
      sharded_biases ←
        match bias self with
        | Some b => Weight_shard b devs
        | None => ret []
        end;
      sharded_weight_scales ←
        match float8_config self, weight_scale self with
        | Some _, Some r =>
            wsw ← read r;
            rank ← shape_len wsw;
            if bool_decide (0 < rank)%nat
            then Weight_shard r devs
            else ret []
        | _, _ => ret []
        end;
      for_each (Linear_shard_one self out_dim sharded_biases
                  sharded_weight_scales)
        0%nat (zip devs sharded_weights)
  end.

(** [Linear.__init__(in_dim, out_dim, dtype, device, **kwargs)]: an absent
    keyword takes the default of the signature, a keyword passed as [None]
    is [None] ([has_bias=None] is falsy). *)
Definition Linear_init_kwargs (in_dim out_dim : Z) (dtype : DType)
    (dev : DeviceRef) (kwargs : Kwargs) : M (Linear ref) :=
  Linear_init in_dim out_dim dtype dev
    (default false (kwargs_get (kw_has_bias kwargs)))
    (kwargs_get (kw_quantization_encoding kwargs))
    (kwargs_get (kw_float8_config kwargs))
    (kwargs_get (kw_name kwargs))
    (kwargs_get (kw_clip_weight kwargs)).

(** The guard of lines 575-582. *)
Definition tied_weight_guard (tied_weight : option ref) (kwargs : Kwargs)
  : bool :=
  bool_decide (is_Some tied_weight)
  && (bool_decide (kwargs_get (kw_float8_config kwargs) ≠ None)
      || bool_decide (kwargs_get (kw_has_bias kwargs) ≠ None)).

(** [ColumnParallelLinear.__init__], lines 551-612.  [set_shared_weight]
    is bookkeeping of [Module] and does not touch the tensors. *)
Definition ColumnParallelLinear_init (in_dim out_dim : Z) (dtype : DType)
    (devs : list DeviceRef) (tied_weight : option ref) (kwargs : Kwargs)
  : M ColumnParallelLinear :=
  match devs with
  | [] => raise (ValueError EmptyDevices)
  | dev0 :: _ =>
      if tied_weight_guard tied_weight kwargs
      then raise (ValueError TiedWeightWithFloat8OrBias)
      else
        self ← Linear_init_kwargs in_dim out_dim dtype dev0 kwargs;
        let self :=
          match tied_weight with
          | Some t => set_weight t self
          | None => self
          end in
        Linear_set_sharding_strategy self
          (Strategy.rowwise (Z.of_nat (length devs)));;
        weight_shards ← Weight_shard (weight self) devs;
        bias_shards ←
          match bias self with
          | Some b => shards ← Weight_shard b devs; ret (Some shards)
          | None => ret None
          end;
        layers ←
          for_each
            (λ n dev,
               layer ← Linear_init_kwargs in_dim out_dim dtype dev kwargs;
               let layer := set_device dev layer in
               match weight_shards !! n with
               | None => raise IndexError
               | Some ws =>
                   let layer := set_weight ws layer in
                   match bias_shards with
                   | None => ret layer
                   | Some shards =>
                       match shards !! n with
                       | None => raise IndexError
                       | Some b => ret (set_bias (Some b) layer)
                       end
                   end
               end)
            0%nat devs;
        ret {| cpl_linear := self; devices := devs;
               cpl_num_devices := length devs;
               distributed_linear_layers := layers |}
  end.

End Configuration.

(** Modelled from the spec: the plain [Weight] constructor, which records
    its arguments; a fresh [Weight] has no sharding strategy. *)
Definition Weight_plain (name : string) (dtype : DType) (shape : list Z)
    (dev : DeviceRef) (enc : option QuantizationEncoding) : Weight :=
  {| w_name := name; w_dtype := dtype; w_shape := shape; w_device := dev;
     w_quantization_encoding := enc; w_sharding_strategy := None |}.

(** The size of part [i] of a dimension [d] cut into [n] parts: the
    quotient, and one more for each of the first [d mod n] parts, so that
    the parts add up to [d]. *)
Definition part_size (d n : Z) (i : nat) : Z :=
  d / n + (if bool_decide (Z.of_nat i < d mod n) then 1 else 0).

(** Modelled from the spec: the partition rule of the strategies, for the
    concrete runs below, "partitioning a weight's output-dimension rows
    (rowwise) or input-dimension columns (colwise) across devices"; the
    parts are as even as the dimension allows, the first ones taking the
    remainder, and a replica keeps the shape.  The shard is placed on its
    device and carries no strategy. *)
Definition partition_even (s : ShardingStrategy) (w : Weight) (i : nat)
    (dev : DeviceRef) : Weight :=
  let n := num_devices s in
  let shape :=
    match kind s, w_shape w with
    | Rowwise, d0 :: rest => part_size d0 n i :: rest
    | (Columnwise | HeadAwareColumnwise), d0 :: d1 :: rest =>
        d0 :: part_size d1 n i :: rest
    | _, sh => sh
    end in
  {| w_name := w_name w; w_dtype := w_dtype w; w_shape := shape;
     w_device := dev;
     w_quantization_encoding := w_quantization_encoding w;
     w_sharding_strategy := None |}.

(** ** DistributedGemmConfig (lines 1047-1066) *)

Record DistributedGemmConfig := {
  enable_matmul_allreduce : bool;
}.

(** [DistributedGemmConfig.generate]; [environ] is the process environment
    read by [os.getenv], and [bool(s)] of a string is [len(s) > 0].
    The annotation allows [None], no path returns it. *)
Definition DistributedGemmConfig_generate (environ : gmap string string)
  : option DistributedGemmConfig :=
  let opts_env := environ !! "LLAMA_ENABLE_DIST_GEMM_KERNELS" in
  match opts_env with
  | None => Some {| enable_matmul_allreduce := true |}
  | Some s =>
      let enable := negb (bool_decide (String.length s = 0%nat)) in
      Some {| enable_matmul_allreduce := enable |}
  end.

(** The granularity error [Linear.__init__] raises for a configuration,
    the input scale being checked first. *)
Definition granularity_error (cfg : Float8Config) : ValueErrorKind :=
  if bool_decide (is_granularity (f8_input_scale cfg) ∉ [TENSOR; COLWISE])
  then UnsupportedInputScaleGranularity (is_granularity (f8_input_scale cfg))
  else UnsupportedWeightScaleGranularity (ws_granularity (f8_weight_scale cfg)).

(** The scenario of the construction tests: an allocator that records its
    arguments, except that it places the tensor named ["bias"] on [elsewhere]. *)
Definition Weight_bias_on (elsewhere : DeviceRef) (name : string)
    (dtype : DType) (shape : list Z) (dev : DeviceRef)
    (enc : option QuantizationEncoding) : Weight :=
  Weight_plain name dtype shape
    (if bool_decide (name = "bias") then elsewhere else dev) enc.

(** A float8 configuration with the given granularities and origin. *)
Definition float8_config_of (input_granularity weight_granularity :
    Float8ScaleGranularity) (origin : Float8ScaleOrigin) : Float8Config :=
  {| f8_input_scale :=
       {| is_granularity := input_granularity; is_origin := origin;
          is_dtype := float32; activation_scale_ub := None |};
     f8_weight_scale :=
       {| ws_granularity := weight_granularity; ws_dtype := float32 |};
     mlp_in_float8 := ∅; attn_qkv_in_float8 := ∅;
     embedding_output_dtype := None; quant_method := None |}.

(** The tensors a [Linear] holds, and the well-formedness of a layer in a
    store: its tensors are distinct objects of the store. *)
Definition Linear_refs (l : Linear ref) : list ref :=
  weight l :: option_list (bias l) ++ option_list (input_scale l)
  ++ option_list (weight_scale l).

Definition Linear_wf (h : Heap) (l : Linear ref) : Prop :=
  NoDup (Linear_refs l) ∧ Forall (λ r, r < length h)%nat (Linear_refs l).

#[global] Instance Linear_wf_dec h l : Decision (Linear_wf h l).
Proof. unfold Linear_wf. apply _. Defined.

(** A float8 layer with a bias as [Linear.__init__] leaves it, for the
    concrete runs: weight [out_dim, in_dim], bias [out_dim] and a weight scale
    of the given shape, at references 0, 1 and 2. *)
Definition example_heap (weight_scale_shape : list Z) : Heap :=
  [Weight_plain "weight" float32 [128; 256] (GPU 0) None;
   Weight_plain "bias" float32 [128] (GPU 0) None;
   Weight_plain "weight_scale" float32 weight_scale_shape (CPU 0) None].

Definition example_linear (cfg : Float8Config) : Linear ref :=
  mkLinear 0%nat (Some 1%nat) None (Some 2%nat) (GPU 0) None (Some cfg).

(** A layer with a bias under colwise sharding, as the setter leaves it:
    the weight carries the strategy, the bias is replicated. *)
Definition colwise_heap : Heap :=
  [set_w_sharding_strategy (Strategy.columnwise 2)
     (Weight_plain "weight" float32 [128; 256] (GPU 0) None);
   set_w_sharding_strategy (Strategy.replicate 2)
     (Weight_plain "bias" float32 [128] (GPU 0) None)].

Definition colwise_linear : Linear ref :=
  mkLinear 0%nat (Some 1%nat) None None (GPU 0) None None.

(** A float8 layer with a static scalar input scale and a rowwise weight
    scale, under rowwise sharding. *)
Definition rowwise_float8_heap : Heap :=
  [set_w_sharding_strategy (Strategy.rowwise 2)
     (Weight_plain "weight" float8_e4m3fn [128; 256] (GPU 0) None);
   Weight_plain "input_scale" float32 [] (CPU 0) None;
   set_w_sharding_strategy (Strategy.rowwise 2)
     (Weight_plain "weight_scale" float32 [128; 1] (CPU 0) None)].

Definition rowwise_float8_linear : Linear ref :=
  mkLinear 0%nat None (Some 1%nat) (Some 2%nat) (GPU 0) None
    (Some (float8_config_of TENSOR ROWWISE STATIC)).

(** A layer of 10 output rows sharded rowwise over 3 devices. *)
Definition uneven_heap : Heap :=
  [set_w_sharding_strategy (Strategy.rowwise 3)
     (Weight_plain "weight" float32 [10; 4] (GPU 0) None)].

Definition uneven_linear : Linear ref :=
  mkLinear 0%nat None None None (GPU 0) None None.

(** The sum of a list of dimensions. *)
Definition Zsum (l : list Z) : Z := foldr Z.add 0 l.

(** [int(l.weight.shape[0])] of a layer, looked up in a store: the rows of
    the weight it holds. *)
Definition weight_rows (h : Heap) (l : Linear ref) : option Z :=
  w ← h !! weight l; w_shape w !! 0%nat.

(** ** Predicates on computations *)

(** A computation that only allocates leaves every existing object where
    and as it is: the final store extends the initial one. *)
Definition extends_only {A} (m : M A) : Prop :=
  ∀ h r h', m h = (r, h') → h `prefix_of` h'.

(** The exceptions a computation may raise. *)
Definition raises_only {A} (P : Exception → Prop) (m : M A) : Prop :=
  ∀ h e h', m h = (Raise e, h') → P e.

Definition not_tied_error (e : Exception) : Prop :=
  e ≠ ValueError TiedWeightWithFloat8OrBias.

(** A tied weight in the store, and keyword arguments: none at all,
    [float8_config=None] passed explicitly, and [has_bias=False]. *)
Definition tied_heap : Heap :=
  [Weight_plain "embed_tokens.weight" float32 [128; 256] (GPU 0) None].

Definition kwargs_absent : Kwargs :=
  {| kw_has_bias := None; kw_quantization_encoding := None;
     kw_float8_config := None; kw_name := None; kw_clip_weight := None |}.

Definition kwargs_float8_None : Kwargs :=
  {| kw_has_bias := None; kw_quantization_encoding := None;
     kw_float8_config := Some None; kw_name := None; kw_clip_weight := None |}.

Definition kwargs_has_bias_False : Kwargs :=
  {| kw_has_bias := Some (Some false); kw_quantization_encoding := None;
     kw_float8_config := None; kw_name := None; kw_clip_weight := None |}.


(** ** The execution face: kernels of the graph runtime *)

(** Modelled from the spec: [max.graph.quantization.QuantizationConfig],
    the extra settings of GPTQ. *)
Record QuantizationConfig := {
  sym : bool;
  desc_act : bool;
}.

(** The plain tensor operations this file calls, over graph values [TV]; a
    kernel that rejects its operands returns [None].  [matmul_transposed x w]
    is [x @ w.T], [concat a b] is [ops.concat((a, b))] (axis 0), and
    [split t n1 n2] is [ops.split(t, [n1, n2], axis=1)]. *)
Class Kernels (TV : Type) := {
  rank : TV → nat;
  tv_device : TV → option DeviceRef;
  tv_dtype : TV → DType;
  tv_quantization_encoding : TV → option QuantizationEncoding;
  shape0 : TV → nat;
  to_device : TV → DeviceRef → TV;
  clamp : TV → Q → Q → TV;
  matmul_transposed : TV → TV → option TV;
  tv_add : TV → TV → option TV;
  tv_mul : TV → TV → option TV;
  concat : TV → TV → option TV;
  split : TV → nat → nat → option (TV * TV);
}.

(** The activation [ops.silu], which [MLPV1] applies. *)
Class Activations (TV : Type) := {
  silu : TV → TV;
}.

(** The quantized kernels of [.kernels] and [ops.qmatmul]. *)
Class QuantKernels (TV : Type) := {
  qmatmul : QuantizationEncoding → option QuantizationConfig → TV → TV → option TV;
  quantize_static_scaled_float8 : TV → TV → option TV;
  matmul_static_scaled_float8 : TV → TV → TV → TV → option TV;
  quantize_dynamic_scaled_float8 : TV → DType → option (TV * TV);
  dynamic_scaled_matmul : TV → TV → TV → TV → DType → option TV;
}.

(** The fused gated-linear-unit kernel of [.kernels]. *)
Class FusedKernels (TV : Type) := {
  swish_glu : TV → TV → TV → option TV;
}.

(** A layer of the deprecated family [LinearV1], [QLinearV1],
    [GPTQLinearV1]: its fields and the [__call__] of its class. *)
Record LinearV1 (TV : Type) := {
  v1_weight : TV;
  v1_bias : option TV;
  v1_call : TV → option TV;
}.
Arguments v1_weight {TV}.
Arguments v1_bias {TV}.
Arguments v1_call {TV}.

Record MLPV1 (TV : Type) := {
  v1_gate_proj : LinearV1 TV;
  v1_down_proj : LinearV1 TV;
  v1_up_proj : LinearV1 TV;
}.
Arguments v1_gate_proj {TV}.
Arguments v1_down_proj {TV}.
Arguments v1_up_proj {TV}.

(** The attributes of [MLP] that [__call__] reads; [float8_config] is
    [mlp_float8_config] here. *)
Record MLP (TV : Type) := {
  gate_proj : Linear TV;
  down_proj : Linear TV;
  up_proj : Linear TV;
  quantization_encoding : option QuantizationEncoding;
  mlp_float8_config : option Float8Config;
  activation_function : TV → TV;
  dist_gemm_config : option DistributedGemmConfig;
}.
Arguments gate_proj {TV}.
Arguments down_proj {TV}.
Arguments up_proj {TV}.
Arguments quantization_encoding {TV}.
Arguments mlp_float8_config {TV}.
Arguments activation_function {TV}.
Arguments dist_gemm_config {TV}.

Section Execution.

Context {TV : Type} `{K : Kernels TV} `{QK : QuantKernels TV}.

(** [Linear.__call__], lines 448-497.  [if self.clip_weight:] holds for a
    threshold other than zero; a missing weight scale fails the assertion. *)
Definition Linear_call (self : Linear TV) (x : TV) : option TV :=
  let w :=
    match clip_weight self with
    | Some c => if Qeq_bool c 0 then weight self else clamp (weight self) (- c) c
    | None => weight self
    end in
  res ←
    match tv_quantization_encoding (weight self) with
    | Some enc => qmatmul enc None x w
    | None =>
        match float8_config self with
        | Some _ =>
            ws ← weight_scale self;
            match input_scale self with
            | Some s =>
                xq ← quantize_static_scaled_float8 x s;
                matmul_static_scaled_float8 xq w s ws
            | None =>
                '(xq, x_scales) ← quantize_dynamic_scaled_float8 x (tv_dtype ws);
                let ws := to_device ws (device self) in
                dynamic_scaled_matmul xq w x_scales ws bfloat16
            end
        | None => matmul_transposed x w
        end
    end;
  match bias self with
  | Some b => tv_add res b
  | None => Some res
  end.

(** [LinearV1.__call__], lines 660-670. *)
Definition LinearV1_call (w : TV) (b : option TV) (x : TV) : option TV :=
  let w :=
    if bool_decide (tv_device w ≠ tv_device x)
    then match tv_device x with Some d => to_device w d | None => w end
    else w in
  res ← matmul_transposed x w;
  match b with
  | Some b =>
      let b :=
        if bool_decide (tv_device b ≠ tv_device x)
        then match tv_device x with Some d => to_device b d | None => b end
        else b in
      tv_add res b
  | None => Some res
  end.

(** The condition that guards the fused kernel, lines 1153-1160 (and
    1022-1029): the source ends it with the literal [False]. *)
Definition swish_glu_guard (gate_bias up_bias : option TV) (x : TV) : bool :=
  bool_decide (gate_bias = None)
  && bool_decide (up_bias = None)
  && bool_decide (rank x = 2%nat)
  && bool_decide (tv_device x ≠ None)
  && bool_decide (tv_device x ≠ Some (CPU 0))
  && false.

(** [act(gate(x)) * up(x)] and [down(act(gate(x)) * up(x))], each
    projection a call of its layer. *)
Definition MLP_unfused_hidden (self : MLP TV) (x : TV) : option TV :=
  g ← Linear_call (gate_proj self) x;
  u ← Linear_call (up_proj self) x;
  tv_mul (activation_function self g) u.

Definition MLP_unfused (self : MLP TV) (x : TV) : option TV :=
  hidden ← MLP_unfused_hidden self x;
  Linear_call (down_proj self) hidden.

(** Whether the down projection is left to the caller, lines 1206-1212. *)
Definition skips_down_proj (self : MLP TV) : bool :=
  match dist_gemm_config self with
  | Some cfg => enable_matmul_allreduce cfg
  | None => false
  end.

(** The hidden tensor of the merged projection, lines 1170-1204. *)
Definition MLP_fused_hidden (self : MLP TV) (x : TV) : option TV :=
  let feed_forward_length := shape0 (weight (gate_proj self)) in
  let gate_proj_weight :=
    to_device (weight (gate_proj self)) (device (gate_proj self)) in
  let up_proj_weight :=
    to_device (weight (up_proj self)) (device (up_proj self)) in
  b ←
    match bias (gate_proj self), bias (up_proj self) with
    | Some gate_proj_bias, Some up_proj_bias =>
        b ← concat (to_device gate_proj_bias (device (gate_proj self)))
              (to_device up_proj_bias (device (up_proj self)));
        Some (Some b)
    | _, _ => Some None
    end;
  w ← concat gate_proj_weight up_proj_weight;
  output ←
    match b with
    | Some b => o ← matmul_transposed x w; tv_add o b
    | None => matmul_transposed x w
    end;
  '(gate_out, up_out) ← split output feed_forward_length feed_forward_length;
  tv_mul (activation_function self gate_out) up_out.

(** [MLP.__call__] past the guard, lines 1164-1212. *)
Definition MLP_call_generic (self : MLP TV) (x : TV) : option TV :=
  if bool_decide (is_Some (quantization_encoding self))
     || bool_decide (is_Some (mlp_float8_config self))
  then MLP_unfused self x
  else
    hidden ← MLP_fused_hidden self x;
    if negb (skips_down_proj self)
    then Linear_call (down_proj self) hidden
    else Some hidden.

Context `{A : Activations TV}.

(** [MLPV1.__call__] past the guard, line 1034. *)
Definition MLPV1_call_generic (self : MLPV1 TV) (x : TV) : option TV :=
  g ← v1_call (v1_gate_proj self) x;
  u ← v1_call (v1_up_proj self) x;
  hidden ← tv_mul (silu g) u;
  v1_call (v1_down_proj self) hidden.

Context `{FK : FusedKernels TV}.

(** [MLP.__call__], lines 1152-1212. *)
Definition MLP_call (self : MLP TV) (x : TV) : option TV :=
  if swish_glu_guard (bias (gate_proj self)) (bias (up_proj self)) x
  then
    h ← swish_glu x (weight (gate_proj self)) (weight (up_proj self));
    Linear_call (down_proj self) h
  else MLP_call_generic self x.

(** [MLPV1.__call__], lines 1021-1034. *)
Definition MLPV1_call (self : MLPV1 TV) (x : TV) : option TV :=
  if swish_glu_guard (v1_bias (v1_gate_proj self)) (v1_bias (v1_up_proj self)) x
  then
    h ← swish_glu x (v1_weight (v1_gate_proj self)) (v1_weight (v1_up_proj self));
    v1_call (v1_down_proj self) h
  else MLPV1_call_generic self x.

End Execution.

(** ** Tensors as matrices over a scalar type *)

(** Modelled from the spec: the plain kernels of the graph runtime,
    "matmul(x, weight^T) -> y" and the elementwise and layout operations, are
    external.  Here a tensor is a vector or a matrix of scalars with its
    device and element type; the scalars and their arithmetic are arbitrary,
    no law of arithmetic is assumed.  A kernel returns [None] when the ranks
    or the dimensions of its operands do not fit; its result sits on the
    device of its first operand. *)
Section Matrices.

Context {T : Type}.
Variable s_add s_mul : T → T → T.
Variable s_zero : T.
Variable s_clamp : Q → Q → T → T.

Inductive Data :=
  | Vec (v : list T)
  | Mat (cols : nat) (rows : list (list T)).

Record Tensor := mkTensor {
  t_device : option DeviceRef;
  t_dtype : DType;
  t_data : Data;
}.

(** The tensor of the same placement and element type with other data. *)
Definition with_data (t : Tensor) (d : Data) : Tensor :=
  mkTensor (t_device t) (t_dtype t) d.

Definition dot (r w : list T) : T := foldr s_add s_zero (zip_with s_mul r w).

Definition data_map (f : T → T) (d : Data) : Data :=
  match d with
  | Vec v => Vec (f <$> (v : list T))
  | Mat c rows => Mat c (fmap (M := list) f <$> (rows : list (list T)))
  end.

(** Elementwise operation, a vector on the right being broadcast over the
    rows of a matrix. *)
Definition data_zip (f : T → T → T) (a b : Data) : option Data :=
  match a, b with
  | Mat c rows, Vec v =>
      if bool_decide (c = length v)
      then Some (Mat c ((λ r, zip_with f r v) <$> rows))
      else None
  | Mat c rows, Mat c' rows' =>
      if bool_decide (c = c' ∧ length rows = length rows')
      then Some (Mat c (zip_with (zip_with f) rows rows'))
      else None
  | Vec v, Vec v' =>
      if bool_decide (length v = length v')
      then Some (Vec (zip_with f v v'))
      else None
  | Vec _, Mat _ _ => None
  end.

(** [x @ w.T] for a weight of rank 2: every row of a matrix [x], or the
    vector [x] itself, is multiplied with every row of [w]. *)
Definition data_matmul_transposed (x w : Data) : option Data :=
  match x, w with
  | Mat c rows, Mat c' wrows =>
      if bool_decide (c = c')
      then Some (Mat (length wrows) ((λ r, dot r <$> wrows) <$> rows))
      else None
  | Vec v, Mat c' wrows =>
      if bool_decide (length v = c')
      then Some (Vec (dot v <$> wrows))
      else None
  | _, Vec _ => None
  end.

Definition data_concat (a b : Data) : option Data :=
  match a, b with
  | Vec v, Vec v' => Some (Vec (v ++ v'))
  | Mat c rows, Mat c' rows' =>
      if bool_decide (c = c') then Some (Mat c (rows ++ rows')) else None
  | _, _ => None
  end.

(** The split along axis 1, the columns of a matrix; a vector has no such
    axis. *)
Definition data_split (d : Data) (n1 n2 : nat) : option (Data * Data) :=
  match d with
  | Mat c rows =>
      if bool_decide (c = (n1 + n2)%nat)
      then Some (Mat n1 (take n1 <$> rows),
                 Mat n2 ((λ r, take n2 (drop n1 r)) <$> rows))
      else None
  | Vec _ => None
  end.

#[local] Instance matrix_kernels : Kernels Tensor := {|
  rank t := match t_data t with Vec _ => 1%nat | Mat _ _ => 2%nat end;
  tv_device := t_device;
  tv_dtype := t_dtype;
  tv_quantization_encoding _ := None;
  shape0 t := match t_data t with Vec v => length v | Mat _ rows => length rows end;
  to_device t d := mkTensor (Some d) (t_dtype t) (t_data t);
  clamp t lo hi := with_data t (data_map (s_clamp lo hi) (t_data t));
  matmul_transposed x w :=
    with_data x <$> data_matmul_transposed (t_data x) (t_data w);
  tv_add a b := with_data a <$> data_zip s_add (t_data a) (t_data b);
  tv_mul a b := with_data a <$> data_zip s_mul (t_data a) (t_data b);
  concat a b := with_data a <$> data_concat (t_data a) (t_data b);
  split t n1 n2 :=
    prod_map (with_data t) (with_data t) <$> data_split (t_data t) n1 n2;
|}.


End Matrices.

Arguments Data : clear implicits.
Arguments Tensor : clear implicits.

(** *** Integer tensors for the concrete runs *)

(** Modelled from the spec: the elementwise [clamp] of the runtime,
    [min(max(z, lo), hi)], the upper bound being applied last; the runs
    below give it integer bounds, which the rounding leaves as they are. *)
Definition Z_clamp (lo hi : Q) (z : Z) : Z :=
  Z.min (Z.max z (Qceiling lo)) (Qfloor hi).

Definition Z_kernels : Kernels (Tensor Z) := matrix_kernels Z.add Z.mul 0 Z_clamp.

(** The runs below are in plain precision: the quantized and fused kernels
    are not available to them. *)
Definition no_quant_kernels : QuantKernels (Tensor Z) := {|
  qmatmul _ _ _ _ := None;
  quantize_static_scaled_float8 _ _ := None;
  matmul_static_scaled_float8 _ _ _ _ := None;
  quantize_dynamic_scaled_float8 _ _ := None;
  dynamic_scaled_matmul _ _ _ _ _ := None;
|}.

Definition no_fused_kernels : FusedKernels (Tensor Z) := {|
  swish_glu _ _ _ := None;
|}.

(** [ops.relu] on integer tensors. *)
Definition relu_Z (t : Tensor Z) : Tensor Z :=
  with_data t (data_map (Z.max 0) (t_data t)).

Definition on_gpu (d : Data Z) : Tensor Z := mkTensor (Some (GPU 0)) float32 d.

Definition example_projection (w : list (list Z)) (b : option (list Z))
  : Linear (Tensor Z) :=
  mkLinear (on_gpu (Mat 2 w)) (on_gpu ∘ Vec <$> b) None None (GPU 0) None None.

(** An MLP with [hidden_dim = feed_forward_length = 2] and ReLU. *)
Definition example_mlp (has_bias : bool) (cfg : option DistributedGemmConfig)
  : MLP (Tensor Z) :=
  {| gate_proj := example_projection [[1; 0]; [0; 1]]
                    (if has_bias then Some [1; -5] else None);
     down_proj := example_projection [[1; 1]; [1; 0]]
                    (if has_bias then Some [0; 0] else None);
     up_proj := example_projection [[1; 1]; [1; 1]]
                  (if has_bias then Some [0; 1] else None);
     quantization_encoding := None;
     mlp_float8_config := None;
     activation_function := relu_Z;
     dist_gemm_config := cfg |}.

Definition example_input : Tensor Z := on_gpu (Mat 2 [[1; 2]; [3; -4]]).

(** The same MLP without biases, its [gate_proj] clipping its weight at 1
    and holding a weight out of that range. *)
Definition example_mlp_clipped : MLP (Tensor Z) :=
  {| gate_proj :=
       mkLinear (on_gpu (Mat 2 [[5; 0]; [0; 1]])) None None None (GPU 0)
         (Some 1%Q) None;
     down_proj := example_projection [[1; 1]; [1; 0]] None;
     up_proj := example_projection [[1; 1]; [1; 1]] None;
     quantization_encoding := None;
     mlp_float8_config := None;
     activation_function := relu_Z;
     dist_gemm_config := None |}.

(** ** Layers built on Linear: GPTQLinear and MLP, configuration face *)

(** The [ValueError]s that [GPTQLinear] and [MLP] raise themselves. *)
Inductive LayerError :=
  | GPTQHasBias
  | GPTQFloat8
  | UnsupportedShardingStrategy (s : ShardingStrategy)
  | ShardingStrategyNotSet.

(** The attributes [GPTQLinear.__init__] sets, lines 933-961. *)
Record GPTQLinear := {
  gptq_device : DeviceRef;
  qweight : ref;
  scales : ref;
  quantization_config : QuantizationConfig;
  perm_idx : option ref;
}.

(** The names registered in [_ACTIVATION_FUNCTIONS], lines 1037-1044. *)
Definition _ACTIVATION_FUNCTIONS : list string :=
  ["silu"; "gelu"; "gelu_tanh"; "relu"; "tanh"; "sigmoid"].

(** The attributes [MLP.__init__] sets, lines 1113-1150, the projections
    held through their tensors in the store. *)
Record MLPModule := {
  m_devices : list DeviceRef;
  m_num_devices : nat;
  m_dist_gemm_config : option DistributedGemmConfig;
  m_hidden_dim : Z;
  m_feed_forward_length : Z;
  m_gate_proj : Linear ref;
  m_down_proj : Linear ref;
  m_up_proj : Linear ref;
  m_quantization_encoding : option QuantizationEncoding;
  m_float8_config : option Float8Config;
  _activation_function_name : string;
  _sharding_strategy : option ShardingStrategy;
}.

Definition set_sharding_strategy_attr (s : ShardingStrategy) (m : MLPModule)
  : MLPModule :=
  {| m_devices := m_devices m; m_num_devices := m_num_devices m;
     m_dist_gemm_config := m_dist_gemm_config m;
     m_hidden_dim := m_hidden_dim m;
     m_feed_forward_length := m_feed_forward_length m;
     m_gate_proj := m_gate_proj m; m_down_proj := m_down_proj m;
     m_up_proj := m_up_proj m;
     m_quantization_encoding := m_quantization_encoding m;
     m_float8_config := m_float8_config m;
     _activation_function_name := _activation_function_name m;
     _sharding_strategy := Some s |}.

Definition set_projections (g d u : Linear ref) (m : MLPModule) : MLPModule :=
  {| m_devices := m_devices m; m_num_devices := m_num_devices m;
     m_dist_gemm_config := m_dist_gemm_config m;
     m_hidden_dim := m_hidden_dim m;
     m_feed_forward_length := m_feed_forward_length m;
     m_gate_proj := g; m_down_proj := d; m_up_proj := u;
     m_quantization_encoding := m_quantization_encoding m;
     m_float8_config := m_float8_config m;
     _activation_function_name := _activation_function_name m;
     _sharding_strategy := _sharding_strategy m |}.

Section Layers.

Variable Weight_new :
  string → DType → list Z → DeviceRef → option QuantizationEncoding → Weight.
Variable partition : ShardingStrategy → Weight → nat → DeviceRef → Weight.

(** [GPTQLinear.__init__], lines 899-961.  The two [ValueError]s of the
    class come back as [inl]; a failed assertion is raised in the monad.
    [quantization_config] may be [None]; [Weight] is given no encoding for
    [perm_idx]. *)
Definition GPTQLinear_init (in_dim : Z) (dev : DeviceRef) (has_bias : bool)
    (enc : option QuantizationEncoding)
    (config : option QuantizationConfig) (f8 : option Float8Config)
  : M (LayerError + GPTQLinear) :=
  if has_bias then ret (inl GPTQHasBias)
  else if bool_decide (is_Some f8) then ret (inl GPTQFloat8)
  else
    qw ← alloc (Weight_new "qweight" uint8 [1; 1] dev enc);
    sc ← alloc (Weight_new "scales" uint8 [1; 1] dev enc);
    match config with
    | None => raise AssertionError
    | Some cfg =>
        if negb (sym cfg) then raise AssertionError
        else
          p ← (if desc_act cfg
               then r ← alloc (Weight_new "perm_idx" int32 [in_dim] dev None);
                    ret (Some r)
               else ret None);
          ret (inr {| gptq_device := dev; qweight := qw; scales := sc;
                      quantization_config := cfg; perm_idx := p |})
    end.

(** [MLP.__init__] with the default [linear_cls], lines 1075-1150:
    [devices[0]] is read for the first projection, the activation name is
    asserted once the projections are built. *)
Definition MLP_init (dtype : DType) (enc : option QuantizationEncoding)
    (hidden_dim feed_forward_length : Z) (devs : list DeviceRef)
    (has_bias : bool) (activation_function : string)
    (f8 : option Float8Config) (dist : option DistributedGemmConfig)
  : M MLPModule :=
  match devs with
  | [] => raise IndexError
  | dev0 :: _ =>
      g ← Linear_init Weight_new hidden_dim feed_forward_length dtype dev0
            has_bias enc f8 None None;
      d ← Linear_init Weight_new feed_forward_length hidden_dim dtype dev0
            has_bias enc f8 None None;
      u ← Linear_init Weight_new hidden_dim feed_forward_length dtype dev0
            has_bias enc f8 None None;
      if bool_decide (activation_function ∈ _ACTIVATION_FUNCTIONS)
      then ret {| m_devices := devs; m_num_devices := length devs;
                  m_dist_gemm_config := dist; m_hidden_dim := hidden_dim;
                  m_feed_forward_length := feed_forward_length;
                  m_gate_proj := g; m_down_proj := d; m_up_proj := u;
                  m_quantization_encoding := enc; m_float8_config := f8;
                  _activation_function_name := activation_function;
                  _sharding_strategy := None |}
      else raise AssertionError
  end.

(** The [sharding_strategy] setter of [MLP], lines 1219-1244: the strategy
    is recorded first; the result is the object after the call and the
    [ValueError] of the last branch, if raised. *)
Definition MLP_set_sharding_strategy (self : MLPModule)
    (strategy : ShardingStrategy) : M (MLPModule * option LayerError) :=
  let self := set_sharding_strategy_attr strategy self in
  if Strategy.is_replicate strategy then
    Linear_set_sharding_strategy (m_gate_proj self) strategy;;
    Linear_set_sharding_strategy (m_down_proj self) strategy;;
    Linear_set_sharding_strategy (m_up_proj self) strategy;;
    ret (self, None)
  else if Strategy.is_tensor_parallel strategy then
    Linear_set_sharding_strategy (m_gate_proj self)
      (Strategy.rowwise (num_devices strategy));;
    Linear_set_sharding_strategy (m_down_proj self)
      (Strategy.columnwise (num_devices strategy));;
    Linear_set_sharding_strategy (m_up_proj self)
      (Strategy.rowwise (num_devices strategy));;
    ret (self, None)
  else ret (self, Some (UnsupportedShardingStrategy strategy)).

(** The body of the loop of [MLP.shard], lines 1264-1285. *)
Definition MLP_shard_one (self : MLPModule) (i : nat)
    (t : DeviceRef * (Linear ref * (Linear ref * Linear ref))) : M MLPModule :=
  let '(dev, (g, (d, u))) := t in
  w ← read (weight (m_gate_proj self));
  sharded ← MLP_init (w_dtype w) (m_quantization_encoding self)
              (m_hidden_dim self) (m_feed_forward_length self) [dev]
              (bool_decide (is_Some (bias (m_gate_proj self))))
              (_activation_function_name self) (m_float8_config self)
              (m_dist_gemm_config self);
  ret (set_projections g d u sharded).

(** [MLP.shard], lines 1246-1287; [zip] stops at the shortest list. *)
Definition MLP_shard (self : MLPModule) (devs : list DeviceRef)
  : M (LayerError + list MLPModule) :=
  match _sharding_strategy self with
  | None => ret (inl ShardingStrategyNotSet)
  | Some _ =>
      gs ← Linear_shard Weight_new partition (m_gate_proj self) devs;
      ds ← Linear_shard Weight_new partition (m_down_proj self) devs;
      us ← Linear_shard Weight_new partition (m_up_proj self) devs;
      shards ← for_each (MLP_shard_one self) 0%nat
                  (zip devs (zip gs (zip ds us)));
      ret (inr shards)
  end.

End Layers.

(** ** The store after the setter of Linear *)

(** The strategy the setter gives to the bias and to the weight scale. *)
Definition bias_strategy (strategy : ShardingStrategy) : ShardingStrategy :=
  if Strategy.is_rowwise strategy then strategy
  else Strategy.replicate (num_devices strategy).

Definition weight_scale_strategy (cfg : Float8Config)
    (strategy : ShardingStrategy) : ShardingStrategy :=
  if is_tensor (f8_weight_scale cfg)
     || ((Strategy.is_colwise strategy || Strategy.is_head_aware_colwise strategy)
         && is_rowwise (f8_weight_scale cfg))
  then Strategy.replicate (num_devices strategy)
  else strategy.

(** The store the setter leaves. *)
Definition propagated (l : Linear ref) (strategy : ShardingStrategy)
    (h : Heap) : Heap :=
  let h1 := alter (set_w_sharding_strategy strategy) (weight l) h in
  let h2 :=
    match weight_scale l, float8_config l with
    | Some r, Some cfg =>
        alter (set_w_sharding_strategy (weight_scale_strategy cfg strategy)) r h1
    | _, _ => h1
    end in
  match bias l with
  | Some b => alter (set_w_sharding_strategy (bias_strategy strategy)) b h2
  | None => h2
  end.

(** A layer with a bias under rowwise sharding, as the setter leaves it. *)
Definition rowwise_heap : Heap :=
  [set_w_sharding_strategy (Strategy.rowwise 2)
     (Weight_plain "weight" float32 [128; 256] (GPU 0) None);
   set_w_sharding_strategy (Strategy.rowwise 2)
     (Weight_plain "bias" float32 [128] (GPU 0) None)].

(** The well-formedness of an MLP in a store: its projections are
    well-formed layers that share no tensor, and a projection with a weight
    scale has a float8 configuration. *)
Definition MLPModule_wf (h : Heap) (m : MLPModule) : Prop :=
  NoDup (Linear_refs (m_gate_proj m) ++ Linear_refs (m_down_proj m)
         ++ Linear_refs (m_up_proj m))
  ∧ Forall (λ l, Linear_wf h l
                 ∧ (is_Some (weight_scale l) → is_Some (float8_config l)))
      [m_gate_proj m; m_down_proj m; m_up_proj m].

(** The strategies the setter of [MLP] hands to [gate_proj], [down_proj]
    and [up_proj]. *)
Definition projection_strategies (strategy : ShardingStrategy)
  : ShardingStrategy * ShardingStrategy * ShardingStrategy :=
  if Strategy.is_replicate strategy then (strategy, strategy, strategy)
  else (Strategy.rowwise (num_devices strategy),
        Strategy.columnwise (num_devices strategy),
        Strategy.rowwise (num_devices strategy)).

(** An MLP in plain precision with biases, in a store that holds its six
    tensors. *)
Definition mlp_heap : Heap :=
  [Weight_plain "weight" float32 [32; 8] (GPU 0) None;
   Weight_plain "bias" float32 [32] (GPU 0) None;
   Weight_plain "weight" float32 [8; 32] (GPU 0) None;
   Weight_plain "bias" float32 [8] (GPU 0) None;
   Weight_plain "weight" float32 [32; 8] (GPU 0) None;
   Weight_plain "bias" float32 [32] (GPU 0) None].

Definition mlp_module : MLPModule :=
  {| m_devices := [GPU 0]; m_num_devices := 1;
     m_dist_gemm_config := None; m_hidden_dim := 8;
     m_feed_forward_length := 32;
     m_gate_proj := mkLinear 0%nat (Some 1%nat) None None (GPU 0) None None;
     m_down_proj := mkLinear 2%nat (Some 3%nat) None None (GPU 0) None None;
     m_up_proj := mkLinear 4%nat (Some 5%nat) None None (GPU 0) None None;
     m_quantization_encoding := None; m_float8_config := None;
     _activation_function_name := "silu";
     _sharding_strategy := None |}.

(** The same MLP once its setter was given tensor parallelism over two
    devices. *)
Definition mlp_tp_heap : Heap :=
  propagated (m_up_proj mlp_module) (Strategy.rowwise 2)
    (propagated (m_down_proj mlp_module) (Strategy.columnwise 2)
       (propagated (m_gate_proj mlp_module) (Strategy.rowwise 2) mlp_heap)).

Definition mlp_tp_module : MLPModule :=
  set_sharding_strategy_attr (Strategy.tensor_parallel 2) mlp_module.

(** ** Variations of a layer, for the execution face *)

Definition set_clip_weight {W} (x : option Q) (l : Linear W) : Linear W :=
  mkLinear (weight l) (bias l) (input_scale l) (weight_scale l) (device l)
    x (float8_config l).

(** The MLP with another [dist_gemm_config]. *)
Definition with_dist_gemm_config {TV} (cfg : option DistributedGemmConfig)
    (m : MLP TV) : MLP TV :=
  {| gate_proj := gate_proj m; down_proj := down_proj m;
     up_proj := up_proj m;
     quantization_encoding := quantization_encoding m;
     mlp_float8_config := mlp_float8_config m;
     activation_function := activation_function m;
     dist_gemm_config := cfg |}.

(** The MLP whose [gate_proj] and [up_proj] hold no bias. *)
Definition without_gate_up_bias {TV} (m : MLP TV) : MLP TV :=
  {| gate_proj := set_bias None (gate_proj m); down_proj := down_proj m;
     up_proj := set_bias None (up_proj m);
     quantization_encoding := quantization_encoding m;
     mlp_float8_config := mlp_float8_config m;
     activation_function := activation_function m;
     dist_gemm_config := dist_gemm_config m |}.

(** The example MLP declared with a quantization encoding. *)
Definition example_mlp_encoded (cfg : option DistributedGemmConfig)
  : MLP (Tensor Z) :=
  {| gate_proj := gate_proj (example_mlp true cfg);
     down_proj := down_proj (example_mlp true cfg);
     up_proj := up_proj (example_mlp true cfg);
     quantization_encoding := Some Q4_0;
     mlp_float8_config := None;
     activation_function := relu_Z;
     dist_gemm_config := cfg |}.

(** The example MLP with a bias on [gate_proj] alone. *)
Definition example_mlp_lone_bias : MLP (Tensor Z) :=
  {| gate_proj := example_projection [[1; 0]; [0; 1]] (Some [1; -5]);
     down_proj := example_projection [[1; 1]; [1; 0]] None;
     up_proj := example_projection [[1; 1]; [1; 1]] None;
     quantization_encoding := None;
     mlp_float8_config := None;
     activation_function := relu_Z;
     dist_gemm_config := None |}.

(** A projection that clips its weight at the given threshold. *)
Definition example_projection_clipped (c : Q) : Linear (Tensor Z) :=
  set_clip_weight (Some c) (example_projection [[5; 0]; [0; 1]] (Some [1; -5])).

(** ** What the constructor of Linear declares *)

(** The granularities [Linear.__init__] accepts, lines 275-294. *)
Definition granularities_supported (cfg : Float8Config) : Prop :=
  is_granularity (f8_input_scale cfg) ∈ [TENSOR; COLWISE]
  ∧ ws_granularity (f8_weight_scale cfg) ∈ [ROWWISE; TENSOR].

#[global] Instance granularities_supported_dec cfg :
  Decision (granularities_supported cfg).
Proof. unfold granularities_supported. apply _. Defined.

(** The exceptions other than the two an empty device list gives rise to. *)
Definition not_empty_devices_error (e : Exception) : Prop :=
  e ≠ ValueError EmptyDevices.

Definition not_index_error (e : Exception) : Prop := e ≠ IndexError.

(** A [Weight] constructor that records the shape and the device it is
    given. *)
Definition Weight_records
    (Weight_new : string → DType → list Z → DeviceRef
                  → option QuantizationEncoding → Weight) : Prop :=
  (∀ name dtype shape dev enc,
     w_shape (Weight_new name dtype shape dev enc) = shape)
  ∧ (∀ name dtype shape dev enc,
       w_device (Weight_new name dtype shape dev enc) = dev).

Section Declared.

Variable Weight_new :
  string → DType → list Z → DeviceRef → option QuantizationEncoding → Weight.

(** The scales declared for a float8 configuration, lines 266-312: a scalar
    input scale when the scaling is static, then the weight scale, both on
    the host. *)
Definition declared_scales (name : option string) (out_dim : Z)
    (enc : option QuantizationEncoding) (cfg : Float8Config) : list Weight :=
  (if is_static cfg
   then [Weight_new (attr_name name "input_scale")
           (is_dtype (f8_input_scale cfg)) [] (CPU 0) enc]
   else [])
  ++ [Weight_new (attr_name name "weight_scale")
        (ws_dtype (f8_weight_scale cfg))
        (if is_rowwise (f8_weight_scale cfg) then [out_dim; 1] else [])
        (CPU 0) enc].

(** The tensors [Linear.__init__] declares, in the order of lines 250-312. *)
Definition declared_tensors (in_dim out_dim : Z) (dtype : DType)
    (dev : DeviceRef) (has_bias : bool) (enc : option QuantizationEncoding)
    (f8 : option Float8Config) (name : option string) : list Weight :=
  Weight_new (attr_name name "weight") dtype [out_dim; in_dim] dev enc
  :: (if has_bias
      then [Weight_new (attr_name name "bias") dtype [out_dim] dev enc]
      else [])
  ++ from_option (declared_scales name out_dim enc) [] f8.

End Declared.

(** The layer that holds these tensors, the first of them at [base]. *)
Definition constructed_Linear (base : nat) (dev : DeviceRef) (has_bias : bool)
    (f8 : option Float8Config) (clip : option Q) : Linear ref :=
  let nb := if has_bias then 1%nat else 0%nat in
  let static := from_option is_static false f8 in
  mkLinear base
    (if has_bias then Some (base + 1)%nat else None)
    (if static then Some (base + 1 + nb)%nat else None)
    (match f8 with
     | Some _ => Some (base + 1 + nb + (if static then 1 else 0))%nat
     | None => None
     end)
    dev clip f8.

(** ** Computations that return *)

(** From any store that extends [h0], the computation returns a value that
    satisfies [Q], in a store that extends the one it started in. *)
Definition returns {A} (h0 : Heap) (m : M A) (Q : A → Prop) : Prop :=
  ∀ h, h0 `prefix_of` h →
       ∃ a h', m h = (Ok a, h') ∧ h `prefix_of` h' ∧ Q a.

(** The tensor at [r] has been given a sharding strategy. *)
Definition has_strategy (h : Heap) (r : ref) : Prop :=
  ∃ w, h !! r = Some w ∧ is_Some (w_sharding_strategy w).

(** A size that a dimension of the graph can hold: a natural number that
    fits a signed 64-bit integer. *)
Definition size_ok (d : Z) : Prop := 0 ≤ d < 2 ^ 63.

#[global] Instance size_ok_dec d : Decision (size_ok d).
Proof. unfold size_ok. apply _. Defined.

(** What [Linear.shard] reads of a layer, lines 367-444: a weight of two
    dimensions with a strategy, whose device count is not zero when it is
    rowwise; a strategy on the bias; with a float8 configuration, a scalar
    input scale and a weight scale that is scalar or has a strategy.  The
    dimensions of the weight and of the weight scale are sizes that the
    graph can hold. *)
Definition Linear_shardable (h : Heap) (l : Linear ref) : Prop :=
  (∃ w s d0 d1,
     h !! weight l = Some w ∧ w_sharding_strategy w = Some s
     ∧ w_shape w !! 0%nat = Some d0 ∧ w_shape w !! 1%nat = Some d1
     ∧ Forall size_ok (w_shape w)
     ∧ (Strategy.is_rowwise s = true → num_devices s ≠ 0))
  ∧ (∀ b, bias l = Some b → has_strategy h b)
  ∧ from_option granularities_supported True (float8_config l)
  ∧ (is_Some (float8_config l) →
     (∀ r, input_scale l = Some r → ∃ w, h !! r = Some w ∧ w_shape w = [])
     ∧ (∀ r, weight_scale l = Some r →
             ∃ w, h !! r = Some w ∧ Forall size_ok (w_shape w)
                  ∧ (w_shape w = [] ∨ is_Some (w_sharding_strategy w)))).

(** A strategy whose device count [Linear.shard] can divide by. *)
Definition divisible (s : ShardingStrategy) : Prop :=
  Strategy.is_rowwise s = true → num_devices s ≠ 0.

(** [h'] holds the tensors of [h] with their shapes, some of them given a
    strategy that satisfies [P]: what setters do to a store. *)
Definition restrategized (P : ShardingStrategy → Prop) (h h' : Heap) : Prop :=
  length h' = length h
  ∧ ∀ r w, h !! r = Some w →
      ∃ w', h' !! r = Some w' ∧ w_shape w' = w_shape w
            ∧ (w_sharding_strategy w' = w_sharding_strategy w
               ∨ ∃ s, w_sharding_strategy w' = Some s ∧ P s).

(** A layer whose tensors are in the store as [Linear.__init__] declares
    them: distinct objects, a weight of two dimensions, a scalar input
    scale, a weight scale only with a float8 configuration, of supported
    granularities; the dimensions of the weight and of the weight scale are
    sizes that the graph can hold. *)
Definition Linear_declared (h : Heap) (l : Linear ref) : Prop :=
  Linear_wf h l
  ∧ (is_Some (weight_scale l) → is_Some (float8_config l))
  ∧ from_option granularities_supported True (float8_config l)
  ∧ (∃ w d0 d1, h !! weight l = Some w ∧ w_shape w = [d0; d1]
                ∧ size_ok d0 ∧ size_ok d1)
  ∧ (∀ r, input_scale l = Some r → ∃ w, h !! r = Some w ∧ w_shape w = [])
  ∧ (∀ r, weight_scale l = Some r →
          ∃ w, h !! r = Some w ∧ Forall size_ok (w_shape w)).

(** What [MLP.shard] reads of an MLP, lines 1255-1278: a strategy, three
    projections [Linear.shard] can read, and the arguments it constructs
    each sharded MLP with, the two dimensions being sizes that the graph
    can hold. *)
Definition MLP_shardable (h : Heap) (m : MLPModule) : Prop :=
  is_Some (_sharding_strategy m)
  ∧ Forall (Linear_shardable h) [m_gate_proj m; m_down_proj m; m_up_proj m]
  ∧ from_option granularities_supported True (m_float8_config m)
  ∧ _activation_function_name m ∈ _ACTIVATION_FUNCTIONS
  ∧ size_ok (m_hidden_dim m) ∧ size_ok (m_feed_forward_length m).
(** ** Reasoning about the monad *)

Lemma bind_eq {A B} (m : M A) (f : A → M B) (h : Heap) :
  (m ≫= f) h = match m h with
               | (Ok a, h') => f a h'
               | (Raise e, h') => (Raise e, h')
               end.
Proof. reflexivity. Qed.

Lemma bind_Ok_inv {A B} (m : M A) (f : A → M B) h b h' :
  (m ≫= f) h = (Ok b, h') →
  ∃ a h1, m h = (Ok a, h1) ∧ f a h1 = (Ok b, h').
Proof.
  rewrite bind_eq. destruct (m h) as [[a|e] h1]; [eauto | discriminate].
Qed.

Lemma ret_Ok_inv {A} (a b : A) (h h' : Heap) :
  ret a h = (Ok b, h') → a = b ∧ h = h'.
Proof. unfold ret. by intros [= -> ->]. Qed.

Lemma alloc_read (w : Weight) (h : Heap) :
  read (length h) (h ++ [w]) = (Ok w, h ++ [w]).
Proof. unfold read. by rewrite list_lookup_middle. Qed.

Lemma read_Ok_inv r h w h' :
  read r h = (Ok w, h') → h !! r = Some w ∧ h' = h.
Proof. unfold read. destruct (h !! r); by intros [= -> ->]. Qed.

Lemma read_Some r h w : h !! r = Some w → read r h = (Ok w, h).
Proof. unfold read. by intros ->. Qed.

Lemma read_older (w b : Weight) (h : Heap) :
  read (length h) ((h ++ [w]) ++ [b]) = (Ok w, (h ++ [w]) ++ [b]).
Proof.
  apply read_Some. rewrite <- app_assoc. simpl. by rewrite list_lookup_middle.
Qed.

Lemma extends_only_ret {A} (a : A) : extends_only (ret a).
Proof. by intros h r h' [= _ ->]. Qed.

Lemma extends_only_raise {A} e : extends_only (@raise A e).
Proof. by intros h r h' [= _ ->]. Qed.

Lemma extends_only_alloc w : extends_only (alloc w).
Proof. intros h r h' [= _ <-]. by apply prefix_app_r. Qed.

Lemma extends_only_read r : extends_only (read r).
Proof. intros h o h'. unfold read. by destruct (h !! r); intros [= _ ->]. Qed.

Lemma extends_only_Weight_shape w : extends_only (Weight_shape w).
Proof.
  unfold Weight_shape. case_bool_decide;
    [apply extends_only_ret | apply extends_only_raise].
Qed.

Lemma extends_only_bind {A B} (m : M A) (f : A → M B) :
  extends_only m → (∀ a, extends_only (f a)) → extends_only (m ≫= f).
Proof.
  intros Hm Hf h r h'. rewrite bind_eq.
  destruct (m h) as [[a|e] h1] eqn:E; intros Hr.
  - etrans; [by eapply Hm | by eapply Hf].
  - injection Hr as _ <-. by eapply Hm.
Qed.

Lemma extends_only_shape_at w i : extends_only (shape_at w i).
Proof.
  unfold shape_at.
  apply extends_only_bind; [apply extends_only_Weight_shape|].
  intros shape. destruct (shape !! i);
    [apply extends_only_ret | apply extends_only_raise].
Qed.

Lemma extends_only_shape_len w : extends_only (shape_len w).
Proof.
  unfold shape_len.
  apply extends_only_bind; [apply extends_only_Weight_shape|].
  intros shape. apply extends_only_ret.
Qed.

Lemma extends_only_for_each {A B} (body : nat → A → M B) i xs :
  (∀ i x, extends_only (body i x)) → extends_only (for_each body i xs).
Proof.
  intros Hb. revert i. induction xs as [|x xs IH]; intros i; simpl.
  - apply extends_only_ret.
  - apply extends_only_bind; [done|]. intros y.
    apply extends_only_bind; [done|]. intros ys. apply extends_only_ret.
Qed.

Create HintDb extends.
#[global] Hint Resolve extends_only_ret extends_only_raise extends_only_alloc
  extends_only_read extends_only_shape_at extends_only_shape_len : extends.

(** Decompose a goal [extends_only m] along the syntax of [m]. *)
Ltac extends_step :=
  match goal with
  | |- extends_only (_ ≫= _) => apply extends_only_bind; [|intros ?]
  | |- extends_only (for_each _ _ _) => apply extends_only_for_each; intros ? ?
  | |- extends_only (match ?x with _ => _ end) => destruct x
  | |- extends_only (if ?b then _ else _) => destruct b
  | |- extends_only (let '(_, _) := ?p in _) => destruct p
  | |- extends_only _ => solve [auto with extends]
  end.
Ltac solve_extends := repeat extends_step.

(** What a successful loop tells about each of its results. *)
Lemma for_each_Ok {A B} (body : nat → A → M B) i xs h ys h' :
  (∀ i x, extends_only (body i x)) →
  for_each body i xs h = (Ok ys, h') →
  length ys = length xs ∧
  ∀ k y, ys !! k = Some y →
    ∃ x h1 h2, xs !! k = Some x ∧ h `prefix_of` h1 ∧ h2 `prefix_of` h' ∧
               body (i + k)%nat x h1 = (Ok y, h2).
Proof.
  intros Hb. revert i h ys. induction xs as [|x xs IH]; intros i h ys; simpl.
  - intros [<- <-]%ret_Ok_inv. split; [done|]. intros k y. by rewrite lookup_nil.
  - intros (y0 & h1 & E1 & (ys' & h2 & E2 & [<- <-]%ret_Ok_inv)%bind_Ok_inv)%bind_Ok_inv.
    destruct (IH _ _ _ E2) as [Hlen Hk].
    split; [simpl; by rewrite Hlen|].
    intros [|k] y; simpl.
    + intros [= <-]. exists x, h, h1. rewrite Nat.add_0_r.
      split_and!; [done..| |done].
      by eapply (extends_only_for_each body (S i) xs Hb).
    + intros Hy. destruct (Hk _ _ Hy) as (x' & ha & hb & ? & ? & ? & Hbody).
      exists x', ha, hb. split_and!; [done| |done|].
      * etrans; [by eapply Hb | done].
      * by rewrite Nat.add_succ_r.
Qed.

Section ConfigurationFacts.

Variable Weight_new :
  string → DType → list Z → DeviceRef → option QuantizationEncoding → Weight.
Variable partition : ShardingStrategy → Weight → nat → DeviceRef → Weight.

Lemma extends_only_Weight_shard r devs :
  extends_only (Weight_shard partition r devs).
Proof. unfold Weight_shard. solve_extends. Qed.

Lemma extends_only_Linear_init in_dim out_dim dtype dev has_bias enc f8 name clip :
  extends_only
    (Linear_init Weight_new in_dim out_dim dtype dev has_bias enc f8 name clip).
Proof. unfold Linear_init. solve_extends. Qed.

Lemma extends_only_Linear_shard_one self out_dim sb sws i dw :
  extends_only (Linear_shard_one Weight_new self out_dim sb sws i dw).
Proof.
  unfold Linear_shard_one. destruct dw.
  pose proof extends_only_Linear_init. solve_extends.
Qed.

End ConfigurationFacts.

(** ** Construction-time validation *)

Section ConstructionFacts.

Variable Weight_new :
  string → DType → list Z → DeviceRef → option QuantizationEncoding → Weight.

(** C8. Constructing a Linear with [has_bias=True] raises the
    device-mismatch [ValueError] whenever the allocated bias and the
    allocated weight end up on different devices; at that point exactly the
    weight and the bias have been allocated. *)
Theorem Linear_init_bias_device_mismatch
    in_dim out_dim dtype dev enc f8 name clip (h : Heap) :
  let w := Weight_new (attr_name name "weight") dtype [out_dim; in_dim] dev enc in
  let b := Weight_new (attr_name name "bias") dtype [out_dim] dev enc in
  w_device b ≠ w_device w →
  Linear_init Weight_new in_dim out_dim dtype dev true enc f8 name clip h
  = (Raise (ValueError (BiasDeviceMismatch (w_device b) (w_device w))),
     h ++ [w; b]).
Proof.
  intros w b Hne. subst w b. unfold Linear_init.
  rewrite bind_eq. unfold alloc at 1.
  rewrite bind_eq, bind_eq. unfold alloc at 1.
  rewrite bind_eq, alloc_read, bind_eq, read_older.
  rewrite bool_decide_eq_true_2 by done.
  unfold raise. by rewrite <- app_assoc.
Qed.

(** C6 (amended). Constructing the [Float8Config] itself succeeds whatever
    its granularities; the granularities are validated when a [Linear] is
    constructed with it: an input-scale granularity other than tensor or
    colwise, or a weight-scale granularity other than rowwise or tensor,
    makes [Linear.__init__] raise the unsupported-granularity [ValueError]
    (the input scale being checked first), provided the bias, if any, sits
    on the device of the weight. *)
Theorem Linear_init_unsupported_granularity
    in_dim out_dim dtype dev has_bias enc cfg name clip (h : Heap) :
  (has_bias = true →
   w_device (Weight_new (attr_name name "bias") dtype [out_dim] dev enc)
   = w_device (Weight_new (attr_name name "weight") dtype [out_dim; in_dim] dev enc)) →
  is_granularity (f8_input_scale cfg) ∉ [TENSOR; COLWISE]
  ∨ ws_granularity (f8_weight_scale cfg) ∉ [ROWWISE; TENSOR] →
  Float8Config_init (f8_input_scale cfg) (f8_weight_scale cfg)
    (mlp_in_float8 cfg) (attn_qkv_in_float8 cfg)
    (embedding_output_dtype cfg) (quant_method cfg) = Ok cfg
  ∧ ∃ h',
      Linear_init Weight_new in_dim out_dim dtype dev has_bias enc (Some cfg)
        name clip h
      = (Raise (ValueError (granularity_error cfg)), h').
Proof.
  intros Hdev Hbad. split; [by destruct cfg|].
  unfold Linear_init, granularity_error, is_rowwise, is_tensor.
  rewrite bind_eq. unfold alloc at 1. rewrite bind_eq.
  assert (∃ o h1,
    (if has_bias
     then
       b ← alloc (Weight_new (attr_name name "bias") dtype [out_dim] dev enc);
       bw ← read b; ww ← read (length h);
       if bool_decide (w_device bw ≠ w_device ww)
       then raise (ValueError (BiasDeviceMismatch (w_device bw) (w_device ww)))
       else ret (Some b)
     else ret None)
      (h ++ [Weight_new (attr_name name "weight") dtype [out_dim; in_dim] dev enc])
    = (Ok o, h1)) as (o & h1 & ->).
  { destruct has_bias; [|by eexists _, _].
    rewrite bind_eq. unfold alloc at 1.
    rewrite bind_eq, alloc_read, bind_eq, read_older.
    rewrite bool_decide_eq_false_2; [by eexists _, _|].
    intros Hne. by apply Hne, Hdev. }
  rewrite bind_eq.
  destruct (is_static cfg).
  - rewrite bind_eq, bind_eq. unfold alloc at 1. unfold ret at 1.
    rewrite bind_eq. case_bool_decide as Hin.
    + by eexists.
    + unfold ret at 1. rewrite bind_eq.
      destruct Hbad as [Hbad|Hbad]; [done|].
      rewrite (bool_decide_eq_false_2 (ws_granularity _ = ROWWISE)) by
        (intros E; apply Hbad; rewrite E; repeat constructor).
      rewrite (bool_decide_eq_false_2 (ws_granularity _ = TENSOR)) by
        (intros E; apply Hbad; rewrite E; repeat constructor).
      by eexists.
  - rewrite bind_eq. unfold ret at 1.
    rewrite bind_eq. case_bool_decide as Hin.
    + by eexists.
    + unfold ret at 1. rewrite bind_eq.
      destruct Hbad as [Hbad|Hbad]; [done|].
      rewrite (bool_decide_eq_false_2 (ws_granularity _ = ROWWISE)) by
        (intros E; apply Hbad; rewrite E; repeat constructor).
      rewrite (bool_decide_eq_false_2 (ws_granularity _ = TENSOR)) by
        (intros E; apply Hbad; rewrite E; repeat constructor).
      by eexists.
Qed.

End ConstructionFacts.

Lemma Linear_init_bias_device_mismatch_witness :
  w_device (Weight_bias_on (GPU 1) "bias" float32 [128] (GPU 0) None)
  ≠ w_device (Weight_bias_on (GPU 1) "weight" float32 [128; 256] (GPU 0) None)
  ∧ Linear_init (Weight_bias_on (GPU 1)) 256 128 float32 (GPU 0) true None None
      None None []
    = (Raise (ValueError (BiasDeviceMismatch (GPU 1) (GPU 0))),
       [Weight_plain "weight" float32 [128; 256] (GPU 0) None;
        Weight_plain "bias" float32 [128] (GPU 1) None]).
Proof.
  split; [by vm_compute|].
  apply (Linear_init_bias_device_mismatch (Weight_bias_on (GPU 1)) 256 128
           float32 (GPU 0) None None None None []).
  by vm_compute.
Defined.

(** With the plain constructor the bias is declared on the device of the
    weight, and the device check of [Linear.__init__] passes. *)
Lemma Linear_init_plain_devices_agree name dtype in_dim out_dim dev enc :
  w_device (Weight_plain (attr_name name "bias") dtype [out_dim] dev enc)
  = w_device (Weight_plain (attr_name name "weight") dtype [out_dim; in_dim] dev enc).
Proof. reflexivity. Qed.

(** C6 (as stated, refuted). Constructing a [Float8Config] whose input scale
    has granularity [BLOCK] returns the configuration: nothing is raised. *)
Lemma Float8Config_init_block_not_rejected :
  Float8Config_init
    {| is_granularity := BLOCK; is_origin := DYNAMIC; is_dtype := float32;
       activation_scale_ub := None |}
    {| ws_granularity := COLWISE; ws_dtype := float32 |} ∅ ∅ None None
  = Ok (float8_config_of BLOCK COLWISE DYNAMIC)
  ∧ (∀ e, Float8Config_init
            {| is_granularity := BLOCK; is_origin := DYNAMIC; is_dtype := float32;
               activation_scale_ub := None |}
            {| ws_granularity := COLWISE; ws_dtype := float32 |} ∅ ∅ None None
          ≠ Raise e).
Proof. split; [reflexivity | discriminate]. Qed.

Lemma Linear_init_unsupported_granularity_witness :
  (is_granularity (f8_input_scale (float8_config_of BLOCK ROWWISE DYNAMIC))
     ∉ [TENSOR; COLWISE])
  ∧ ∃ h',
      Linear_init Weight_plain 256 128 float32 (GPU 0) true None
        (Some (float8_config_of BLOCK ROWWISE DYNAMIC)) None None []
      = (Raise (ValueError (UnsupportedInputScaleGranularity BLOCK)), h').
Proof.
  assert (Hbad : is_granularity (f8_input_scale (float8_config_of BLOCK ROWWISE DYNAMIC))
                 ∉ [TENSOR; COLWISE]).
  { apply (bool_decide_unpack _). by vm_compute. }
  split; [exact Hbad|].
  exact (proj2 (Linear_init_unsupported_granularity Weight_plain 256 128 float32
                  (GPU 0) true None (float8_config_of BLOCK ROWWISE DYNAMIC)
                  None None [] (λ _, eq_refl) (or_introl Hbad))).
Defined.

(** ** DistributedGemmConfig.generate *)

(** C10. [generate] enables the fused matmul/all-reduce when the variable is
    unset and for every non-empty value of it, ["0"] and ["false"] included;
    only the empty string disables it. *)
Theorem DistributedGemmConfig_generate_spec (environ : gmap string string) :
  (environ !! "LLAMA_ENABLE_DIST_GEMM_KERNELS" = None →
   DistributedGemmConfig_generate environ
   = Some {| enable_matmul_allreduce := true |})
  ∧ (∀ s, environ !! "LLAMA_ENABLE_DIST_GEMM_KERNELS" = Some s → s ≠ "" →
     DistributedGemmConfig_generate environ
     = Some {| enable_matmul_allreduce := true |})
  ∧ (environ !! "LLAMA_ENABLE_DIST_GEMM_KERNELS" = Some "" →
     DistributedGemmConfig_generate environ
     = Some {| enable_matmul_allreduce := false |}).
Proof.
  unfold DistributedGemmConfig_generate. split_and!.
  - by intros ->.
  - intros s -> Hs. destruct s; [done|]. reflexivity.
  - by intros ->.
Qed.

Lemma DistributedGemmConfig_generate_spec_witness :
  (DistributedGemmConfig_generate ∅ = Some {| enable_matmul_allreduce := true |})
  ∧ (DistributedGemmConfig_generate {[ "LLAMA_ENABLE_DIST_GEMM_KERNELS" := "0" ]}
     = Some {| enable_matmul_allreduce := true |})
  ∧ (DistributedGemmConfig_generate {[ "LLAMA_ENABLE_DIST_GEMM_KERNELS" := "false" ]}
     = Some {| enable_matmul_allreduce := true |})
  ∧ (DistributedGemmConfig_generate {[ "LLAMA_ENABLE_DIST_GEMM_KERNELS" := "" ]}
     = Some {| enable_matmul_allreduce := false |}).
Proof.
  split_and!.
  - apply (proj1 (DistributedGemmConfig_generate_spec ∅)). by vm_compute.
  - apply (proj1 (proj2 (DistributedGemmConfig_generate_spec
                           {[ "LLAMA_ENABLE_DIST_GEMM_KERNELS" := "0" ]})) "0");
      [by vm_compute | discriminate].
  - apply (proj1 (proj2 (DistributedGemmConfig_generate_spec
                           {[ "LLAMA_ENABLE_DIST_GEMM_KERNELS" := "false" ]})) "false");
      [by vm_compute | discriminate].
  - apply (proj2 (proj2 (DistributedGemmConfig_generate_spec
                           {[ "LLAMA_ENABLE_DIST_GEMM_KERNELS" := "" ]}))).
    by vm_compute.
Defined.

(** ** Propagation of the sharding strategy *)

Lemma modify_Some r f (h : Heap) w :
  h !! r = Some w → modify r f h = (Ok tt, <[r := f w]> h).
Proof. unfold modify. by intros ->. Qed.

Lemma is_colwise_spec s : Strategy.is_colwise s = true ↔ kind s = Columnwise.
Proof. unfold Strategy.is_colwise. by rewrite bool_decide_eq_true. Qed.

Lemma is_head_aware_colwise_spec s :
  Strategy.is_head_aware_colwise s = true ↔ kind s = HeadAwareColumnwise.
Proof. unfold Strategy.is_head_aware_colwise. by rewrite bool_decide_eq_true. Qed.

Lemma is_rowwise_strategy_spec s : Strategy.is_rowwise s = true ↔ kind s = Rowwise.
Proof. unfold Strategy.is_rowwise. by rewrite bool_decide_eq_true. Qed.

Lemma is_rowwise_spec s : is_rowwise s = true ↔ ws_granularity s = ROWWISE.
Proof. unfold is_rowwise. by rewrite bool_decide_eq_true. Qed.

Lemma is_tensor_spec s : is_tensor s = true ↔ ws_granularity s = TENSOR.
Proof. unfold is_tensor. by rewrite bool_decide_eq_true. Qed.

(** The test [should_replicate] of the setter, as a proposition. *)
Lemma should_replicate_spec (cfg : Float8Config) (strategy : ShardingStrategy) :
  is_tensor (f8_weight_scale cfg)
  || ((Strategy.is_colwise strategy || Strategy.is_head_aware_colwise strategy)
      && is_rowwise (f8_weight_scale cfg)) = true
  ↔ ws_granularity (f8_weight_scale cfg) = TENSOR
    ∨ ((kind strategy = Columnwise ∨ kind strategy = HeadAwareColumnwise)
       ∧ ws_granularity (f8_weight_scale cfg) = ROWWISE).
Proof.
  rewrite orb_true_iff, andb_true_iff, orb_true_iff.
  by rewrite is_tensor_spec, is_rowwise_spec, is_colwise_spec,
    is_head_aware_colwise_spec.
Qed.

(** What the setter leaves at the weight scale and at the weight. *)
Lemma Linear_set_sharding_strategy_run (l : Linear ref) strategy (h : Heap) ws cfg :
  weight_scale l = Some ws → float8_config l = Some cfg → Linear_wf h l →
  ∃ h',
    Linear_set_sharding_strategy l strategy h = (Ok tt, h')
    ∧ w_sharding_strategy <$> h' !! ws
      = Some (Some (if is_tensor (f8_weight_scale cfg)
                       || ((Strategy.is_colwise strategy
                            || Strategy.is_head_aware_colwise strategy)
                           && is_rowwise (f8_weight_scale cfg))
                    then Strategy.replicate (num_devices strategy)
                    else strategy))
    ∧ w_sharding_strategy <$> h' !! weight l = Some (Some strategy).
Proof.
  destruct l as [w b i s d c f]. simpl. intros -> -> [Hnd Hin].
  unfold Linear_refs in *. simpl in *.
  unfold Linear_set_sharding_strategy. simpl.
  apply NoDup_cons in Hnd as [Hw Hnd]. apply Forall_cons in Hin as [Hwl Hin].
  destruct (lookup_lt_is_Some_2 h w Hwl) as [ww Eww].
  assert (Hws : (ws < length h)%nat).
  { rewrite !Forall_app in Hin. destruct Hin as (_ & _ & Hs).
    by apply Forall_cons in Hs as [? _]. }
  assert (Hwws : w ≠ ws) by (intros ->; apply Hw; set_solver).
  rewrite bind_eq, (modify_Some _ _ _ _ Eww), bind_eq.
  destruct (lookup_lt_is_Some_2 (<[w:=set_w_sharding_strategy strategy ww]> h) ws)
    as [wsw Ewsw]; [by rewrite length_insert|].
  rewrite (modify_Some _ _ _ _ Ewsw).
  destruct b as [b|]; simpl in *.
  - assert (Hb : (b < length h)%nat) by (by apply Forall_cons in Hin as [? _]).
    assert (Hbws : b ≠ ws).
    { intros ->. apply NoDup_cons in Hnd as [Hn _]. apply Hn. set_solver. }
    assert (Hbw : w ≠ b) by (intros ->; apply Hw; set_solver).
    match goal with |- context [modify b ?f ?hh] =>
      destruct (lookup_lt_is_Some_2 hh b) as [bw Ebw];
        [by rewrite !length_insert|];
      rewrite (modify_Some _ f _ _ Ebw) end.
    eexists. split; [done|]. split.
    + rewrite list_lookup_insert_ne by done.
      rewrite list_lookup_insert_eq by (by rewrite length_insert). done.
    + rewrite list_lookup_insert_ne by done.
      rewrite list_lookup_insert_ne by done.
      rewrite list_lookup_insert_eq by done. done.
  - eexists. split; [done|]. split.
    + rewrite list_lookup_insert_eq by (by rewrite length_insert). done.
    + rewrite list_lookup_insert_ne by done.
      rewrite list_lookup_insert_eq by done. done.
Qed.

(** C2. For a Linear with a weight scale, assigning a strategy sets the
    strategy of the weight scale to [replicate(num_devices)] when the
    weight-scale granularity is tensor, or when the strategy is colwise or
    head-aware colwise and the granularity is rowwise; in every other case
    the weight scale receives the strategy of the weight.  Unless the
    assigned strategy is itself a replication, the weight scale is replicated
    in those cases only. *)
Theorem Linear_set_sharding_strategy_weight_scale
    (l : Linear ref) strategy (h : Heap) ws cfg :
  weight_scale l = Some ws → float8_config l = Some cfg → Linear_wf h l →
  let g := ws_granularity (f8_weight_scale cfg) in
  let replicated :=
    g = TENSOR
    ∨ ((kind strategy = Columnwise ∨ kind strategy = HeadAwareColumnwise)
       ∧ g = ROWWISE) in
  ∃ h' s_ws,
    Linear_set_sharding_strategy l strategy h = (Ok tt, h')
    ∧ w_sharding_strategy <$> h' !! weight l = Some (Some strategy)
    ∧ w_sharding_strategy <$> h' !! ws = Some (Some s_ws)
    ∧ (replicated → s_ws = Strategy.replicate (num_devices strategy))
    ∧ (¬ replicated → s_ws = strategy)
    ∧ (kind strategy ≠ Replicate →
       s_ws = Strategy.replicate (num_devices strategy) ↔ replicated).
Proof.
  intros Hws Hcfg Hwf g replicated.
  destruct (Linear_set_sharding_strategy_run l strategy h ws cfg Hws Hcfg Hwf)
    as (h' & Hrun & Hscale & Hweight).
  subst g replicated.
  eexists h', _. split_and!; [done..| | |].
  - intros Hr. apply should_replicate_spec in Hr. by rewrite Hr.
  - intros Hr. destruct (_ || _) eqn:E; [|done].
    by apply should_replicate_spec in E.
  - intros Hk. destruct (_ || _) eqn:E.
    + split; [intros _; by apply should_replicate_spec | done].
    + split; [|intros Hr; apply should_replicate_spec in Hr; congruence].
      intros Hs. destruct strategy as [n k]. by injection Hs.
Qed.

Lemma Linear_set_sharding_strategy_weight_scale_witness :
  Linear_wf (example_heap [128; 1]) (example_linear (float8_config_of TENSOR ROWWISE DYNAMIC))
  ∧ ∃ h',
      Linear_set_sharding_strategy
        (example_linear (float8_config_of TENSOR ROWWISE DYNAMIC))
        (Strategy.columnwise 2) (example_heap [128; 1]) = (Ok tt, h')
      ∧ w_sharding_strategy <$> h' !! 2%nat = Some (Some (Strategy.replicate 2)).
Proof.
  assert (Hwf : Linear_wf (example_heap [128; 1])
                  (example_linear (float8_config_of TENSOR ROWWISE DYNAMIC))).
  { apply (bool_decide_unpack _). by vm_compute. }
  split; [exact Hwf|].
  destruct (Linear_set_sharding_strategy_weight_scale
              (example_linear (float8_config_of TENSOR ROWWISE DYNAMIC))
              (Strategy.columnwise 2) (example_heap [128; 1]) 2%nat
              (float8_config_of TENSOR ROWWISE DYNAMIC) eq_refl eq_refl Hwf)
    as (h' & s_ws & Hrun & _ & Hscale & Hrep & _).
  exists h'. split; [exact Hrun|].
  rewrite Hscale, Hrep; [reflexivity|].
  right. split; [by left | reflexivity].
Defined.

(** ** Sharding *)

Lemma Weight_shape_Ok_inv w (h : Heap) shape h' :
  Weight_shape w h = (Ok shape, h') →
  shape = w_shape w ∧ Forall dim_ok (w_shape w) ∧ h' = h.
Proof.
  unfold Weight_shape. case_bool_decide; [|discriminate].
  by intros [<- ->]%ret_Ok_inv.
Qed.

(** A shape within the range of the dimensions is read as it is. *)
Lemma Weight_shape_Some w (h : Heap) :
  Forall dim_ok (w_shape w) → Weight_shape w h = (Ok (w_shape w), h).
Proof. intros Hok. unfold Weight_shape. by rewrite bool_decide_eq_true_2. Qed.

Lemma shape_at_Ok_inv w i (h : Heap) d h' :
  shape_at w i h = (Ok d, h') → w_shape w !! i = Some d ∧ h' = h.
Proof.
  unfold shape_at.
  intros (shape & h1 & (-> & _ & ->)%Weight_shape_Ok_inv & H)%bind_Ok_inv.
  destruct (w_shape w !! i); [|discriminate].
  by apply ret_Ok_inv in H as [-> ->].
Qed.

(** A dimension that was read fits a signed 64-bit integer. *)
Lemma shape_at_Ok_dim_ok w i (h : Heap) d h' :
  shape_at w i h = (Ok d, h') → Forall dim_ok (w_shape w) ∧ dim_ok d.
Proof.
  intros H. pose proof (shape_at_Ok_inv _ _ _ _ _ H) as [Hd _].
  unfold shape_at in H.
  apply bind_Ok_inv in H as (shape & h1 & (-> & Hok & ->)%Weight_shape_Ok_inv & _).
  split; [done|]. eapply Forall_lookup_1; [exact Hok | exact Hd].
Qed.

Lemma shape_len_Ok_inv w (h : Heap) n h' :
  shape_len w h = (Ok n, h') → n = length (w_shape w) ∧ h' = h.
Proof.
  unfold shape_len.
  intros (shape & h1 & (-> & _ & ->)%Weight_shape_Ok_inv & H)%bind_Ok_inv.
  by apply ret_Ok_inv in H as [<- ->].
Qed.

Lemma raise_Ok_inv {A} e (h : Heap) (a : A) h' : raise e h = (Ok a, h') → False.
Proof. discriminate. Qed.

(** One step of inversion of a run that returned normally. *)
Ltac inv_step :=
  match goal with
  | H : (_ ≫= _) _ = (Ok _, _) |- _ =>
      let a := fresh "a" in let h1 := fresh "h" in let E := fresh "E" in
      apply bind_Ok_inv in H as (a & h1 & E & H)
  | H : ret _ _ = (Ok _, _) |- _ => apply ret_Ok_inv in H as [? ?]; subst
  | H : raise _ _ = (Ok _, _) |- _ => destruct (raise_Ok_inv _ _ _ _ H)
  | H : read _ _ = (Ok _, _) |- _ => apply read_Ok_inv in H as [? ?]; subst
  | H : shape_at _ _ _ = (Ok _, _) |- _ =>
      apply shape_at_Ok_inv in H as [? ?]; subst
  | H : shape_len _ _ = (Ok _, _) |- _ =>
      apply shape_len_Ok_inv in H as [? ?]; subst
  | H : (match ?x with _ => _ end) _ = (Ok _, _) |- _ => destruct x eqn:?
  | H : (if ?b then _ else _) _ = (Ok _, _) |- _ => destruct b eqn:?
  end.

Lemma prefix_lookup (h h' : Heap) r w :
  h `prefix_of` h' → h !! r = Some w → h' !! r = Some w.
Proof. intros Hp Hr. by eapply prefix_lookup_Some. Qed.

Section ShardFacts.

Variable Weight_new :
  string → DType → list Z → DeviceRef → option QuantizationEncoding → Weight.
Variable partition : ShardingStrategy → Weight → nat → DeviceRef → Weight.

(** The loop of [Weight.shard] allocates the shards one after the other. *)
Lemma for_each_alloc (f : nat → DeviceRef → Weight) i devs (h : Heap) :
  for_each (λ k d, alloc (f k d)) i devs h
  = (Ok (seq (length h) (length devs)), h ++ imap (λ k, f (i + k)%nat) devs).
Proof.
  revert i h. induction devs as [|d devs IH]; intros i h; simpl.
  - unfold ret. by rewrite app_nil_r.
  - rewrite bind_eq. unfold alloc at 1. rewrite bind_eq, IH.
    unfold ret. rewrite length_app. simpl.
    rewrite Nat.add_1_r, Nat.add_0_r, <- app_assoc. simpl.
    do 3 f_equal. apply imap_ext. intros k x _. simpl. f_equal. lia.
Qed.

Lemma Weight_shard_Ok r devs (h : Heap) refs h' :
  Weight_shard partition r devs h = (Ok refs, h') →
  ∃ w s, h !! r = Some w ∧ w_sharding_strategy w = Some s
         ∧ refs = seq (length h) (length devs)
         ∧ h' = h ++ imap (partition s w) devs.
Proof.
  unfold Weight_shard. intros H. repeat inv_step.
  rewrite for_each_alloc in H. injection H as <- <-. eauto 10.
Qed.

(** The stages of a successful [Linear.shard]. *)
Lemma Linear_shard_Ok self devs (h : Heap) shards h' :
  Linear_shard Weight_new partition self devs h = (Ok shards, h') →
  ∃ w s out_dim sharded_weights sharded_biases sharded_weight_scales ha hb hc,
    h !! weight self = Some w ∧ w_sharding_strategy w = Some s
    ∧ Linear_shard_out_dim w s h = (Ok out_dim, h)
    ∧ Weight_shard partition (weight self) devs h = (Ok sharded_weights, ha)
    ∧ match bias self with
      | Some b => Weight_shard partition b devs
      | None => ret []
      end ha = (Ok sharded_biases, hb)
    ∧ match float8_config self, weight_scale self with
      | Some _, Some r =>
          wsw ← read r;
          rank ← shape_len wsw;
          if bool_decide (0 < rank)%nat
          then Weight_shard partition r devs
          else ret []
      | _, _ => ret []
      end hb = (Ok sharded_weight_scales, hc)
    ∧ for_each (Linear_shard_one Weight_new self out_dim sharded_biases
                  sharded_weight_scales)
        0%nat (zip devs sharded_weights) hc = (Ok shards, h').
Proof.
  unfold Linear_shard. intros H.
  apply bind_Ok_inv in H as (w & h1 & [Hw ->]%read_Ok_inv & H).
  destruct (w_sharding_strategy w) as [s|] eqn:Hs; [|discriminate].
  apply bind_Ok_inv in H as (out_dim & h2 & Hout & H).
  assert (h2 = h) as ->.
  { unfold Linear_shard_out_dim in Hout. by repeat inv_step. }
  apply bind_Ok_inv in H as (sw & ha & Hsw & H).
  apply bind_Ok_inv in H as (sb & hb & Hsb & H).
  apply bind_Ok_inv in H as (sws & hc & Hsws & H).
  eauto 20.
Qed.

(** Each stage only allocates. *)
Lemma Linear_shard_stages_extend self devs (h ha hb hc : Heap) sw sb sws :
  Weight_shard partition (weight self) devs h = (Ok sw, ha) →
  match bias self with
  | Some b => Weight_shard partition b devs
  | None => ret []
  end ha = (Ok sb, hb) →
  match float8_config self, weight_scale self with
  | Some _, Some r =>
      wsw ← read r;
      rank ← shape_len wsw;
      if bool_decide (0 < rank)%nat
      then Weight_shard partition r devs
      else ret []
  | _, _ => ret []
  end hb = (Ok sws, hc) →
  h `prefix_of` ha ∧ ha `prefix_of` hb ∧ hb `prefix_of` hc
  ∧ length sw = length devs.
Proof.
  intros Hsw Hsb Hsws. split_and!.
  - by eapply extends_only_Weight_shard.
  - destruct (bias self); [by eapply extends_only_Weight_shard|].
    apply ret_Ok_inv in Hsb as [_ ->]. done.
  - revert Hsws. generalize (Ok sws). intros o Hsws.
    assert (extends_only
              (match float8_config self, weight_scale self with
               | Some _, Some r =>
                   wsw ← read r;
                   rank ← shape_len wsw;
                   if bool_decide (0 < rank)%nat
                   then Weight_shard partition r devs
                   else ret []
               | _, _ => ret []
               end)) as Hext.
    { pose proof (extends_only_Weight_shard partition). solve_extends. }
    by eapply Hext.
  - apply Weight_shard_Ok in Hsw as (? & ? & _ & _ & -> & _).
    by rewrite length_seq.
Qed.

(** What the body of the loop puts into a shard. *)
Lemma Linear_shard_one_Ok self out_dim sb sws i dev wsr (h1 h2 : Heap) sh w s :
  h1 !! weight self = Some w → w_sharding_strategy w = Some s →
  Linear_shard_one Weight_new self out_dim sb sws i (dev, wsr) h1 = (Ok sh, h2) →
  weight sh = wsr
  ∧ (is_Some (bias self) →
     if (Strategy.is_colwise s || Strategy.is_head_aware_colwise s)
        && bool_decide (0 < i)%nat
     then bias sh = None
     else ∃ b, sb !! i = Some b ∧ bias sh = Some b)
  ∧ (is_Some (float8_config self) →
     ∀ r, input_scale self = Some r → input_scale sh = Some r)
  ∧ (is_Some (float8_config self) →
     ∀ r wsw, weight_scale self = Some r → h1 !! r = Some wsw →
              if bool_decide (length (w_shape wsw) = 0%nat)
              then weight_scale sh = Some r
              else ∃ r', sws !! i = Some r' ∧ weight_scale sh = Some r').
Proof.
  intros Hw Hs. unfold Linear_shard_one. intros H.
  apply bind_Ok_inv in H as (w0 & h0 & [Hw0 ->]%read_Ok_inv & H).
  assert (w0 = w) as -> by congruence.
  apply bind_Ok_inv in H as (in_dim & h0 & [_ ->]%shape_at_Ok_inv & H).
  apply bind_Ok_inv in H as (sharded0 & hx & Hinit & H).
  assert (Hpre : h1 `prefix_of` hx) by (by eapply extends_only_Linear_init).
  apply bind_Ok_inv in H as (sharded1 & hy & Hbias & H).
  assert (hy = hx ∧ weight sharded1 = wsr
          ∧ input_scale sharded1 = input_scale sharded0
          ∧ weight_scale sharded1 = weight_scale sharded0
          ∧ (is_Some (bias self) →
             if (Strategy.is_colwise s || Strategy.is_head_aware_colwise s)
                && bool_decide (0 < i)%nat
             then bias sharded1 = None
             else ∃ b, sb !! i = Some b ∧ bias sharded1 = Some b))
    as (-> & Hwt & His & Hwsc & Hb).
  { destruct (bias self) as [b0|]; [|inv_step; split_and!; try done;
                                     by intros [? [=]]].
    apply bind_Ok_inv in Hbias as (w1 & h0 & [Hw1 ->]%read_Ok_inv & Hbias).
    rewrite (prefix_lookup _ _ _ _ Hpre Hw) in Hw1. injection Hw1 as <-.
    rewrite Hs in Hbias.
    destruct ((Strategy.is_colwise s || Strategy.is_head_aware_colwise s)
              && bool_decide (0 < i)%nat).
    - inv_step. by split_and!.
    - destruct (sb !! i) as [b|] eqn:Eb; [|discriminate].
      inv_step. split_and!; try done. intros _. by exists b. }
  destruct (float8_config self) as [cfg|].
  2: { inv_step. split_and!; [done|exact Hb| |]; by intros []%is_Some_None. }
  apply bind_Ok_inv in H as (sharded2 & hz & Hin & H).
  assert (hz = hx ∧ weight sharded2 = wsr ∧ bias sharded2 = bias sharded1
          ∧ ∀ r, input_scale self = Some r → input_scale sharded2 = Some r)
    as (-> & Hwt2 & Hb2 & His2).
  { destruct (input_scale self) as [r0|]; [|inv_step; by split_and!].
    apply bind_Ok_inv in Hin as (isw & h0 & [Hisw ->]%read_Ok_inv & Hin).
    apply bind_Ok_inv in Hin as (n & h0 & [-> ->]%shape_len_Ok_inv & Hin).
    destruct (bool_decide (length (w_shape isw) = 0%nat)); [|by inv_step].
    inv_step. by split_and!. }
  destruct (weight_scale self) as [r0|].
  2: { inv_step. rewrite Hb2. split_and!; [done..|]. by intros _ r wsw [=]. }
  apply bind_Ok_inv in H as (wsw0 & h0 & [Hwsw ->]%read_Ok_inv & H).
  apply bind_Ok_inv in H as (n & h0 & [-> ->]%shape_len_Ok_inv & H).
  assert (Hfin : if bool_decide (length (w_shape wsw0) = 0%nat)
                 then weight_scale sh = Some r0
                 else ∃ r', sws !! i = Some r' ∧ weight_scale sh = Some r').
  { destruct (bool_decide (length (w_shape wsw0) = 0%nat)); [by inv_step|].
    destruct (sws !! i) as [r'|] eqn:Er; [|by inv_step].
    inv_step. by exists r'. }
  assert (weight sh = wsr ∧ bias sh = bias sharded1
          ∧ input_scale sh = input_scale sharded2) as (Hw3 & Hb3 & Hi3).
  { destruct (bool_decide (length (w_shape wsw0) = 0%nat)); [by inv_step|].
    destruct (sws !! i); by inv_step. }
  rewrite Hb3, Hi3. split_and!; [done..|].
  intros _ r wsw [= <-] Hr.
  rewrite (prefix_lookup _ _ _ _ Hpre Hr) in Hwsw. by injection Hwsw as <-.
Qed.

(** The shards of a successful [Linear.shard], one by one: shard [i] is
    built by the body of the loop for device [i] and the [i]-th shard of
    the weight, in a store that extends the one the loop started in. *)
Lemma Linear_shard_lookup self devs (h : Heap) shards h' :
  Linear_shard Weight_new partition self devs h = (Ok shards, h') →
  ∃ w s out_dim sb sws ha hb hc,
    h !! weight self = Some w ∧ w_sharding_strategy w = Some s
    ∧ Linear_shard_out_dim w s h = (Ok out_dim, h)
    ∧ ha = h ++ imap (partition s w) devs
    ∧ match bias self with
      | Some b => Weight_shard partition b devs
      | None => ret []
      end ha = (Ok sb, hb)
    ∧ match float8_config self, weight_scale self with
      | Some _, Some r =>
          wsw ← read r;
          rank ← shape_len wsw;
          if bool_decide (0 < rank)%nat
          then Weight_shard partition r devs
          else ret []
      | _, _ => ret []
      end hb = (Ok sws, hc)
    ∧ h `prefix_of` ha ∧ ha `prefix_of` hb ∧ hb `prefix_of` hc
    ∧ hc `prefix_of` h'
    ∧ length shards = length devs
    ∧ ∀ i sh, shards !! i = Some sh →
        ∃ dev h1 h2,
          devs !! i = Some dev ∧ hc `prefix_of` h1 ∧ h2 `prefix_of` h'
          ∧ Linear_shard_one Weight_new self out_dim sb sws i
              (dev, (length h + i)%nat) h1 = (Ok sh, h2).
Proof.
  intros H.
  apply Linear_shard_Ok in H
    as (w & s & out_dim & sw & sb & sws & ha & hb & hc
        & Hw & Hs & Hout & Hsw & Hsb & Hsws & Hloop).
  destruct (Linear_shard_stages_extend _ _ _ _ _ _ _ _ _ Hsw Hsb Hsws)
    as (Hha & Hhb & Hhc & Hlen).
  apply Weight_shard_Ok in Hsw as (w' & s' & Hw' & Hs' & -> & ->).
  assert (w' = w) as -> by congruence.
  assert (s' = s) as -> by congruence.
  pose proof (extends_only_Linear_shard_one Weight_new self out_dim sb sws)
    as Hext.
  pose proof (extends_only_for_each _ 0%nat (zip devs (seq (length h) (length devs)))
                Hext _ _ _ Hloop) as Hh'.
  destruct (for_each_Ok _ _ _ _ _ _ Hext Hloop) as [Hl Hk].
  exists w, s, out_dim, sb, sws, (h ++ imap (partition s w) devs), hb, hc.
  split_and!; try done.
  - rewrite Hl, length_zip_with, length_seq. lia.
  - intros i sh Hi. destruct (Hk i sh Hi) as ([dev r] & h1 & h2 & Hz & ? & ? & Hb).
    apply lookup_zip_with_Some in Hz as (dev' & r' & [= <- <-] & Hd & Hr).
    apply lookup_seq in Hr as [-> _].
    exists dev, h1, h2. by split_and!.
Qed.

End ShardFacts.

(** C3. For a Linear with a bias whose strategy is colwise or head-aware
    colwise, the list returned by [shard(devices)] has one shard per device,
    a bias on the shard of index 0 and none on every shard of a greater
    index. *)
Theorem Linear_shard_colwise_bias Weight_new partition
    (self : Linear ref) devs (h : Heap) shards h' b w s :
  bias self = Some b →
  h !! weight self = Some w → w_sharding_strategy w = Some s →
  kind s = Columnwise ∨ kind s = HeadAwareColumnwise →
  Linear_shard Weight_new partition self devs h = (Ok shards, h') →
  length shards = length devs
  ∧ ∀ i sh, shards !! i = Some sh →
      (i = 0%nat → is_Some (bias sh)) ∧ ((0 < i)%nat → bias sh = None).
Proof.
  intros Hb Hw Hs Hk Hrun.
  apply Linear_shard_lookup in Hrun
    as (w' & s' & out_dim & sb & sws & ha & hb & hc & Hw' & Hs' & _ & _ & _ & _
        & Hha & Hhb & Hhc & _ & Hlen & Hshards).
  assert (w' = w) as -> by congruence.
  assert (s' = s) as -> by congruence.
  split; [done|]. intros i sh Hi.
  destruct (Hshards i sh Hi) as (dev & h1 & h2 & _ & Hh1 & _ & Hone).
  assert (Hw1 : h1 !! weight self = Some w).
  { eapply prefix_lookup; [|exact Hw]. by repeat (etrans; [eassumption|]). }
  destruct (Linear_shard_one_Ok _ _ _ _ _ _ _ _ _ _ _ _ _ Hw1 Hs Hone)
    as (_ & Hbias & _).
  specialize (Hbias (ltac:(by rewrite Hb))).
  assert (Hcol : Strategy.is_colwise s || Strategy.is_head_aware_colwise s = true).
  { apply orb_true_iff.
    rewrite is_colwise_spec, is_head_aware_colwise_spec. exact Hk. }
  rewrite Hcol in Hbias. simpl in Hbias.
  split.
  - intros ->. rewrite bool_decide_eq_false_2 in Hbias by lia.
    destruct Hbias as (b' & _ & ->). by eexists.
  - intros Hpos. by rewrite bool_decide_eq_true_2 in Hbias.
Qed.

(** C5. For a Linear with a Float8Config, [shard] returns one shard per
    device, and every shard holds the very reference of the original input
    scale, and the very reference of the original weight scale when that one
    is a scalar (shape [()]); a non-scalar weight scale is partitioned like
    the weight: the shard of index [i] holds a new object, cut from the
    original by the partition rule of its strategy for device [i]. *)
Theorem Linear_shard_scales Weight_new partition
    (self : Linear ref) devs (h : Heap) shards h' cfg :
  float8_config self = Some cfg →
  Linear_shard Weight_new partition self devs h = (Ok shards, h') →
  length shards = length devs
  ∧ ∀ i sh, shards !! i = Some sh →
    (∀ r, input_scale self = Some r → input_scale sh = Some r)
    ∧ (∀ r wsw, weight_scale self = Some r → h !! r = Some wsw →
         (w_shape wsw = [] → weight_scale sh = Some r)
         ∧ (w_shape wsw ≠ [] →
            ∃ r' s_ws dev,
              weight_scale sh = Some r' ∧ (length h ≤ r')%nat
              ∧ w_sharding_strategy wsw = Some s_ws ∧ devs !! i = Some dev
              ∧ h' !! r' = Some (partition s_ws wsw i dev)))
    ∧ (∃ w s dev,
         h !! weight self = Some w ∧ w_sharding_strategy w = Some s
         ∧ devs !! i = Some dev ∧ (length h ≤ weight sh)%nat
         ∧ h' !! weight sh = Some (partition s w i dev)).
Proof.
  intros Hcfg Hrun.
  apply Linear_shard_lookup in Hrun
    as (w & s & out_dim & sb & sws & ha & hb & hc & Hw & Hs & _ & -> & _ & Hsws
        & Hha & Hhb & Hhc & Hh' & Hlen & Hshards).
  split; [exact Hlen|]. intros i sh Hi.
  destruct (Hshards i sh Hi) as (dev & h1 & h2 & Hdev & Hh1 & _ & Hone).
  assert (Hhh1 : h `prefix_of` h1) by (by repeat (etrans; [eassumption|])).
  assert (Hhhb : h `prefix_of` hb) by (etrans; [exact Hha | exact Hhb]).
  destruct (Linear_shard_one_Ok _ _ _ _ _ _ _ _ _ _ _ _ _
              (prefix_lookup _ _ _ _ Hhh1 Hw) Hs Hone)
    as (Hweight & _ & Hin & Hsc).
  specialize (Hin (ltac:(by rewrite Hcfg))).
  specialize (Hsc (ltac:(by rewrite Hcfg))).
  split_and!; [done| |].
  - intros r wsw Hr Hwsw.
    specialize (Hsc r wsw Hr (prefix_lookup _ _ _ _ Hhh1 Hwsw)).
    split.
    + intros Hshape. by rewrite Hshape in Hsc.
    + intros Hshape.
      assert (Hlen0 : length (w_shape wsw) ≠ 0%nat).
      { intros E. by apply length_zero_iff_nil in E. }
      rewrite bool_decide_eq_false_2 in Hsc by done.
      destruct Hsc as (r' & Hr' & Hsh).
      rewrite Hcfg, Hr in Hsws.
      apply bind_Ok_inv in Hsws as (wsw' & h0 & [Hwsw' ->]%read_Ok_inv & Hsws).
      rewrite (prefix_lookup _ _ _ _ Hhhb Hwsw) in Hwsw'. injection Hwsw' as <-.
      apply bind_Ok_inv in Hsws as (n & h0 & [-> ->]%shape_len_Ok_inv & Hsws).
      rewrite bool_decide_eq_true_2 in Hsws by lia.
      apply Weight_shard_Ok in Hsws as (wsw' & s_ws & Hwsw' & Hs_ws & -> & ->).
      rewrite (prefix_lookup _ _ _ _ Hhhb Hwsw) in Hwsw'. injection Hwsw' as <-.
      apply lookup_seq in Hr' as [-> Hi'].
      exists (length hb + i)%nat, s_ws, dev. split_and!; try done.
      * apply prefix_length in Hhhb. lia.
      * eapply prefix_lookup; [exact Hh'|].
        rewrite lookup_app_r by lia.
        replace (length hb + i - length hb)%nat with i by lia.
        by rewrite list_lookup_imap, Hdev.
  - exists w, s, dev. rewrite Hweight. split_and!; try done; [lia|].
    eapply prefix_lookup.
    { etrans; [exact Hhb|]. etrans; [exact Hhc | exact Hh']. }
    rewrite lookup_app_r by lia.
    replace (length h + i - length h)%nat with i by lia.
    by rewrite list_lookup_imap, Hdev.
Qed.

Lemma Linear_shard_colwise_bias_witness :
  ∃ h',
    Linear_shard Weight_plain partition_even colwise_linear [GPU 0; GPU 1]
      colwise_heap
    = (Ok [mkLinear 2%nat (Some 4%nat) None None (GPU 0) None None;
           mkLinear 3%nat None None None (GPU 1) None None], h')
    ∧ is_Some (bias (mkLinear 2%nat (Some 4%nat) None None (GPU 0) None None))
    ∧ bias (mkLinear 3%nat (@None ref) None None (GPU 1) None None) = None.
Proof.
  eexists. split; [by vm_compute|].
  pose proof (Linear_shard_colwise_bias Weight_plain partition_even
                colwise_linear [GPU 0; GPU 1] colwise_heap _ _ 1%nat _ _
                eq_refl eq_refl eq_refl (or_introl eq_refl) eq_refl)
    as [_ Hall].
  split.
  - by apply (Hall 0%nat _ eq_refl).
  - apply (Hall 1%nat _ eq_refl). lia.
Defined.

Lemma Linear_shard_scales_witness :
  ∃ h',
    Linear_shard Weight_plain partition_even rowwise_float8_linear
      [GPU 0; GPU 1] rowwise_float8_heap
    = (Ok [mkLinear 3%nat None (Some 1%nat) (Some 5%nat) (GPU 0) None
             (Some (float8_config_of TENSOR ROWWISE STATIC));
           mkLinear 4%nat None (Some 1%nat) (Some 6%nat) (GPU 1) None
             (Some (float8_config_of TENSOR ROWWISE STATIC))], h')
    ∧ h' !! 6%nat
      = Some (partition_even (Strategy.rowwise 2)
                (set_w_sharding_strategy (Strategy.rowwise 2)
                   (Weight_plain "weight_scale" float32 [128; 1] (CPU 0) None))
                1 (GPU 1)).
Proof.
  eexists. split; [by vm_compute|].
  destruct (Linear_shard_scales Weight_plain partition_even
              rowwise_float8_linear [GPU 0; GPU 1] rowwise_float8_heap _ _
              (float8_config_of TENSOR ROWWISE STATIC) eq_refl eq_refl)
    as [_ Hall].
  destruct (Hall 1%nat _ eq_refl) as (_ & Hscale & _).
  destruct (Hscale 2%nat _ eq_refl eq_refl) as [_ Hcut].
  destruct Hcut as (r' & s_ws & dev & [= <-] & _ & [= <-] & [= <-] & Hr');
    [discriminate|].
  exact Hr'.
Defined.

(** What a layer that [Linear.__init__] returned looks like. *)
Lemma Linear_init_Ok_fields Weight_new in_dim out_dim dtype dev has_bias enc
    f8 name clip (h : Heap) l h' :
  Linear_init Weight_new in_dim out_dim dtype dev has_bias enc f8 name clip h
  = (Ok l, h') →
  weight l = length h ∧ device l = dev ∧ clip_weight l = clip
  ∧ float8_config l = f8
  ∧ (is_Some (bias l) ↔ has_bias = true)
  ∧ (is_Some (weight_scale l) ↔ is_Some f8)
  ∧ (is_Some (input_scale l) ↔ ∃ cfg, f8 = Some cfg ∧ is_static cfg = true).
Proof.
  unfold Linear_init. intros H.
  apply bind_Ok_inv in H as (wr & h1 & Hw & H).
  injection Hw as <- <-.
  apply bind_Ok_inv in H as (br & h2 & Hb & H).
  apply bind_Ok_inv in H as (sc & h3 & Hsc & H).
  apply ret_Ok_inv in H as [<- <-]. simpl.
  split_and!; try done.
  - clear Hsc. destruct has_bias.
    + repeat inv_step; (split; [done | by eexists]).
    + inv_step. split; [by intros []%is_Some_None | done].
  - clear Hb. destruct f8 as [cfg|].
    + repeat inv_step; simpl; split; by eexists.
    + inv_step. simpl. split; by intros []%is_Some_None.
  - clear Hb. destruct f8 as [cfg|].
    + destruct (is_static cfg) eqn:Est; repeat inv_step; simpl.
      all: first [ by (split; [by eexists | by eexists])
                 | split; [by intros []%is_Some_None
                          | intros (? & [= <-] & ?); congruence] ].
    + inv_step. simpl.
      split; [by intros []%is_Some_None | by intros (? & [=] & _)].
Qed.

(** The weight [Linear.__init__] declares is the first tensor it adds to
    the store, with the shape [(out_dim, in_dim)]. *)
Lemma Linear_init_declares_weight Weight_new in_dim out_dim dtype dev has_bias
    enc f8 name clip (h : Heap) l h' :
  Linear_init Weight_new in_dim out_dim dtype dev has_bias enc f8 name clip h
  = (Ok l, h') →
  h' !! weight l
  = Some (Weight_new (attr_name name "weight") dtype [out_dim; in_dim] dev enc).
Proof.
  intros H.
  destruct (Linear_init_Ok_fields _ _ _ _ _ _ _ _ _ _ _ _ _ H) as (-> & _).
  unfold Linear_init in H.
  apply bind_Ok_inv in H as (wr & h1 & Hw & H).
  injection Hw as <- <-.
  match type of H with
  | ?m _ = _ => assert (Hext : extends_only m) by solve_extends
  end.
  eapply prefix_lookup; [exact (Hext _ _ _ H)|].
  by rewrite lookup_app_r, Nat.sub_diag.
Qed.

(** Every shard comes out of a call of the constructor with the sharded
    output dimension; what follows the call only reads the store, and
    replaces tensors of the constructed layer. *)
Lemma Linear_shard_one_constructs Weight_new
    (self : Linear ref) out_dim sb sws i dev wsr (h1 h2 : Heap) sh :
  Linear_shard_one Weight_new self out_dim sb sws i (dev, wsr) h1 = (Ok sh, h2) →
  ∃ w in_dim sharded0,
    h1 !! weight self = Some w ∧ w_shape w !! 1%nat = Some in_dim
    ∧ Linear_init Weight_new in_dim out_dim (w_dtype w) dev
        (bool_decide (is_Some (bias self))) None (float8_config self) None
        (clip_weight self) h1 = (Ok sharded0, h2)
    ∧ weight sh = wsr
    ∧ device sh = device sharded0
    ∧ clip_weight sh = clip_weight sharded0
    ∧ float8_config sh = float8_config sharded0.
Proof.
  unfold Linear_shard_one. intros H.
  apply bind_Ok_inv in H as (w & h0 & [Hw ->]%read_Ok_inv & H).
  apply bind_Ok_inv in H as (in_dim & h0 & [Hin ->]%shape_at_Ok_inv & H).
  apply bind_Ok_inv in H as (sharded0 & hx & Hinit & H).
  exists w, in_dim, sharded0.
  assert (hx = h2 ∧ weight sh = wsr ∧ device sh = device sharded0
          ∧ clip_weight sh = clip_weight sharded0
          ∧ float8_config sh = float8_config sharded0) as (-> & ? & ? & ? & ?).
  { clear Hinit. repeat inv_step; simpl; done. }
  by split_and!.
Qed.

Lemma Zsum_const {A} (l : list A) (x : Z) :
  Zsum ((λ _, x) <$> l) = Z.of_nat (length l) * x.
Proof.
  induction l as [|a l IH]; [reflexivity|].
  change (x + Zsum ((λ _, x) <$> l) = Z.of_nat (S (length l)) * x).
  rewrite IH. lia.
Qed.

Lemma Zsum_app (l k : list Z) : Zsum (l ++ k) = Zsum l + Zsum k.
Proof.
  induction l as [|x l IH]; [reflexivity|].
  change (x + Zsum (l ++ k) = x + Zsum l + Zsum k). rewrite IH. lia.
Qed.

(** The first [k] parts of a dimension cut into [n] parts. *)
Lemma Zsum_part_size (d n : Z) (k : nat) :
  0 < n →
  Zsum ((λ i, part_size d n i) <$> seq 0 k)
  = Z.of_nat k * (d / n) + Z.min (Z.of_nat k) (d mod n).
Proof.
  intros Hn. pose proof (Z.mod_pos_bound d n Hn) as Hr.
  induction k as [|k IH]; [simpl; lia|].
  rewrite seq_S, fmap_app, Zsum_app, IH. simpl.
  unfold part_size, Zsum. simpl. case_bool_decide; lia.
Qed.

(** The parts of a dimension cut into [n] parts add up to it. *)
Lemma Zsum_parts (d n : Z) (k : nat) :
  0 < n → Z.of_nat k = n →
  Zsum ((λ i, part_size d n i) <$> seq 0 k) = d.
Proof.
  intros Hn Hk. rewrite Zsum_part_size by done.
  pose proof (Z.mod_pos_bound d n Hn) as Hr.
  pose proof (Z.div_mod d n ltac:(lia)). rewrite Hk. lia.
Qed.

(** C4 (amended). When [shard(devices)] succeeds it returns one shard per
    device.  The shard of index [i] is a layer built by the constructor on
    [devices[i]] with one output dimension for all shards - the original
    one floor-divided by the device count N of the strategy when the
    strategy is rowwise, the original one otherwise - and with the settings
    of the original; the weight the constructor declared with that
    dimension stays behind in the store, and the shard holds instead the
    part that [Weight.shard] cut from the original weight for index [i].
    Under a rowwise strategy over N devices, the output dimensions the
    shards were built with add up to the original one exactly when N
    divides it; the rows of the weights the shards hold add up to the
    original one whenever the partition rule cuts parts of the quotient
    rows, and one more for each of the first ones up to the remainder. *)
Theorem Linear_shard_out_dim_spec Weight_new partition
    (self : Linear ref) devs (h : Heap) shards h' :
  Linear_shard Weight_new partition self devs h = (Ok shards, h') →
  ∃ w s d0 out_dim,
    h !! weight self = Some w ∧ w_sharding_strategy w = Some s
    ∧ w_shape w !! 0%nat = Some d0
    ∧ Linear_shard_out_dim w s h = (Ok out_dim, h)
    ∧ out_dim = (if bool_decide (kind s = Rowwise) then d0 / num_devices s else d0)
    ∧ length shards = length devs
    ∧ (∀ i sh, shards !! i = Some sh →
         ∃ dev in_dim sharded0 h1 h2,
           devs !! i = Some dev ∧ w_shape w !! 1%nat = Some in_dim
           ∧ h `prefix_of` h1 ∧ h2 `prefix_of` h'
           ∧ Linear_init Weight_new in_dim out_dim (w_dtype w) dev
               (bool_decide (is_Some (bias self))) None (float8_config self)
               None (clip_weight self) h1 = (Ok sharded0, h2)
           ∧ h' !! weight sharded0
             = Some (Weight_new "weight" (w_dtype w) [out_dim; in_dim] dev None)
           ∧ device sh = dev
           ∧ clip_weight sh = clip_weight self
           ∧ float8_config sh = float8_config self
           ∧ weight sh ≠ weight sharded0
           ∧ h' !! weight sh = Some (partition s w i dev))
    ∧ (kind s = Rowwise → Z.of_nat (length devs) = num_devices s →
       (Zsum ((λ _, out_dim) <$> shards) = d0 ↔ (num_devices s | d0)))
    ∧ (kind s = Rowwise → Z.of_nat (length devs) = num_devices s →
       (∀ i dev, devs !! i = Some dev →
          w_shape (partition s w i dev) !! 0%nat
          = Some (part_size d0 (num_devices s) i)) →
       ∃ rows, weight_rows h' <$> shards = Some <$> rows ∧ Zsum rows = d0).
Proof.
  intros Hrun.
  apply Linear_shard_lookup in Hrun
    as (w & s & out_dim & sb & sws & ha & hb & hc & Hw & Hs & Hout & -> & _ & _
        & Hha & Hhb & Hhc & Hh' & Hlen & Hshards).
  assert (Hheld : ∀ i sh, shards !! i = Some sh →
            ∃ dev, devs !! i = Some dev
                   ∧ weight sh = (length h + i)%nat
                   ∧ h' !! weight sh = Some (partition s w i dev)).
  { intros i sh Hi.
    destruct (Hshards i sh Hi) as (dev & h1 & h2 & Hdev & Hpre & Hpost & Hone).
    apply Linear_shard_one_constructs in Hone
      as (_ & _ & _ & _ & _ & _ & Hwsh & _).
    exists dev. split_and!; [done..|].
    rewrite Hwsh. eapply prefix_lookup.
    { etrans; [exact Hhb|]. etrans; [exact Hhc | exact Hh']. }
    rewrite lookup_app_r by lia.
    replace (length h + i - length h)%nat with i by lia.
    by rewrite list_lookup_imap, Hdev. }
  assert (∃ d0, w_shape w !! 0%nat = Some d0
                ∧ out_dim = (if bool_decide (kind s = Rowwise)
                             then d0 / num_devices s else d0)
                ∧ (kind s = Rowwise → num_devices s ≠ 0))
    as (d0 & Hd0 & Hod & Hn0).
  { pose proof Hout as Hout'. unfold Linear_shard_out_dim in Hout'.
    apply bind_Ok_inv in Hout' as (d0 & h0 & [Hd0 ->]%shape_at_Ok_inv & Hout').
    exists d0. split; [done|]. unfold Strategy.is_rowwise in Hout'.
    case_bool_decide as Hk.
    - case_bool_decide as Hn; [by inv_step|]. inv_step. done.
    - inv_step. done. }
  assert (Hhhc : h `prefix_of` hc).
  { etrans; [exact Hha|]. etrans; [exact Hhb | exact Hhc]. }
  exists w, s, d0, out_dim. split_and!; try done.
  - intros i sh Hi.
    destruct (Hshards i sh Hi) as (dev & h1 & h2 & Hdev & Hpre & Hpost & Hone).
    apply Linear_shard_one_constructs in Hone
      as (w1 & in_dim & sharded0 & Hw1 & Hin & Hinit & Hwsh & Hdsh & Hcsh & Hfsh).
    assert (Hw1' : h1 !! weight self = Some w).
    { eapply prefix_lookup; [|exact Hw]. etrans; [exact Hhhc | exact Hpre]. }
    assert (w1 = w) as -> by congruence.
    destruct (Linear_init_Ok_fields _ _ _ _ _ _ _ _ _ _ _ _ _ Hinit)
      as (Hw0 & Hd0' & Hc0 & Hf0 & _).
    exists dev, in_dim, sharded0, h1, h2. split_and!; try done.
    + by etrans.
    + eapply prefix_lookup; [exact Hpost|].
      exact (Linear_init_declares_weight _ _ _ _ _ _ _ _ _ _ _ _ _ Hinit).
    + congruence.
    + congruence.
    + congruence.
    + rewrite Hwsh, Hw0. apply lookup_lt_Some in Hdev.
      apply prefix_length in Hhb, Hhc, Hpre.
      rewrite length_app, length_imap in Hhb. lia.
    + destruct (Hheld i sh Hi) as (dev' & Hdev' & _ & Hpart).
      by assert (dev' = dev) as -> by congruence.
  - intros Hk Hn. rewrite Zsum_const, Hlen, Hn, Hod.
    rewrite bool_decide_eq_true_2 by done.
    specialize (Hn0 Hk).
    rewrite <- (Z.mod_divide d0 (num_devices s) Hn0).
    pose proof (Z.div_mod d0 (num_devices s) Hn0). lia.
  - intros Hk Hn Hrule. specialize (Hn0 Hk).
    exists ((λ i, part_size d0 (num_devices s) i) <$> seq 0 (length shards)).
    split; [|apply Zsum_parts; lia].
    apply list_eq. intros i. rewrite !list_lookup_fmap.
    destruct (shards !! i) as [sh|] eqn:Hi; simpl.
    + destruct (Hheld i sh Hi) as (dev & Hdev & _ & Hpart).
      rewrite lookup_seq_lt by (by eapply lookup_lt_Some). simpl.
      unfold weight_rows. rewrite Hpart. simpl. by rewrite (Hrule i dev Hdev).
    + apply lookup_ge_None in Hi. by rewrite lookup_seq_ge.
Qed.

(** C4 (as stated, refuted). A layer of 10 output rows sharded rowwise over 3
    devices yields 3 shards.  Each is constructed with the output dimension
    10 // 3 = 3: the weights the constructors declare, left in the store
    after the three parts of the original weight, have shape [3, 4], and
    these dimensions add up to 9, not to 10.  The weights the shards hold,
    the parts at the references 1, 2 and 3, have 4, 3 and 3 rows: they add up
    to 10, and the first of them is not the original dimension divided by
    3. *)
Lemma Linear_shard_out_dims_uneven :
  ∃ h',
    Linear_shard Weight_plain partition_even uneven_linear
      [GPU 0; GPU 1; GPU 2] uneven_heap
    = (Ok [mkLinear 1%nat None None None (GPU 0) None None;
           mkLinear 2%nat None None None (GPU 1) None None;
           mkLinear 3%nat None None None (GPU 2) None None], h')
    ∧ Linear_shard_out_dim
        (set_w_sharding_strategy (Strategy.rowwise 3)
           (Weight_plain "weight" float32 [10; 4] (GPU 0) None))
        (Strategy.rowwise 3) uneven_heap = (Ok 3, uneven_heap)
    ∧ w_shape <$> h'
      = [[10; 4]; [4; 4]; [3; 4]; [3; 4]; [3; 4]; [3; 4]; [3; 4]]
    ∧ Zsum ((λ _, 3)
            <$> [mkLinear 1%nat None None None (GPU 0) None None;
                 mkLinear 2%nat None None None (GPU 1) None None;
                 mkLinear 3%nat (@None ref) None None (GPU 2) None None]) = 9
    ∧ weight_rows h'
      <$> [mkLinear 1%nat None None None (GPU 0) None None;
           mkLinear 2%nat None None None (GPU 1) None None;
           mkLinear 3%nat None None None (GPU 2) None None]
      = [Some 4; Some 3; Some 3]
    ∧ 4 ≠ 10 / 3.
Proof. eexists. split_and!; by vm_compute. Qed.

Lemma Linear_shard_out_dim_spec_witness :
  ∃ h',
    Linear_shard Weight_plain partition_even rowwise_float8_linear
      [GPU 0; GPU 1] rowwise_float8_heap
    = (Ok [mkLinear 3%nat None (Some 1%nat) (Some 5%nat) (GPU 0) None
             (Some (float8_config_of TENSOR ROWWISE STATIC));
           mkLinear 4%nat None (Some 1%nat) (Some 6%nat) (GPU 1) None
             (Some (float8_config_of TENSOR ROWWISE STATIC))], h')
    ∧ Zsum ((λ _, 128 / 2)
            <$> [mkLinear 3%nat None (Some 1%nat) (Some 5%nat) (GPU 0) None
                   (Some (float8_config_of TENSOR ROWWISE STATIC));
                 mkLinear 4%nat None (Some 1%nat) (Some 6%nat) (GPU 1) None
                   (Some (float8_config_of TENSOR ROWWISE STATIC))]) = 128
    ∧ ∃ rows,
        weight_rows h'
        <$> [mkLinear 3%nat None (Some 1%nat) (Some 5%nat) (GPU 0) None
               (Some (float8_config_of TENSOR ROWWISE STATIC));
             mkLinear 4%nat None (Some 1%nat) (Some 6%nat) (GPU 1) None
               (Some (float8_config_of TENSOR ROWWISE STATIC))]
        = Some <$> rows
        ∧ Zsum rows = 128.
Proof.
  eexists. split; [by vm_compute|].
  destruct (Linear_shard_out_dim_spec Weight_plain partition_even
              rowwise_float8_linear [GPU 0; GPU 1] rowwise_float8_heap _ _
              eq_refl)
    as (w & s & d0 & out_dim & Hw & Hs & Hd0 & _ & Hod & _ & _ & Hsum & Hrows).
  vm_compute in Hw. injection Hw as <-.
  vm_compute in Hs. injection Hs as <-.
  vm_compute in Hd0. injection Hd0 as <-.
  rewrite bool_decide_eq_true_2 in Hod by reflexivity. subst out_dim.
  split.
  - apply Hsum; [reflexivity | reflexivity | by exists 64].
  - apply Hrows; [reflexivity | reflexivity |]. by intros i dev _.
Defined.

(** ** The tied-weight guard of ColumnParallelLinear *)

Section RaisesOnly.

Context (P : Exception → Prop).

Lemma raises_only_ret {A} (a : A) : raises_only P (ret a).
Proof. by intros h e h'. Qed.

Lemma raises_only_raise {A} e : P e → raises_only P (@raise A e).
Proof. by intros He h e' h' [= <- _]. Qed.

Lemma raises_only_alloc w : raises_only P (alloc w).
Proof. by intros h e h'. Qed.

Lemma raises_only_read r : P DanglingReference → raises_only P (read r).
Proof. intros Hd h e h'. unfold read. by destruct (h !! r); intros [= <- _]. Qed.

Lemma raises_only_modify r f :
  P DanglingReference → raises_only P (modify r f).
Proof. intros Hd h e h'. unfold modify. by destruct (h !! r); intros [= <- _]. Qed.

Lemma raises_only_Weight_shape w :
  P (ValueError DimOutOfRange) → raises_only P (Weight_shape w).
Proof.
  intros Hd. unfold Weight_shape. case_bool_decide;
    [apply raises_only_ret | by apply raises_only_raise].
Qed.

Lemma raises_only_bind {A B} (m : M A) (f : A → M B) :
  raises_only P m → (∀ a, raises_only P (f a)) → raises_only P (m ≫= f).
Proof.
  intros Hm Hf h e h'. rewrite bind_eq.
  destruct (m h) as [[a|e0] h1] eqn:E; intros Hr.
  - by eapply Hf.
  - injection Hr as <- <-. by eapply Hm.
Qed.

Lemma raises_only_shape_at w i :
  P (ValueError DimOutOfRange) → P IndexError → raises_only P (shape_at w i).
Proof.
  intros Hd Hi. unfold shape_at.
  apply raises_only_bind; [by apply raises_only_Weight_shape|].
  intros shape. destruct (shape !! i);
    [apply raises_only_ret | by apply raises_only_raise].
Qed.

Lemma raises_only_shape_len w :
  P (ValueError DimOutOfRange) → raises_only P (shape_len w).
Proof.
  intros Hd. unfold shape_len.
  apply raises_only_bind; [by apply raises_only_Weight_shape|].
  intros shape. apply raises_only_ret.
Qed.

Lemma raises_only_for_each {A B} (body : nat → A → M B) i xs :
  (∀ i x, raises_only P (body i x)) → raises_only P (for_each body i xs).
Proof.
  intros Hb. revert i. induction xs as [|x xs IH]; intros i; simpl.
  - apply raises_only_ret.
  - apply raises_only_bind; [done|]. intros y.
    apply raises_only_bind; [done|]. intros ys. apply raises_only_ret.
Qed.

End RaisesOnly.

(** Decompose a goal [raises_only P m] along the syntax of [m]. *)
Ltac raises_step :=
  match goal with
  | |- raises_only _ (_ ≫= _) => apply raises_only_bind; [|intros ?]
  | |- raises_only _ (for_each _ _ _) => apply raises_only_for_each; intros ? ?
  | |- raises_only _ (ret _) => apply raises_only_ret
  | |- raises_only _ (alloc _) => apply raises_only_alloc
  | |- raises_only _ (raise _) => apply raises_only_raise; done
  | |- raises_only _ (read _) => apply raises_only_read; done
  | |- raises_only _ (modify _ _) => apply raises_only_modify; done
  | |- raises_only _ (shape_at _ _) => apply raises_only_shape_at; done
  | |- raises_only _ (shape_len _) => apply raises_only_shape_len; done
  | |- raises_only _ (match ?x with _ => _ end) => destruct x
  | |- raises_only _ (if ?b then _ else _) => destruct b
  | |- raises_only _ (let '(_, _) := ?p in _) => destruct p
  | |- raises_only _ _ => solve [eauto]
  end.
Ltac solve_raises := repeat raises_step.

Section TiedWeight.

Variable Weight_new :
  string → DType → list Z → DeviceRef → option QuantizationEncoding → Weight.
Variable partition : ShardingStrategy → Weight → nat → DeviceRef → Weight.

Lemma Linear_init_not_tied_error in_dim out_dim dtype dev has_bias enc f8 name clip :
  raises_only not_tied_error
    (Linear_init Weight_new in_dim out_dim dtype dev has_bias enc f8 name clip).
Proof. unfold Linear_init, not_tied_error. solve_raises. Qed.

Lemma Weight_shard_not_tied_error r devs :
  raises_only not_tied_error (Weight_shard partition r devs).
Proof. unfold Weight_shard, not_tied_error. solve_raises. Qed.

Lemma Linear_set_sharding_strategy_not_tied_error self s :
  raises_only not_tied_error (Linear_set_sharding_strategy self s).
Proof. unfold Linear_set_sharding_strategy, not_tied_error. solve_raises. Qed.

(** C9 (amended). With a non-empty device list and a tied weight, the
    constructor raises the float8/bias-incompatibility error, before it
    allocates anything, whenever [has_bias] or [float8_config] is passed
    with a value other than [None] - [has_bias=False] included; when both
    are absent or passed as [None], that error is not raised. *)
Theorem ColumnParallelLinear_init_tied_guard
    in_dim out_dim dtype devs t kwargs (h : Heap) :
  devs ≠ [] →
  (kwargs_get (kw_float8_config kwargs) ≠ None
   ∨ kwargs_get (kw_has_bias kwargs) ≠ None →
   ColumnParallelLinear_init Weight_new partition in_dim out_dim dtype devs
     (Some t) kwargs h
   = (Raise (ValueError TiedWeightWithFloat8OrBias), h))
  ∧ (kw_has_bias kwargs = Some (Some false) →
     ColumnParallelLinear_init Weight_new partition in_dim out_dim dtype devs
       (Some t) kwargs h
     = (Raise (ValueError TiedWeightWithFloat8OrBias), h))
  ∧ (kwargs_get (kw_float8_config kwargs) = None →
     kwargs_get (kw_has_bias kwargs) = None →
     ∀ h', ColumnParallelLinear_init Weight_new partition in_dim out_dim dtype
             devs (Some t) kwargs h
           ≠ (Raise (ValueError TiedWeightWithFloat8OrBias), h')).
Proof.
  intros Hdevs. destruct devs as [|dev0 devs']; [done|].
  assert (Hraise :
    kwargs_get (kw_float8_config kwargs) ≠ None
    ∨ kwargs_get (kw_has_bias kwargs) ≠ None →
    ColumnParallelLinear_init Weight_new partition in_dim out_dim dtype
      (dev0 :: devs') (Some t) kwargs h
    = (Raise (ValueError TiedWeightWithFloat8OrBias), h)).
  { intros Hk. unfold ColumnParallelLinear_init, tied_weight_guard.
    rewrite (bool_decide_eq_true_2 (is_Some (Some t))) by by eexists.
    destruct Hk as [Hk|Hk].
    - by rewrite (bool_decide_eq_true_2 _ Hk).
    - rewrite (bool_decide_eq_true_2 _ Hk). by rewrite orb_true_r. }
  split_and!; [exact Hraise | |].
  - intros Hb. apply Hraise. right. by rewrite Hb.
  - intros Hf Hb h' Hrun.
    unfold ColumnParallelLinear_init, tied_weight_guard in Hrun.
    rewrite Hf, Hb in Hrun.
    rewrite !(bool_decide_eq_false_2 (None ≠ None)) in Hrun by (by intros ?).
    rewrite andb_false_r in Hrun.
    revert Hrun.
    match goal with |- ?m h = _ → _ =>
      assert (raises_only not_tied_error m) as Hro end.
    { pose proof Linear_init_not_tied_error.
      pose proof Weight_shard_not_tied_error.
      pose proof Linear_set_sharding_strategy_not_tied_error.
      unfold Linear_init_kwargs. unfold not_tied_error in *.
      solve_raises. }
    intros Hrun. by apply Hro in Hrun.
Qed.

End TiedWeight.

(** C9 (as stated, refuted). With a tied weight, passing the keyword
    [float8_config=None] does not raise: the layer is constructed. *)
Lemma ColumnParallelLinear_init_float8_None_accepted :
  kw_float8_config kwargs_float8_None = Some None
  ∧ ∃ layer h',
      ColumnParallelLinear_init Weight_plain partition_even 256 128 float32
        [GPU 0; GPU 1] (Some 0%nat) kwargs_float8_None tied_heap
      = (Ok layer, h').
Proof. split; [reflexivity|]. eexists _, _. by vm_compute. Qed.

Lemma ColumnParallelLinear_init_tied_guard_witness :
  [GPU 0; GPU 1] ≠ []
  ∧ kw_has_bias kwargs_has_bias_False = Some (Some false)
  ∧ ColumnParallelLinear_init Weight_plain partition_even 256 128 float32
      [GPU 0; GPU 1] (Some 0%nat) kwargs_has_bias_False tied_heap
    = (Raise (ValueError TiedWeightWithFloat8OrBias), tied_heap).
Proof.
  assert (Hne : [GPU 0; GPU 1] ≠ []) by discriminate.
  split_and!; [exact Hne | reflexivity |].
  exact (proj1 (proj2 (ColumnParallelLinear_init_tied_guard Weight_plain
                         partition_even 256 128 float32 [GPU 0; GPU 1] 0%nat
                         kwargs_has_bias_False tied_heap Hne)) eq_refl).
Defined.

(** ** The fused gated-linear-unit kernel is never called *)

(** The literal [False] that ends the guard decides it. *)
Lemma swish_glu_guard_false {TV : Type} `{K : Kernels TV}
    (gate_bias up_bias : option TV) (x : TV) :
  swish_glu_guard gate_bias up_bias x = false.
Proof. unfold swish_glu_guard. apply andb_false_r. Qed.

(** C7. For every input of [MLP.__call__] and of [MLPV1.__call__], whatever
    the kernels, the guard of the fused gated-linear-unit kernel is false:
    the result is the one of the generic computation, in which the kernel
    [swish_glu] does not occur. *)
Theorem MLP_call_never_swish_glu {TV : Type} `{K : Kernels TV}
    `{QK : QuantKernels TV} `{A : Activations TV} (FK : FusedKernels TV)
    (self : MLP TV) (self_v1 : MLPV1 TV) (x : TV) :
  swish_glu_guard (bias (gate_proj self)) (bias (up_proj self)) x = false
  ∧ MLP_call self x = MLP_call_generic self x
  ∧ swish_glu_guard (v1_bias (v1_gate_proj self_v1))
      (v1_bias (v1_up_proj self_v1)) x = false
  ∧ MLPV1_call self_v1 x = MLPV1_call_generic self_v1 x.
Proof.
  unfold MLP_call, MLPV1_call. by rewrite !swish_glu_guard_false.
Qed.

(** ** The merged projection of the MLP *)

Section FusedMLP.

Context {T : Type}.
Variable s_add s_mul : T → T → T.
Variable s_zero : T.
Variable s_clamp : Q → Q → T → T.

Let K : Kernels (Tensor T) := matrix_kernels s_add s_mul s_zero s_clamp.
#[local] Existing Instance K.

Context `{QK : QuantKernels (Tensor T)}.

Local Abbreviation dotp := (dot s_add s_mul s_zero).








End FusedMLP.



(** The merged projection reads the weights of [gate_proj] and [up_proj]
    directly: a weight clipping set on a projection, which [Linear.__call__]
    applies, is not applied by it.  Hence the condition of [MLP_as_built]. *)
Remark MLP_call_does_not_clip :
  @MLP_call _ Z_kernels no_quant_kernels no_fused_kernels example_mlp_clipped
    example_input
  = Some (on_gpu (Mat 2 [[21; 15]; [-15; -15]]))
  ∧ @MLP_unfused _ Z_kernels no_quant_kernels example_mlp_clipped example_input
    = Some (on_gpu (Mat 2 [[9; 3]; [-3; -3]])).
Proof. split; by vm_compute. Qed.

(** * Further properties of the layers *)

(** ** The setter of Linear, on the whole store *)

Lemma modify_alter r f (h : Heap) :
  (r < length h)%nat → modify r f h = (Ok tt, alter f r h).
Proof.
  intros Hr. destruct (lookup_lt_is_Some_2 h r Hr) as [w Hw].
  rewrite (modify_Some _ _ _ _ Hw). f_equal.
  apply list_eq. intros i. destruct (decide (i = r)) as [->|Hne].
  - rewrite list_lookup_insert_eq by done. by rewrite list_lookup_alter_eq, Hw.
  - rewrite list_lookup_insert_ne by done. by rewrite list_lookup_alter_ne.
Qed.

Lemma Linear_wf_bounds (h : Heap) (l : Linear ref) :
  Linear_wf h l →
  (weight l < length h)%nat
  ∧ (∀ b, bias l = Some b → (b < length h)%nat ∧ b ≠ weight l)
  ∧ (∀ r, weight_scale l = Some r → (r < length h)%nat ∧ r ≠ weight l)
  ∧ (∀ r, input_scale l = Some r → (r < length h)%nat ∧ r ≠ weight l)
  ∧ (∀ b r, bias l = Some b → weight_scale l = Some r → b ≠ r)
  ∧ (∀ b r, bias l = Some b → input_scale l = Some r → b ≠ r)
  ∧ (∀ s r, weight_scale l = Some s → input_scale l = Some r → s ≠ r).
Proof.
  destruct l as [w b i s d c f]. unfold Linear_wf, Linear_refs. simpl.
  intros [Hnd Hin].
  apply NoDup_cons in Hnd as [Hw Hnd]. apply Forall_cons in Hin as [Hwl Hin].
  rewrite !Forall_app in Hin. destruct Hin as (Hb & Hi & Hs).
  rewrite !not_elem_of_app in Hw. destruct Hw as (Hwb & Hwi & Hws).
  apply NoDup_app in Hnd as (_ & Hbx & Hnd).
  apply NoDup_app in Hnd as (_ & Hix & _).
  split_and!; try done.
  - intros b' ->. simpl in *. apply Forall_cons in Hb as [? _].
    split; [done|]. intros ->. apply Hwb. by left.
  - intros r ->. simpl in *. apply Forall_cons in Hs as [? _].
    split; [done|]. intros ->. apply Hws. by left.
  - intros r ->. simpl in *. apply Forall_cons in Hi as [? _].
    split; [done|]. intros ->. apply Hwi. by left.
  - intros b' r -> -> ->. simpl in *. eapply Hbx; [by left|].
    apply elem_of_app. right. by left.
  - intros b' r -> -> ->. simpl in *. eapply Hbx; by left.
  - intros s' r -> -> ->. simpl in *. eapply Hix; by left.
Qed.

Lemma length_propagated l strategy (h : Heap) :
  length (propagated l strategy h) = length h.
Proof.
  unfold propagated.
  destruct (bias l), (weight_scale l), (float8_config l);
    by rewrite ?length_alter.
Qed.

Lemma Linear_set_sharding_strategy_Ok (l : Linear ref) strategy (h : Heap) :
  Linear_wf h l →
  (is_Some (weight_scale l) → is_Some (float8_config l)) →
  Linear_set_sharding_strategy l strategy h = (Ok tt, propagated l strategy h).
Proof.
  intros Hwf Hf8.
  destruct (Linear_wf_bounds h l Hwf) as (Hw & Hb & Hs & _).
  unfold Linear_set_sharding_strategy, propagated.
  rewrite bind_eq, (modify_alter _ _ _ Hw), bind_eq.
  destruct (weight_scale l) as [r|] eqn:Er.
  - destruct Hf8 as [cfg ->]; [by eexists|].
    destruct (Hs r eq_refl) as [Hr _].
    rewrite modify_alter by (by rewrite length_alter).
    destruct (bias l) as [b|]; [|done].
    destruct (Hb b eq_refl) as [Hbl _].
    by rewrite modify_alter by (by rewrite !length_alter).
  - unfold ret at 1. destruct (bias l) as [b|]; [|by destruct (float8_config l)].
    destruct (Hb b eq_refl) as [Hbl _].
    rewrite modify_alter by (by rewrite !length_alter).
    by destruct (float8_config l).
Qed.

(** X1. Assigning a strategy to a well-formed Linear with a bias succeeds
    and leaves the bias with the assigned strategy when that one is rowwise,
    and with [replicate(num_devices)] otherwise. *)
Theorem Linear_set_sharding_strategy_bias
    (l : Linear ref) strategy (h : Heap) b :
  bias l = Some b → Linear_wf h l →
  (is_Some (weight_scale l) → is_Some (float8_config l)) →
  ∃ h' s_b,
    Linear_set_sharding_strategy l strategy h = (Ok tt, h')
    ∧ w_sharding_strategy <$> h' !! b = Some (Some s_b)
    ∧ (kind strategy = Rowwise → s_b = strategy)
    ∧ (kind strategy ≠ Rowwise →
       s_b = Strategy.replicate (num_devices strategy)).
Proof.
  intros Hb Hwf Hf8.
  destruct (Linear_wf_bounds h l Hwf) as (_ & Hbb & _).
  destruct (Hbb b Hb) as [Hbl _].
  exists (propagated l strategy h), (bias_strategy strategy).
  split; [by apply Linear_set_sharding_strategy_Ok|].
  split.
  - unfold propagated. rewrite Hb, list_lookup_alter_eq.
    match goal with |- context [?hh !! b] =>
      destruct (lookup_lt_is_Some_2 hh b) as [bw ->] end; [|done].
    destruct (weight_scale l), (float8_config l); by rewrite ?length_alter.
  - unfold bias_strategy, Strategy.is_rowwise. split; intros Hk.
    + by rewrite bool_decide_eq_true_2.
    + by rewrite bool_decide_eq_false_2.
Qed.

Lemma Linear_set_sharding_strategy_bias_witness :
  ∃ h',
    Linear_set_sharding_strategy
      (example_linear (float8_config_of TENSOR ROWWISE DYNAMIC))
      (Strategy.columnwise 2) (example_heap [128; 1]) = (Ok tt, h')
    ∧ w_sharding_strategy <$> h' !! 1%nat = Some (Some (Strategy.replicate 2)).
Proof.
  assert (Hwf : Linear_wf (example_heap [128; 1])
                  (example_linear (float8_config_of TENSOR ROWWISE DYNAMIC))).
  { apply (bool_decide_unpack _). by vm_compute. }
  destruct (Linear_set_sharding_strategy_bias
              (example_linear (float8_config_of TENSOR ROWWISE DYNAMIC))
              (Strategy.columnwise 2) (example_heap [128; 1]) 1%nat
              eq_refl Hwf (λ _, mk_is_Some _ _ eq_refl))
    as (h' & s_b & Hrun & Hb & _ & Hrep).
  exists h'. split; [exact Hrun|].
  rewrite Hb, Hrep; [reflexivity | discriminate].
Defined.

Lemma num_devices_bias_strategy s :
  num_devices (bias_strategy s) = num_devices s.
Proof. unfold bias_strategy. by destruct (Strategy.is_rowwise s). Qed.

Lemma num_devices_weight_scale_strategy cfg s :
  num_devices (weight_scale_strategy cfg s) = num_devices s.
Proof. unfold weight_scale_strategy. by destruct (_ || _). Qed.

(** X2. Assigning a strategy to a well-formed Linear touches the weight,
    the bias and the weight scale of the layer and nothing else: the store
    keeps its size, every tensor keeps its name, element type, shape and
    encoding, the tensors other than these three - the input scale among
    them - are left as they are, and each of the three is what the setter
    of [Weight.sharding_strategy] makes of it for a strategy that has the
    device count of the assigned one. *)
Theorem Linear_set_sharding_strategy_frame (l : Linear ref) strategy (h : Heap) :
  Linear_wf h l →
  (is_Some (weight_scale l) → is_Some (float8_config l)) →
  ∃ h',
    Linear_set_sharding_strategy l strategy h = (Ok tt, h')
    ∧ length h' = length h
    ∧ ∀ r w, h !! r = Some w →
        ∃ w', h' !! r = Some w'
              ∧ w_name w' = w_name w ∧ w_dtype w' = w_dtype w
              ∧ w_shape w' = w_shape w
              ∧ w_quantization_encoding w' = w_quantization_encoding w
              ∧ (r ≠ weight l → Some r ≠ bias l → Some r ≠ weight_scale l →
                 w' = w)
              ∧ (r = weight l ∨ Some r = bias l ∨ Some r = weight_scale l →
                 ∃ s, w' = set_w_sharding_strategy s w
                      ∧ num_devices s = num_devices strategy).
Proof.
  intros Hwf Hf8. exists (propagated l strategy h).
  split; [by apply Linear_set_sharding_strategy_Ok|].
  split; [apply length_propagated|].
  intros r w Hw. unfold propagated.
  pose proof (num_devices_bias_strategy strategy) as Hnb.
  destruct (weight_scale l) as [sc|] eqn:Esc.
  - destruct Hf8 as [cfg ->]; [by eexists|].
    pose proof (num_devices_weight_scale_strategy cfg strategy) as Hns.
    destruct (bias l) as [b|];
      repeat match goal with
        | |- context [alter ?f ?i ?hh !! r] =>
            destruct (decide (i = r)) as [->|?];
            [rewrite list_lookup_alter_eq
            |rewrite list_lookup_alter_ne by done]
        end;
      rewrite Hw; simpl; eexists; (split; [reflexivity|]);
      split_and!;
      first [ done | by (intros; congruence)
            | by (intros [?|[?|?]]; congruence)
            | by (intros _; eexists; (split; [reflexivity|])) ].
  - destruct (bias l) as [b|];
      repeat match goal with
        | |- context [alter ?f ?i ?hh !! r] =>
            destruct (decide (i = r)) as [->|?];
            [rewrite list_lookup_alter_eq
            |rewrite list_lookup_alter_ne by done]
        end;
      rewrite Hw; simpl; eexists; (split; [reflexivity|]);
      split_and!;
      first [ done | by (intros; congruence)
            | by (intros [?|[?|?]]; congruence)
            | by (intros _; eexists; (split; [reflexivity|])) ].
Qed.

Lemma Linear_set_sharding_strategy_frame_witness :
  Linear_wf rowwise_float8_heap rowwise_float8_linear
  ∧ ∃ h',
      Linear_set_sharding_strategy rowwise_float8_linear
        (Strategy.columnwise 4) rowwise_float8_heap = (Ok tt, h')
      ∧ length h' = 3%nat
      ∧ h' !! 1%nat = Some (Weight_plain "input_scale" float32 [] (CPU 0) None)
      ∧ w_name <$> h' !! 0%nat = Some "weight"
      ∧ w_shape <$> h' !! 0%nat = Some [128; 256].
Proof.
  assert (Hwf : Linear_wf rowwise_float8_heap rowwise_float8_linear).
  { apply (bool_decide_unpack _). by vm_compute. }
  split; [exact Hwf|].
  destruct (Linear_set_sharding_strategy_frame rowwise_float8_linear
              (Strategy.columnwise 4) rowwise_float8_heap Hwf
              (λ _, mk_is_Some _ _ eq_refl))
    as (h' & Hrun & Hlen & Hall).
  exists h'. split_and!; [exact Hrun | exact Hlen | | |].
  - destruct (Hall 1%nat _ eq_refl) as (w' & -> & _ & _ & _ & _ & Hsame & _).
    f_equal. apply Hsame; discriminate.
  - destruct (Hall 0%nat _ eq_refl) as (w' & -> & Hname & _).
    simpl. rewrite Hname. reflexivity.
  - destruct (Hall 0%nat _ eq_refl) as (w' & -> & _ & _ & Hshape & _).
    simpl. rewrite Hshape. reflexivity.
Defined.

(** X3. A weight scale without a float8 configuration fails the assertion
    of the setter - after the strategy of the weight has been assigned: the
    store keeps that assignment. *)
Theorem Linear_set_sharding_strategy_assertion
    (l : Linear ref) strategy (h : Heap) ws :
  weight_scale l = Some ws → float8_config l = None →
  (weight l < length h)%nat →
  Linear_set_sharding_strategy l strategy h
  = (Raise AssertionError,
     alter (set_w_sharding_strategy strategy) (weight l) h)
  ∧ w_sharding_strategy
      <$> alter (set_w_sharding_strategy strategy) (weight l) h !! weight l
    = Some (Some strategy).
Proof.
  intros Hws Hf8 Hw. split.
  - unfold Linear_set_sharding_strategy.
    by rewrite bind_eq, (modify_alter _ _ _ Hw), bind_eq, Hws, Hf8.
  - rewrite list_lookup_alter_eq.
    by destruct (lookup_lt_is_Some_2 h _ Hw) as [w ->].
Qed.

Lemma Linear_set_sharding_strategy_assertion_witness :
  Linear_set_sharding_strategy
    (mkLinear 0%nat None None (Some 2%nat) (GPU 0) None None)
    (Strategy.rowwise 2) (example_heap [])
  = (Raise AssertionError,
     alter (set_w_sharding_strategy (Strategy.rowwise 2)) 0%nat (example_heap [])).
Proof.
  apply (Linear_set_sharding_strategy_assertion
           (mkLinear 0%nat None None (Some 2%nat) (GPU 0) None None)
           (Strategy.rowwise 2) (example_heap []) 2%nat eq_refl eq_refl).
  vm_compute. lia.
Defined.

(** ** Linear.shard: refusal, and what it leaves alone *)

(** X4. [shard] on a layer whose weight has no sharding strategy raises the
    no-sharding-strategy [ValueError] and leaves the store as it is. *)
Theorem Linear_shard_no_strategy Weight_new partition
    (self : Linear ref) devs (h : Heap) w :
  h !! weight self = Some w → w_sharding_strategy w = None →
  Linear_shard Weight_new partition self devs h
  = (Raise (ValueError LinearNoShardingStrategy), h).
Proof.
  intros Hw Hs. unfold Linear_shard.
  by rewrite bind_eq, (read_Some _ _ _ Hw), Hs.
Qed.

Lemma Linear_shard_no_strategy_witness :
  Linear_shard Weight_plain partition_even
    (example_linear (float8_config_of TENSOR ROWWISE DYNAMIC)) [GPU 0; GPU 1]
    (example_heap [128; 1])
  = (Raise (ValueError LinearNoShardingStrategy), example_heap [128; 1]).
Proof.
  exact (Linear_shard_no_strategy Weight_plain partition_even
           (example_linear (float8_config_of TENSOR ROWWISE DYNAMIC))
           [GPU 0; GPU 1] (example_heap [128; 1]) _ eq_refl eq_refl).
Defined.

Lemma extends_only_Linear_shard Weight_new partition self devs :
  extends_only (Linear_shard Weight_new partition self devs).
Proof.
  unfold Linear_shard, Linear_shard_out_dim.
  pose proof (extends_only_Weight_shard partition).
  pose proof (extends_only_Linear_shard_one Weight_new).
  solve_extends.
Qed.

(** X5. [shard] never changes the layer it shards: whether it returns or
    raises, every tensor of the store is afterwards where and as it was; the
    shards are new objects. *)
Theorem Linear_shard_non_destructive Weight_new partition
    (self : Linear ref) devs (h : Heap) outcome h' :
  Linear_shard Weight_new partition self devs h = (outcome, h') →
  (length h ≤ length h')%nat
  ∧ (∀ r w, h !! r = Some w → h' !! r = Some w)
  ∧ ∀ shards, outcome = Ok shards →
      ∀ i sh, shards !! i = Some sh → (length h ≤ weight sh)%nat.
Proof.
  intros Hrun.
  pose proof (extends_only_Linear_shard _ _ _ _ _ _ _ Hrun) as Hpre.
  split_and!.
  - by apply prefix_length.
  - intros r w Hw. by eapply prefix_lookup.
  - intros shards -> i sh Hi.
    destruct (Linear_shard_lookup _ _ _ _ _ _ _ Hrun)
      as (w & s & out_dim & sb & sws & ha & hb & hc & Hw & Hs & _ & _ & _ & _
          & Hha & Hhb & Hhc & _ & _ & Hshards).
    destruct (Hshards i sh Hi) as (dev & h1 & h2 & _ & Hh1 & _ & Hone).
    assert (Hw1 : h1 !! weight self = Some w).
    { eapply prefix_lookup; [|exact Hw].
      etrans; [exact Hha|]. etrans; [exact Hhb|]. etrans; [exact Hhc|exact Hh1]. }
    destruct (Linear_shard_one_Ok _ _ _ _ _ _ _ _ _ _ _ _ _ Hw1 Hs Hone)
      as (-> & _). lia.
Qed.

Lemma Linear_shard_non_destructive_witness :
  ∃ outcome h',
    Linear_shard Weight_plain partition_even colwise_linear [GPU 0; GPU 1]
      colwise_heap = (outcome, h')
    ∧ h' !! 0%nat = colwise_heap !! 0%nat
    ∧ h' !! 1%nat = colwise_heap !! 1%nat.
Proof.
  eexists _, _. split; [reflexivity|].
  destruct (Linear_shard_non_destructive Weight_plain partition_even
              colwise_linear [GPU 0; GPU 1] colwise_heap _ _ eq_refl)
    as (_ & Hall & _).
  split; by apply Hall.
Defined.

(** X6. [shard] returns one shard per device, and every shard keeps the
    configuration of the layer: the shard of index [i] is placed on
    [devices[i]] and has the float8 configuration and the clipping threshold
    of the original. *)
Theorem Linear_shard_keeps_configuration Weight_new partition
    (self : Linear ref) devs (h : Heap) shards h' :
  Linear_shard Weight_new partition self devs h = (Ok shards, h') →
  length shards = length devs
  ∧ ∀ i sh, shards !! i = Some sh →
    devs !! i = Some (device sh)
    ∧ float8_config sh = float8_config self
    ∧ clip_weight sh = clip_weight self.
Proof.
  intros Hrun.
  destruct (Linear_shard_lookup _ _ _ _ _ _ _ Hrun)
    as (w & s & out_dim & sb & sws & ha & hb & hc & _ & _ & _ & _ & _ & _
        & _ & _ & _ & _ & Hlen & Hshards).
  split; [exact Hlen|]. intros i sh Hi.
  destruct (Hshards i sh Hi) as (dev & h1 & h2 & Hdev & _ & _ & Hone).
  rewrite Hdev.
  unfold Linear_shard_one in Hone.
  apply bind_Ok_inv in Hone as (w1 & h0 & [_ ->]%read_Ok_inv & Hone).
  apply bind_Ok_inv in Hone as (in_dim & h0 & [_ ->]%shape_at_Ok_inv & Hone).
  apply bind_Ok_inv in Hone as (sharded0 & hx & Hinit & Hone).
  apply Linear_init_Ok_fields in Hinit as (_ & Hd & Hc & Hf & _).
  repeat inv_step; simpl; by rewrite ?Hd, ?Hc, ?Hf.
Qed.

Lemma Linear_shard_keeps_configuration_witness :
  ∃ h',
    Linear_shard Weight_plain partition_even rowwise_float8_linear
      [GPU 0; GPU 1] rowwise_float8_heap
    = (Ok [mkLinear 3%nat None (Some 1%nat) (Some 5%nat) (GPU 0) None
             (Some (float8_config_of TENSOR ROWWISE STATIC));
           mkLinear 4%nat None (Some 1%nat) (Some 6%nat) (GPU 1) None
             (Some (float8_config_of TENSOR ROWWISE STATIC))], h')
    ∧ length [mkLinear 3%nat None (Some 1%nat) (Some 5%nat) (GPU 0) None
                (Some (float8_config_of TENSOR ROWWISE STATIC));
              mkLinear 4%nat None (Some 1%nat) (Some 6%nat) (GPU 1) None
                (Some (float8_config_of TENSOR ROWWISE STATIC))]
      = length [GPU 0; GPU 1]
    ∧ [GPU 0; GPU 1] !! 1%nat = Some (GPU 1).
Proof.
  eexists. split; [by vm_compute|].
  destruct (Linear_shard_keeps_configuration Weight_plain partition_even
              rowwise_float8_linear [GPU 0; GPU 1] rowwise_float8_heap _ _
              eq_refl) as [Hlen Hall].
  split; [exact Hlen|].
  by destruct (Hall 1%nat _ eq_refl) as (Hd & _).
Defined.

(** X7. Under a strategy that is neither colwise nor head-aware colwise,
    [shard] on a layer with a bias returns one shard per device and gives
    every shard a bias of its own: the shard of index [i] holds a new
    object, cut from the original bias by the partition rule of the bias's
    strategy for device [i]. *)
Theorem Linear_shard_bias_partitioned Weight_new partition
    (self : Linear ref) devs (h : Heap) shards h' b bw w s :
  bias self = Some b → h !! b = Some bw →
  h !! weight self = Some w → w_sharding_strategy w = Some s →
  kind s ≠ Columnwise → kind s ≠ HeadAwareColumnwise →
  Linear_shard Weight_new partition self devs h = (Ok shards, h') →
  length shards = length devs
  ∧ ∀ i sh, shards !! i = Some sh →
    ∃ r' s_b dev,
      bias sh = Some r' ∧ (length h ≤ r')%nat
      ∧ w_sharding_strategy bw = Some s_b ∧ devs !! i = Some dev
      ∧ h' !! r' = Some (partition s_b bw i dev).
Proof.
  intros Hb Hbw Hw Hs Hk1 Hk2 Hrun.
  apply Linear_shard_lookup in Hrun
    as (w' & s' & out_dim & sb & sws & ha & hb & hc & Hw' & Hs' & _ & -> & Hsb
        & _ & Hha & Hhb & Hhc & Hh' & Hlen & Hshards).
  assert (w' = w) as -> by congruence.
  assert (s' = s) as -> by congruence.
  split; [exact Hlen|]. intros i sh Hi.
  destruct (Hshards i sh Hi) as (dev & h1 & h2 & Hdev & Hh1 & _ & Hone).
  assert (Hhh1 : h `prefix_of` h1).
  { etrans; [exact Hha|]. etrans; [exact Hhb|]. etrans; [exact Hhc|exact Hh1]. }
  destruct (Linear_shard_one_Ok _ _ _ _ _ _ _ _ _ _ _ _ _
              (prefix_lookup _ _ _ _ Hhh1 Hw) Hs Hone) as (_ & Hbias & _).
  specialize (Hbias (ltac:(by rewrite Hb))).
  assert (Hcol : Strategy.is_colwise s || Strategy.is_head_aware_colwise s = false).
  { apply orb_false_iff. unfold Strategy.is_colwise, Strategy.is_head_aware_colwise.
    by rewrite !bool_decide_eq_false_2. }
  rewrite Hcol in Hbias. simpl in Hbias. destruct Hbias as (r' & Hr' & Hsh).
  rewrite Hb in Hsb.
  apply Weight_shard_Ok in Hsb as (bw' & s_b & Hbw' & Hs_b & -> & ->).
  rewrite (prefix_lookup _ _ _ _ Hha Hbw) in Hbw'. injection Hbw' as <-.
  apply lookup_seq in Hr' as [-> Hi'].
  eexists _, s_b, dev. split_and!; try done.
  - apply prefix_length in Hha. lia.
  - eapply prefix_lookup; [etrans; [exact Hhc | exact Hh']|].
    rewrite lookup_app_r by lia.
    match goal with |- context [(?a + i - ?a)%nat] =>
      replace (a + i - a)%nat with i by lia end.
    by rewrite list_lookup_imap, Hdev.
Qed.

Lemma Linear_shard_bias_partitioned_witness :
  ∃ h',
    Linear_shard Weight_plain partition_even colwise_linear [GPU 0; GPU 1]
      rowwise_heap
    = (Ok [mkLinear 2%nat (Some 4%nat) None None (GPU 0) None None;
           mkLinear 3%nat (Some 5%nat) None None (GPU 1) None None], h')
    ∧ length [mkLinear 2%nat (Some 4%nat) None None (GPU 0) None None;
              mkLinear 3%nat (Some 5%nat) None None (GPU 1) None None]
      = length [GPU 0; GPU 1]
    ∧ h' !! 5%nat
      = Some (partition_even (Strategy.rowwise 2)
                (set_w_sharding_strategy (Strategy.rowwise 2)
                   (Weight_plain "bias" float32 [128] (GPU 0) None))
                1 (GPU 1)).
Proof.
  eexists. split; [by vm_compute|].
  destruct (Linear_shard_bias_partitioned Weight_plain partition_even
              colwise_linear [GPU 0; GPU 1] rowwise_heap _ _ 1%nat _ _ _
              eq_refl eq_refl eq_refl eq_refl ltac:(discriminate)
              ltac:(discriminate) eq_refl)
    as [Hlen Hall].
  split; [exact Hlen|].
  destruct (Hall 1%nat _ eq_refl)
    as (r' & s_b & dev & [= <-] & _ & [= <-] & [= <-] & Hr').
  exact Hr'.
Defined.

(** ** Running a computation on a store of which a suffix is known *)

Lemma alloc_app (w : Weight) (h l : Heap) :
  alloc w (h ++ l) = (Ok (length h + length l)%nat, h ++ (l ++ [w])).
Proof. unfold alloc. by rewrite length_app, app_assoc. Qed.

Lemma read_app (h l : Heap) k w :
  l !! k = Some w → read (length h + k) (h ++ l) = (Ok w, h ++ l).
Proof.
  intros Hk. apply read_Some. rewrite lookup_app_r by lia.
  by replace (length h + k - length h)%nat with k by lia.
Qed.

Lemma read_base (h l : Heap) r w :
  h !! r = Some w → read r (h ++ l) = (Ok w, h ++ l).
Proof. intros Hr. apply read_Some. by apply lookup_app_l_Some. Qed.

Lemma lookup_alloc (h l : Heap) k : (h ++ l) !! (length h + k)%nat = l !! k.
Proof.
  rewrite lookup_app_r by lia.
  by replace (length h + k - length h)%nat with k by lia.
Qed.

(** One step of a run: the next bind, an allocation, or a read of a tensor
    allocated by the run. *)
Ltac run_step :=
  first
    [ rewrite bind_eq
    | rewrite alloc_app; simpl length; cbn [app]
    | erewrite read_app by reflexivity
    | progress unfold ret at 1
    | progress cbn [fst snd] ].
Ltac run := repeat run_step.

(** ** GPTQLinear: what the constructor refuses and what it declares *)

(** X8. [GPTQLinear] refuses a bias and a float8 configuration before it
    declares anything, and fails its assertion - the two packed tensors
    already declared - when the quantization configuration is missing or
    not symmetric. *)
Theorem GPTQLinear_init_refusals Weight_new in_dim dev has_bias enc config f8
    (h : Heap) :
  (has_bias = true →
   GPTQLinear_init Weight_new in_dim dev has_bias enc config f8 h
   = (Ok (inl GPTQHasBias), h))
  ∧ (has_bias = false → is_Some f8 →
     GPTQLinear_init Weight_new in_dim dev has_bias enc config f8 h
     = (Ok (inl GPTQFloat8), h))
  ∧ (has_bias = false → f8 = None →
     (config = None ∨ ∃ cfg, config = Some cfg ∧ sym cfg = false) →
     GPTQLinear_init Weight_new in_dim dev has_bias enc config f8 h
     = (Raise AssertionError,
        h ++ [Weight_new "qweight" uint8 [1; 1] dev enc;
              Weight_new "scales" uint8 [1; 1] dev enc])).
Proof.
  unfold GPTQLinear_init. split_and!.
  - by intros ->.
  - intros -> Hf8. by rewrite bool_decide_eq_true_2.
  - intros -> -> Hc.
    rewrite bool_decide_eq_false_2 by apply is_Some_None.
    rewrite <- (app_nil_r h) at 1. run.
    destruct Hc as [->|(cfg & -> & Hsym)]; [done|]. by rewrite Hsym.
Qed.

Lemma GPTQLinear_init_refusals_witness :
  GPTQLinear_init Weight_plain 256 (GPU 0) true (Some GPTQ)
    (Some {| sym := true; desc_act := false |}) None []
  = (Ok (inl GPTQHasBias), [])
  ∧ GPTQLinear_init Weight_plain 256 (GPU 0) false (Some GPTQ)
      (Some {| sym := true; desc_act := false |})
      (Some (float8_config_of TENSOR TENSOR STATIC)) []
    = (Ok (inl GPTQFloat8), [])
  ∧ GPTQLinear_init Weight_plain 256 (GPU 0) false (Some GPTQ) None None []
    = (Raise AssertionError,
       [Weight_plain "qweight" uint8 [1; 1] (GPU 0) (Some GPTQ);
        Weight_plain "scales" uint8 [1; 1] (GPU 0) (Some GPTQ)]).
Proof.
  split_and!.
  - by apply (proj1 (GPTQLinear_init_refusals Weight_plain 256 (GPU 0) true
                       (Some GPTQ) (Some {| sym := true; desc_act := false |})
                       None [])).
  - apply (proj1 (proj2 (GPTQLinear_init_refusals Weight_plain 256 (GPU 0) false
                       (Some GPTQ) (Some {| sym := true; desc_act := false |})
                       (Some (float8_config_of TENSOR TENSOR STATIC)) [])));
      [reflexivity | by eexists].
  - apply (proj2 (proj2 (GPTQLinear_init_refusals Weight_plain 256 (GPU 0) false
                       (Some GPTQ) None None [])));
      [reflexivity | reflexivity | by left].
Defined.

(** X9. When [GPTQLinear] is constructed, it holds the two packed tensors,
    declared as 1 x 1 byte placeholders on its device, and a permutation
    index - of [in_dim] 32-bit integers - exactly when the configuration
    asks for activation ordering. *)
Theorem GPTQLinear_init_Ok Weight_new in_dim dev has_bias enc config f8
    (h : Heap) layer h' :
  GPTQLinear_init Weight_new in_dim dev has_bias enc config f8 h
  = (Ok (inr layer), h') →
  has_bias = false ∧ f8 = None
  ∧ config = Some (quantization_config layer)
  ∧ sym (quantization_config layer) = true
  ∧ gptq_device layer = dev
  ∧ h' !! qweight layer = Some (Weight_new "qweight" uint8 [1; 1] dev enc)
  ∧ h' !! scales layer = Some (Weight_new "scales" uint8 [1; 1] dev enc)
  ∧ (is_Some (perm_idx layer) ↔ desc_act (quantization_config layer) = true)
  ∧ ∀ p, perm_idx layer = Some p →
         h' !! p = Some (Weight_new "perm_idx" int32 [in_dim] dev None).
Proof.
  unfold GPTQLinear_init.
  destruct has_bias; [by intros [=]|].
  case_bool_decide as Hf8; [by intros [=]|].
  assert (f8 = None) as -> by (destruct f8; [destruct Hf8; by eexists | done]).
  rewrite <- (app_nil_r h) at 1. run.
  destruct config as [cfg|]; [|by intros [=]].
  destruct (sym cfg) eqn:Hsym; [|by intros [=]]. simpl.
  destruct (desc_act cfg) eqn:Hdesc; run; intros [= <- <-]; simpl;
    split_and!; try done.
  all: try (by rewrite lookup_alloc).
  all: try (by (split; [|by eexists])).
  all: try (by (intros p Hp; injection Hp as <-; rewrite lookup_alloc)).
  rewrite Hdesc. split; [by intros []%is_Some_None | done].
Qed.

Lemma GPTQLinear_init_Ok_witness :
  ∃ layer h',
    GPTQLinear_init Weight_plain 256 (GPU 0) false (Some GPTQ)
      (Some {| sym := true; desc_act := true |}) None [] = (Ok (inr layer), h')
    ∧ is_Some (perm_idx layer)
    ∧ h' !! qweight layer
      = Some (Weight_plain "qweight" uint8 [1; 1] (GPU 0) (Some GPTQ)).
Proof.
  eexists _, _. split; [by vm_compute|].
  destruct (GPTQLinear_init_Ok Weight_plain 256 (GPU 0) false (Some GPTQ)
              (Some {| sym := true; desc_act := true |}) None [] _ _ eq_refl)
    as (_ & _ & _ & _ & _ & Hq & _ & Hp & _).
  split; [by apply Hp | exact Hq].
Defined.

(** ** Construction without float8 *)

(** The layer and the store that [Linear.__init__] returns when no float8
    configuration is given and the bias, if any, is declared on the device
    of the weight. *)
Lemma Linear_init_plain_run Weight_new in_dim out_dim dtype dev has_bias enc
    name clip (h : Heap) :
  let w := Weight_new (attr_name name "weight") dtype [out_dim; in_dim] dev enc in
  let b := Weight_new (attr_name name "bias") dtype [out_dim] dev enc in
  (has_bias = true → w_device b = w_device w) →
  Linear_init Weight_new in_dim out_dim dtype dev has_bias enc None name clip h
  = (Ok (mkLinear (length h)
           (if has_bias then Some (S (length h)) else None) None None dev clip
           None),
     h ++ w :: (if has_bias then [b] else [])).
Proof.
  intros w b Hdev. subst w b. unfold Linear_init.
  rewrite bind_eq. unfold alloc at 1. rewrite bind_eq.
  destruct has_bias.
  - rewrite bind_eq. unfold alloc at 1.
    rewrite bind_eq, alloc_read, bind_eq, read_older.
    rewrite bool_decide_eq_false_2 by (intros Hne; by apply Hne, Hdev).
    unfold ret. rewrite bind_eq. simpl.
    rewrite length_app, Nat.add_1_r, <- app_assoc. done.
  - unfold ret. rewrite bind_eq. done.
Qed.

(** ** MLP: the arguments it refuses *)

(** X12. [MLP] in plain precision with an activation name that is not
    registered fails its assertion once the three projections are built:
    their weights (and biases) are in the store by then. *)
Theorem MLP_init_unknown_activation dtype enc hidden_dim feed_forward_length
    dev devs has_bias activation dist (h : Heap) :
  activation ∉ _ACTIVATION_FUNCTIONS →
  ∃ h',
    MLP_init Weight_plain dtype enc hidden_dim feed_forward_length (dev :: devs)
      has_bias activation None dist h
    = (Raise AssertionError, h')
    ∧ length h' = (length h + (if has_bias then 6 else 3))%nat.
Proof.
  intros Hact. unfold MLP_init.
  rewrite bind_eq, Linear_init_plain_run by done.
  rewrite bind_eq, Linear_init_plain_run by done.
  rewrite bind_eq, Linear_init_plain_run by done.
  rewrite bool_decide_eq_false_2 by done.
  eexists. split; [reflexivity|].
  destruct has_bias; rewrite !length_app; simpl; lia.
Qed.

Lemma MLP_init_unknown_activation_witness :
  ("swiglu" ∉ _ACTIVATION_FUNCTIONS)
  ∧ ∃ h',
      MLP_init Weight_plain float32 None 8 32 [GPU 0] false "swiglu" None None []
      = (Raise AssertionError, h')
      ∧ length h' = 3%nat.
Proof.
  assert (Hact : "swiglu" ∉ _ACTIVATION_FUNCTIONS).
  { apply (bool_decide_unpack _). by vm_compute. }
  split; [exact Hact|].
  exact (MLP_init_unknown_activation float32 None 8 32 (GPU 0) [] false
           "swiglu" None [] Hact).
Defined.

(** ** The setter of MLP *)

Lemma Linear_wf_length (h h' : Heap) l :
  length h' = length h → Linear_wf h l → Linear_wf h' l.
Proof. unfold Linear_wf. by intros ->. Qed.

Lemma propagated_lookup_ne (l : Linear ref) strategy (h : Heap) r :
  r ∉ Linear_refs l → propagated l strategy h !! r = h !! r.
Proof.
  unfold Linear_refs, propagated. intros Hr.
  rewrite not_elem_of_cons, !not_elem_of_app in Hr.
  destruct Hr as (Hw & Hb & _ & Hs).
  assert (Hw' : weight l ≠ r) by done.
  assert (Hb' : ∀ x, x ∈ option_list (bias l) → x ≠ r) by (by intros x Hx ->).
  assert (Hs' : ∀ x, x ∈ option_list (weight_scale l) → x ≠ r)
    by (by intros x Hx ->).
  destruct (bias l) as [b|], (weight_scale l) as [s|], (float8_config l);
    simpl in *;
    repeat (rewrite list_lookup_alter_ne
              by solve [exact Hw' | apply Hb'; by left | apply Hs'; by left]);
    done.
Qed.

Lemma propagated_lookup_weight (l : Linear ref) strategy (h : Heap) :
  Linear_wf h l →
  w_sharding_strategy <$> propagated l strategy h !! weight l
  = Some (Some strategy).
Proof.
  intros Hwf. destruct (Linear_wf_bounds h l Hwf) as (Hw & Hb & Hs & _).
  destruct (lookup_lt_is_Some_2 h _ Hw) as [w Ew].
  unfold propagated.
  destruct (bias l) as [b|] eqn:Eb, (weight_scale l) as [s|] eqn:Es,
    (float8_config l);
    try destruct (Hb b eq_refl) as [_ ?];
    try destruct (Hs s eq_refl) as [_ ?];
    rewrite ?list_lookup_alter_ne by done;
    by rewrite list_lookup_alter_eq, Ew.
Qed.

(** X13. The setter of [MLP] refuses a strategy that is neither a
    replication nor tensor-parallel: the projections and the store are left
    as they are, yet the refused strategy stays recorded on the MLP. *)
Theorem MLP_set_sharding_strategy_unsupported
    (self : MLPModule) strategy (h : Heap) :
  kind strategy ≠ Replicate → kind strategy ≠ TensorParallel →
  ∃ self',
    MLP_set_sharding_strategy self strategy h
    = (Ok (self', Some (UnsupportedShardingStrategy strategy)), h)
    ∧ _sharding_strategy self' = Some strategy
    ∧ m_gate_proj self' = m_gate_proj self
    ∧ m_down_proj self' = m_down_proj self
    ∧ m_up_proj self' = m_up_proj self.
Proof.
  intros Hr Ht. unfold MLP_set_sharding_strategy,
    Strategy.is_replicate, Strategy.is_tensor_parallel.
  rewrite !bool_decide_eq_false_2 by done. by eexists.
Qed.

Lemma MLP_set_sharding_strategy_unsupported_witness :
  ∃ self',
    MLP_set_sharding_strategy mlp_module (Strategy.rowwise 2) mlp_heap
    = (Ok (self', Some (UnsupportedShardingStrategy (Strategy.rowwise 2))),
       mlp_heap)
    ∧ _sharding_strategy self' = Some (Strategy.rowwise 2).
Proof.
  destruct (MLP_set_sharding_strategy_unsupported mlp_module
              (Strategy.rowwise 2) mlp_heap ltac:(discriminate)
              ltac:(discriminate)) as (self' & Hrun & Hs & _).
  by exists self'.
Defined.

Lemma weight_in_Linear_refs (l : Linear ref) : weight l ∈ Linear_refs l.
Proof. unfold Linear_refs. by left. Qed.

(** The setters of the three projections, one after the other. *)
Lemma projections_propagated (self : MLPModule) sg sd su (h : Heap) {A} (x : A) :
  MLPModule_wf h self →
  let h3 := propagated (m_up_proj self) su
              (propagated (m_down_proj self) sd
                 (propagated (m_gate_proj self) sg h)) in
  (Linear_set_sharding_strategy (m_gate_proj self) sg;;
   Linear_set_sharding_strategy (m_down_proj self) sd;;
   Linear_set_sharding_strategy (m_up_proj self) su;;
   ret x) h = (Ok x, h3)
  ∧ length h3 = length h
  ∧ w_sharding_strategy <$> h3 !! weight (m_gate_proj self) = Some (Some sg)
  ∧ w_sharding_strategy <$> h3 !! weight (m_down_proj self) = Some (Some sd)
  ∧ w_sharding_strategy <$> h3 !! weight (m_up_proj self) = Some (Some su).
Proof.
  intros [Hnd Hwf].
  apply Forall_cons in Hwf as [[Hg Hgf] Hwf].
  apply Forall_cons in Hwf as [[Hd Hdf] Hwf].
  apply Forall_cons in Hwf as [[Hu Huf] _].
  apply NoDup_app in Hnd as (_ & Hgx & Hnd).
  apply NoDup_app in Hnd as (_ & Hdx & _).
  set (h1 := propagated (m_gate_proj self) sg h).
  set (h2 := propagated (m_down_proj self) sd h1).
  assert (Hd1 : Linear_wf h1 (m_down_proj self)).
  { eapply Linear_wf_length; [|exact Hd]. apply length_propagated. }
  assert (Hu2 : Linear_wf h2 (m_up_proj self)).
  { eapply Linear_wf_length; [|exact Hu].
    unfold h2, h1. by rewrite !length_propagated. }
  simpl. split_and!.
  - rewrite bind_eq, Linear_set_sharding_strategy_Ok by done.
    rewrite bind_eq, Linear_set_sharding_strategy_Ok by done.
    rewrite bind_eq, Linear_set_sharding_strategy_Ok by done.
    done.
  - unfold h2, h1. by rewrite !length_propagated.
  - rewrite propagated_lookup_ne.
    2: { intros Hin. eapply Hgx; [apply weight_in_Linear_refs|].
         apply elem_of_app. by right. }
    unfold h2. rewrite propagated_lookup_ne.
    2: { intros Hin. eapply Hgx; [apply weight_in_Linear_refs|].
         apply elem_of_app. by left. }
    by apply propagated_lookup_weight.
  - rewrite propagated_lookup_ne.
    2: { intros Hin. eapply Hdx; [apply weight_in_Linear_refs|done]. }
    by apply propagated_lookup_weight.
  - by apply propagated_lookup_weight.
Qed.

(** X14. On a well-formed MLP the setter accepts a replication, which it
    hands to the three projections, and a tensor-parallel strategy, for
    which [gate_proj] and [up_proj] get [rowwise(n)] and [down_proj] gets
    [columnwise(n)]; the strategy is recorded on the MLP and the store keeps
    its size. *)
Theorem MLP_set_sharding_strategy_projections
    (self : MLPModule) strategy (h : Heap) :
  MLPModule_wf h self →
  kind strategy = Replicate ∨ kind strategy = TensorParallel →
  ∃ self' h' sg sd su,
    MLP_set_sharding_strategy self strategy h = (Ok (self', None), h')
    ∧ _sharding_strategy self' = Some strategy
    ∧ length h' = length h
    ∧ w_sharding_strategy <$> h' !! weight (m_gate_proj self) = Some (Some sg)
    ∧ w_sharding_strategy <$> h' !! weight (m_down_proj self) = Some (Some sd)
    ∧ w_sharding_strategy <$> h' !! weight (m_up_proj self) = Some (Some su)
    ∧ (kind strategy = Replicate →
       sg = strategy ∧ sd = strategy ∧ su = strategy)
    ∧ (kind strategy = TensorParallel →
       sg = Strategy.rowwise (num_devices strategy)
       ∧ sd = Strategy.columnwise (num_devices strategy)
       ∧ su = Strategy.rowwise (num_devices strategy)).
Proof.
  intros Hwf Hk.
  unfold MLP_set_sharding_strategy,
    Strategy.is_replicate, Strategy.is_tensor_parallel.
  destruct Hk as [Hk|Hk].
  - rewrite bool_decide_eq_true_2 by done.
    destruct (projections_propagated self strategy strategy strategy h
                (set_sharding_strategy_attr strategy self, @None LayerError) Hwf)
      as (Hrun & Hlen & Hg & Hd & Hu).
    eexists _, _, strategy, strategy, strategy.
    split_and!; [exact Hrun | done..| |]; [done|].
    rewrite Hk. discriminate.
  - rewrite bool_decide_eq_false_2 by (rewrite Hk; discriminate).
    rewrite bool_decide_eq_true_2 by done.
    destruct (projections_propagated self
                (Strategy.rowwise (num_devices strategy))
                (Strategy.columnwise (num_devices strategy))
                (Strategy.rowwise (num_devices strategy)) h
                (set_sharding_strategy_attr strategy self, @None LayerError) Hwf)
      as (Hrun & Hlen & Hg & Hd & Hu).
    eexists _, _, _, _, _.
    split_and!; [exact Hrun | done..| |]; [|done].
    rewrite Hk. discriminate.
Qed.

Lemma MLP_set_sharding_strategy_projections_witness :
  MLPModule_wf mlp_heap mlp_module
  ∧ ∃ self' h',
      MLP_set_sharding_strategy mlp_module (Strategy.tensor_parallel 2) mlp_heap
      = (Ok (self', None), h')
      ∧ w_sharding_strategy <$> h' !! 0%nat = Some (Some (Strategy.rowwise 2))
      ∧ w_sharding_strategy <$> h' !! 2%nat = Some (Some (Strategy.columnwise 2))
      ∧ w_sharding_strategy <$> h' !! 4%nat = Some (Some (Strategy.rowwise 2)).
Proof.
  assert (Hwf : MLPModule_wf mlp_heap mlp_module).
  { split; [apply (bool_decide_unpack _); by vm_compute|].
    repeat constructor; try (apply (bool_decide_unpack _); by vm_compute);
      by intros []%is_Some_None. }
  split; [exact Hwf|].
  destruct (MLP_set_sharding_strategy_projections mlp_module
              (Strategy.tensor_parallel 2) mlp_heap Hwf (or_intror eq_refl))
    as (self' & h' & sg & sd & su & Hrun & _ & _ & Hg & Hd & Hu & _ & Htp).
  destruct (Htp eq_refl) as (-> & -> & ->).
  by exists self', h'.
Defined.

(** ** MLP: construction and sharding *)

Lemma extends_only_MLP_init Weight_new dtype enc hd ffl devs has_bias act f8 dist :
  extends_only (MLP_init Weight_new dtype enc hd ffl devs has_bias act f8 dist).
Proof.
  unfold MLP_init. pose proof (extends_only_Linear_init Weight_new).
  solve_extends.
Qed.

(** What an MLP that [MLP.__init__] returned looks like. *)
Lemma MLP_init_Ok_fields Weight_new dtype enc hd ffl devs has_bias act f8 dist
    (h : Heap) m h' :
  MLP_init Weight_new dtype enc hd ffl devs has_bias act f8 dist h = (Ok m, h') →
  m_devices m = devs ∧ m_num_devices m = length devs
  ∧ _sharding_strategy m = None ∧ m_dist_gemm_config m = dist
  ∧ _activation_function_name m = act ∧ act ∈ _ACTIVATION_FUNCTIONS
  ∧ m_hidden_dim m = hd ∧ m_feed_forward_length m = ffl
  ∧ m_quantization_encoding m = enc ∧ m_float8_config m = f8
  ∧ ∃ dev0, head devs = Some dev0
            ∧ device (m_gate_proj m) = dev0 ∧ device (m_down_proj m) = dev0
            ∧ device (m_up_proj m) = dev0.
Proof.
  unfold MLP_init. destruct devs as [|dev0 devs]; [by intros [=]|].
  intros H.
  apply bind_Ok_inv in H as (g & h1 & Hg & H).
  apply bind_Ok_inv in H as (d & h2 & Hd & H).
  apply bind_Ok_inv in H as (u & h3 & Hu & H).
  case_bool_decide as Hact; [|by inv_step].
  apply ret_Ok_inv in H as [<- <-]. simpl.
  apply Linear_init_Ok_fields in Hg as (_ & Hgd & _).
  apply Linear_init_Ok_fields in Hd as (_ & Hdd & _).
  apply Linear_init_Ok_fields in Hu as (_ & Hud & _).
  split_and!; try done. by exists dev0.
Qed.

(** X15. An MLP as the constructor returns it has no sharding strategy:
    [shard] refuses it with the strategy-not-set [ValueError] and leaves the
    store as it is. *)
Theorem MLP_shard_fresh Weight_new partition dtype enc hd ffl devs has_bias
    act f8 dist (h : Heap) m h' shard_devs :
  MLP_init Weight_new dtype enc hd ffl devs has_bias act f8 dist h = (Ok m, h') →
  MLP_shard Weight_new partition m shard_devs h'
  = (Ok (inl ShardingStrategyNotSet), h').
Proof.
  intros (_ & _ & Hs & _)%MLP_init_Ok_fields.
  unfold MLP_shard. by rewrite Hs.
Qed.

Lemma MLP_shard_fresh_witness :
  ∃ m h',
    MLP_init Weight_plain float32 None 8 32 [GPU 0; GPU 1] true "silu" None
      None [] = (Ok m, h')
    ∧ MLP_shard Weight_plain partition_even m [GPU 0; GPU 1] h'
      = (Ok (inl ShardingStrategyNotSet), h').
Proof.
  eexists _, _. split; [by vm_compute|].
  by apply (MLP_shard_fresh Weight_plain partition_even float32 None 8 32
              [GPU 0; GPU 1] true "silu" None None []).
Defined.

Lemma extends_only_MLP_shard_one Weight_new self i t :
  extends_only (MLP_shard_one Weight_new self i t).
Proof.
  unfold MLP_shard_one. destruct t as [dev [g [d u]]].
  pose proof (extends_only_MLP_init Weight_new). solve_extends.
Qed.

Lemma Linear_shard_length Weight_new partition self devs (h : Heap) shards h' :
  Linear_shard Weight_new partition self devs h = (Ok shards, h') →
  length shards = length devs.
Proof.
  intros (? & ? & ? & ? & ? & ? & ? & ? & H)%Linear_shard_lookup.
  by destruct H as (_ & _ & _ & _ & _ & _ & _ & _ & _ & _ & Hlen & _).
Qed.

(** X16. When [MLP.shard] succeeds it has sharded [gate_proj], [down_proj]
    and [up_proj] in that order and returns one MLP per device: the MLP of
    index [i] holds the shards of index [i] of the three projections, lists
    device [i] alone, has no sharding strategy of its own and keeps the
    activation and the distributed-GEMM configuration of the original. *)
Theorem MLP_shard_Ok Weight_new partition (self : MLPModule) devs (h : Heap)
    shards h' :
  MLP_shard Weight_new partition self devs h = (Ok (inr shards), h') →
  ∃ gs ds us h1 h2 h3,
    Linear_shard Weight_new partition (m_gate_proj self) devs h = (Ok gs, h1)
    ∧ Linear_shard Weight_new partition (m_down_proj self) devs h1 = (Ok ds, h2)
    ∧ Linear_shard Weight_new partition (m_up_proj self) devs h2 = (Ok us, h3)
    ∧ length shards = length devs
    ∧ ∀ i sh, shards !! i = Some sh →
        gs !! i = Some (m_gate_proj sh)
        ∧ ds !! i = Some (m_down_proj sh)
        ∧ us !! i = Some (m_up_proj sh)
        ∧ (∃ dev, devs !! i = Some dev ∧ m_devices sh = [dev])
        ∧ m_num_devices sh = 1%nat
        ∧ _sharding_strategy sh = None
        ∧ m_dist_gemm_config sh = m_dist_gemm_config self
        ∧ _activation_function_name sh = _activation_function_name self.
Proof.
  unfold MLP_shard. destruct (_sharding_strategy self); [|by intros [=]].
  intros H.
  apply bind_Ok_inv in H as (gs & h1 & Hgs & H).
  apply bind_Ok_inv in H as (ds & h2 & Hds & H).
  apply bind_Ok_inv in H as (us & h3 & Hus & H).
  apply bind_Ok_inv in H as (shards' & h4 & Hloop & H).
  apply ret_Ok_inv in H as [[= <-] <-].
  exists gs, ds, us, h1, h2, h3. split_and!; [done..| |].
  - destruct (for_each_Ok _ _ _ _ _ _
                (extends_only_MLP_shard_one Weight_new self) Hloop) as [Hl _].
    rewrite Hl, !length_zip_with.
    rewrite (Linear_shard_length _ _ _ _ _ _ _ Hgs),
      (Linear_shard_length _ _ _ _ _ _ _ Hds),
      (Linear_shard_length _ _ _ _ _ _ _ Hus). lia.
  - intros i sh Hi.
    destruct (for_each_Ok _ _ _ _ _ _
                (extends_only_MLP_shard_one Weight_new self) Hloop) as [_ Hk].
    destruct (Hk i sh Hi) as ([dev [g [d u]]] & ha & hb & Hz & _ & _ & Hone).
    apply lookup_zip_with_Some in Hz as (dev' & t1 & [= <- <-] & Hdev & Hz).
    apply lookup_zip_with_Some in Hz as (g' & t2 & [= <- <-] & Hg & Hz).
    apply lookup_zip_with_Some in Hz as (d' & u' & [= <- <-] & Hd & Hu).
    unfold MLP_shard_one in Hone.
    apply bind_Ok_inv in Hone as (w & h0 & _ & Hone).
    apply bind_Ok_inv in Hone as (sharded & h5 & Hinit & Hone).
    apply ret_Ok_inv in Hone as [<- _].
    apply MLP_init_Ok_fields in Hinit
      as (Hdevs & Hn & Hs & Hdist & Hact & _).
    simpl. split_and!; try done. by exists dev.
Qed.

Lemma MLP_shard_Ok_witness :
  ∃ shards h',
    MLP_shard Weight_plain partition_even mlp_tp_module [GPU 0; GPU 1]
      mlp_tp_heap = (Ok (inr shards), h')
    ∧ length shards = 2%nat
    ∧ ∀ i sh, shards !! i = Some sh →
        m_num_devices sh = 1%nat ∧ _sharding_strategy sh = None.
Proof.
  eexists _, _. split; [by vm_compute|].
  destruct (MLP_shard_Ok Weight_plain partition_even mlp_tp_module
              [GPU 0; GPU 1] mlp_tp_heap _ _ eq_refl)
    as (gs & ds & us & h1 & h2 & h3 & _ & _ & _ & Hlen & Hsh).
  split; [exact Hlen|].
  intros i sh Hi. by destruct (Hsh i sh Hi) as (_ & _ & _ & _ & ? & ? & _).
Defined.

(** ** The execution face: what [__call__] ignores *)

(** X17. An MLP declared with a quantization encoding or a float8
    configuration computes [down(act(gate(x)) * up(x))] projection by
    projection, and never leaves the down projection to the caller: its
    [dist_gemm_config] has no effect on the result. *)
Theorem MLP_call_quantized_ignores_dist_gemm {TV : Type} `{K : Kernels TV}
    `{QK : QuantKernels TV} (FK : FusedKernels TV) (self : MLP TV)
    (cfg : option DistributedGemmConfig) (x : TV) :
  is_Some (quantization_encoding self) ∨ is_Some (mlp_float8_config self) →
  MLP_call self x = MLP_unfused self x
  ∧ MLP_call (with_dist_gemm_config cfg self) x = MLP_call self x.
Proof.
  intros Hq.
  assert (Hcond : bool_decide (is_Some (quantization_encoding self))
                  || bool_decide (is_Some (mlp_float8_config self)) = true).
  { destruct Hq as [Hq|Hq]; rewrite (bool_decide_eq_true_2 _ Hq);
      [done | apply orb_true_r]. }
  unfold MLP_call, MLP_call_generic. rewrite !swish_glu_guard_false.
  cbn [with_dist_gemm_config quantization_encoding mlp_float8_config].
  by rewrite Hcond.
Qed.

Lemma MLP_call_quantized_ignores_dist_gemm_witness :
  @MLP_call _ Z_kernels no_quant_kernels no_fused_kernels
    (example_mlp_encoded None) example_input
  = Some (on_gpu (Mat 2 [[6; 6]; [-4; -4]]))
  ∧ @MLP_call _ Z_kernels no_quant_kernels no_fused_kernels
      (with_dist_gemm_config (Some {| enable_matmul_allreduce := true |})
         (example_mlp_encoded None)) example_input
    = Some (on_gpu (Mat 2 [[6; 6]; [-4; -4]])).
Proof.
  destruct (MLP_call_quantized_ignores_dist_gemm (K := Z_kernels)
              (QK := no_quant_kernels) no_fused_kernels
              (example_mlp_encoded None)
              (Some {| enable_matmul_allreduce := true |}) example_input
              (or_introl (ex_intro _ Q4_0 eq_refl))) as [H1 H2].
  split; [by rewrite H1 | by rewrite H2, H1].
Defined.

(** X18. In plain precision the merged projection adds a bias only when
    [gate_proj] and [up_proj] both hold one: a bias held by one of them
    alone is dropped, the result is the one of the MLP without these
    biases. *)
Theorem MLP_call_lone_bias_dropped {TV : Type} `{K : Kernels TV}
    `{QK : QuantKernels TV} (FK : FusedKernels TV) (self : MLP TV) (x : TV) :
  quantization_encoding self = None → mlp_float8_config self = None →
  bias (gate_proj self) = None ∨ bias (up_proj self) = None →
  MLP_call self x = MLP_call (without_gate_up_bias self) x.
Proof.
  intros Henc Hf8 Hbias.
  unfold MLP_call, MLP_call_generic. rewrite !swish_glu_guard_false.
  cbn [without_gate_up_bias quantization_encoding mlp_float8_config
       down_proj dist_gemm_config skips_down_proj].
  rewrite Henc, Hf8.
  assert (Hh : MLP_fused_hidden self x
               = MLP_fused_hidden (without_gate_up_bias self) x).
  { unfold MLP_fused_hidden.
    cbn [without_gate_up_bias gate_proj up_proj set_bias weight bias device
         activation_function].
    destruct Hbias as [-> | ->]; [done|].
    by destruct (bias (gate_proj self)). }
  by rewrite Hh.
Qed.

Lemma MLP_call_lone_bias_dropped_witness :
  @MLP_call _ Z_kernels no_quant_kernels no_fused_kernels
    example_mlp_lone_bias example_input
  = @MLP_call _ Z_kernels no_quant_kernels no_fused_kernels
      (without_gate_up_bias example_mlp_lone_bias) example_input
  ∧ @MLP_call _ Z_kernels no_quant_kernels no_fused_kernels
      (without_gate_up_bias example_mlp_lone_bias) example_input
    = Some (on_gpu (Mat 2 [[9; 3]; [-3; -3]]))
  ∧ @MLP_unfused _ Z_kernels no_quant_kernels example_mlp_lone_bias
      example_input
    = Some (on_gpu (Mat 2 [[6; 6]; [-4; -4]])).
Proof.
  split; [|split; by vm_compute].
  exact (MLP_call_lone_bias_dropped (K := Z_kernels) (QK := no_quant_kernels)
           no_fused_kernels example_mlp_lone_bias example_input eq_refl
           eq_refl (or_intror eq_refl)).
Defined.

(** X19. [if self.clip_weight:] is false for a threshold of zero: such a
    layer does not clamp its weight, it computes what the layer without a
    threshold computes. *)
Theorem Linear_call_clip_zero {TV : Type} `{K : Kernels TV}
    `{QK : QuantKernels TV} (self : Linear TV) (c : Q) (x : TV) :
  clip_weight self = Some c → (c == 0)%Q →
  Linear_call self x = Linear_call (set_clip_weight None self) x.
Proof.
  intros Hc Hz. unfold Linear_call.
  cbn [set_clip_weight clip_weight weight float8_config weight_scale
       input_scale device bias].
  rewrite Hc. by rewrite (proj2 (Qeq_bool_iff c 0) Hz).
Qed.

Lemma Linear_call_clip_zero_witness :
  @Linear_call _ Z_kernels no_quant_kernels (example_projection_clipped 0)
    example_input
  = @Linear_call _ Z_kernels no_quant_kernels
      (set_clip_weight None (example_projection_clipped 0)) example_input
  ∧ @Linear_call _ Z_kernels no_quant_kernels
      (set_clip_weight None (example_projection_clipped 0)) example_input
    = Some (on_gpu (Mat 2 [[6; -3]; [16; -9]]))
  ∧ @Linear_call _ Z_kernels no_quant_kernels (example_projection_clipped 1)
      example_input
    = Some (on_gpu (Mat 2 [[2; -3]; [4; -9]])).
Proof.
  split; [|split; by vm_compute].
  apply (Linear_call_clip_zero (K := Z_kernels) (QK := no_quant_kernels)
           (example_projection_clipped 0) 0 example_input eq_refl).
  reflexivity.
Defined.

(** ** Construction with a constructor of tensors that records its arguments *)

Lemma shape_at_Some w i d (h : Heap) :
  Forall dim_ok (w_shape w) → w_shape w !! i = Some d →
  shape_at w i h = (Ok d, h).
Proof.
  intros Hok Hd. unfold shape_at.
  by rewrite bind_eq, (Weight_shape_Some _ _ Hok), Hd.
Qed.

Lemma shape_len_Some w (h : Heap) :
  Forall dim_ok (w_shape w) → shape_len w h = (Ok (length (w_shape w)), h).
Proof.
  intros Hok. unfold shape_len. by rewrite bind_eq, (Weight_shape_Some _ _ Hok).
Qed.

Lemma size_ok_dim_ok d : size_ok d → dim_ok d.
Proof. unfold size_ok, dim_ok. lia. Qed.

Lemma Forall_size_ok_dim_ok (shape : list Z) :
  Forall size_ok shape → Forall dim_ok shape.
Proof.
  intros H. eapply Forall_impl; [exact H | exact size_ok_dim_ok].
Qed.

(** The floor division of a size by a device count other than zero stays
    within the range of the dimensions. *)
Lemma size_ok_div d n : size_ok d → n ≠ 0 → dim_ok (d / n).
Proof.
  unfold size_ok, dim_ok. intros Hd Hn.
  destruct (Z.lt_total n 0) as [Hneg|[?|Hpos]]; [|done|].
  - pose proof (Z.div_mod d n Hn) as Heq.
    pose proof (Z.mod_neg_bound d n Hneg) as Hr. nia.
  - pose proof (Z.div_pos d n (proj1 Hd) Hpos).
    pose proof (Z.mul_div_le d n Hpos). nia.
Qed.

(** The layer and the store [Linear.__init__] returns. *)
Lemma Linear_init_run Weight_new in_dim out_dim dtype dev has_bias enc f8 name
    clip (h : Heap) :
  Weight_records Weight_new →
  from_option granularities_supported True f8 →
  dim_ok in_dim → dim_ok out_dim →
  Linear_init Weight_new in_dim out_dim dtype dev has_bias enc f8 name clip h
  = (Ok (constructed_Linear (length h) dev has_bias f8 clip),
     h ++ declared_tensors Weight_new in_dim out_dim dtype dev has_bias enc f8
            name).
Proof.
  intros [Hshape Hdev] Hsup Hin_ok Hout_ok.
  assert (Hok : ∀ name dtype dev enc,
            Forall dim_ok
              (w_shape (Weight_new name dtype [out_dim; in_dim] dev enc))).
  { intros. rewrite Hshape.
    apply Forall_cons_2; [done|]. apply Forall_cons_2; [done|].
    apply Forall_nil_2. }
  transitivity
    (Linear_init Weight_new in_dim out_dim dtype dev has_bias enc f8 name clip
       (h ++ [])); [by rewrite app_nil_r|].
  unfold Linear_init, constructed_Linear, declared_tensors. run.
  destruct has_bias; run;
    [rewrite !Hdev; rewrite bool_decide_eq_false_2 by (by intros ?); run|].
  all: destruct f8 as [cfg|]; run; [|simpl; by rewrite Nat.add_0_r].
  all: destruct Hsup as [Hin Hws]; simpl; unfold declared_scales.
  all: destruct (is_static cfg); run.
  all: rewrite (bool_decide_eq_false_2 (_ ∉ _)) by (by intros ?); run.
  all: unfold is_rowwise, is_tensor.
  all: apply elem_of_cons in Hws as [Hws|Hws%list_elem_of_singleton];
    rewrite Hws.
  all: try change (bool_decide (ROWWISE = ROWWISE)) with true.
  all: try change (bool_decide (TENSOR = ROWWISE)) with false.
  all: try change (bool_decide (TENSOR = TENSOR)) with true.
  all: run.
  all: rewrite ?(shape_at_Some _ 0 out_dim _ (Hok _ _ _ _))
    by (by rewrite Hshape); run.
  all: by rewrite ?Nat.add_0_r, <- ?Nat.add_assoc.
Qed.

Lemma lookup_alloc_0 (h l : Heap) : (h ++ l) !! length h = l !! 0%nat.
Proof. by rewrite <- (lookup_alloc h l 0), Nat.add_0_r. Qed.

(** Where the tensors of a constructed layer are in the store. *)
Lemma constructed_Linear_lookup Weight_new in_dim out_dim dtype dev has_bias
    enc f8 name clip (h : Heap) :
  let l := constructed_Linear (length h) dev has_bias f8 clip in
  let h' := h ++ declared_tensors Weight_new in_dim out_dim dtype dev has_bias
                   enc f8 name in
  h' !! weight l
  = Some (Weight_new (attr_name name "weight") dtype [out_dim; in_dim] dev enc)
  ∧ (∀ b, bias l = Some b →
          h' !! b
          = Some (Weight_new (attr_name name "bias") dtype [out_dim] dev enc))
  ∧ (∀ r cfg, f8 = Some cfg → input_scale l = Some r →
              h' !! r
              = Some (Weight_new (attr_name name "input_scale")
                        (is_dtype (f8_input_scale cfg)) [] (CPU 0) enc))
  ∧ (∀ r cfg, f8 = Some cfg → weight_scale l = Some r →
              h' !! r
              = Some (Weight_new (attr_name name "weight_scale")
                        (ws_dtype (f8_weight_scale cfg))
                        (if is_rowwise (f8_weight_scale cfg)
                         then [out_dim; 1] else [])
                        (CPU 0) enc)).
Proof.
  intros l h'. subst l h'.
  unfold constructed_Linear, declared_tensors, declared_scales.
  destruct has_bias, f8 as [cfg|]; simpl; try destruct (is_static cfg); simpl.
  all: split_and!; [by rewrite lookup_alloc_0|..].
  all: try (intros ? ?; discriminate).
  all: try (intros ? ? ?; discriminate).
  all: try (intros ? ? ? ?; discriminate).
  all: try (intros ? ? [= <-] [= <-]); try (intros ? [= <-]).
  all: rewrite <- ?Nat.add_assoc; simpl Nat.add; by rewrite lookup_alloc.
Qed.

Lemma constructed_Linear_wf Weight_new in_dim out_dim dtype dev has_bias enc
    f8 name clip (h : Heap) :
  Linear_wf
    (h ++ declared_tensors Weight_new in_dim out_dim dtype dev has_bias enc f8
            name)
    (constructed_Linear (length h) dev has_bias f8 clip).
Proof.
  unfold Linear_wf, Linear_refs, constructed_Linear, declared_tensors,
    declared_scales.
  rewrite length_app.
  destruct has_bias, f8 as [cfg|]; simpl; try destruct (is_static cfg); simpl.
  all: split;
    [ repeat (apply NoDup_cons; split;
              [rewrite ?elem_of_cons, elem_of_nil; lia|]); apply NoDup_nil_2
    | repeat (apply Forall_cons; split; [lia|]); apply Forall_nil_2 ].
Qed.

(** X20. With a constructor of tensors that records the shape and the
    device it is given, and dimensions [in_dim] and [out_dim] that are
    natural numbers below 2^63, [Linear.__init__] accepts every float8
    configuration of supported granularities: the layer holds distinct
    tensors, a weight scale declared on the host - of shape [out_dim, 1]
    when rowwise, scalar when per tensor - and a scalar input scale on the
    host exactly when the scaling is static. *)
Theorem Linear_init_float8_Ok Weight_new in_dim out_dim dtype dev has_bias enc
    cfg name clip (h : Heap) :
  Weight_records Weight_new → granularities_supported cfg →
  size_ok in_dim → size_ok out_dim →
  ∃ l h',
    Linear_init Weight_new in_dim out_dim dtype dev has_bias enc (Some cfg)
      name clip h = (Ok l, h')
    ∧ Linear_wf h' l
    ∧ (is_Some (input_scale l) ↔ is_static cfg = true)
    ∧ (∀ r, input_scale l = Some r →
            h' !! r
            = Some (Weight_new (attr_name name "input_scale")
                      (is_dtype (f8_input_scale cfg)) [] (CPU 0) enc))
    ∧ ∃ r, weight_scale l = Some r
           ∧ h' !! r
             = Some (Weight_new (attr_name name "weight_scale")
                       (ws_dtype (f8_weight_scale cfg))
                       (if is_rowwise (f8_weight_scale cfg)
                        then [out_dim; 1] else [])
                       (CPU 0) enc).
Proof.
  intros Hrec Hsup Hin_ok%size_ok_dim_ok Hout_ok%size_ok_dim_ok.
  eexists _, _. split; [by apply Linear_init_run|].
  destruct (constructed_Linear_lookup Weight_new in_dim out_dim dtype dev
              has_bias enc (Some cfg) name clip h) as (_ & _ & Hi & Hs).
  split_and!.
  - apply constructed_Linear_wf.
  - unfold constructed_Linear. simpl.
    destruct (is_static cfg); (split; [|intros [=]]);
      [done | by eexists | by intros []%is_Some_None].
  - intros r. by apply Hi.
  - eexists. split; [reflexivity|]. by apply Hs.
Qed.

Lemma Linear_init_float8_Ok_witness :
  size_ok 256 ∧ size_ok 128
  ∧ ∃ l h',
    Linear_init Weight_plain 256 128 float8_e4m3fn (GPU 0) true None
      (Some (float8_config_of TENSOR ROWWISE STATIC)) None None [] = (Ok l, h')
    ∧ w_shape <$> h' = [[128; 256]; [128]; []; [128; 1]]
    ∧ w_device <$> h' = [GPU 0; GPU 0; CPU 0; CPU 0]
    ∧ Linear_wf h' l.
Proof.
  assert (Hrec : Weight_records Weight_plain) by (by split).
  assert (Hsup : granularities_supported (float8_config_of TENSOR ROWWISE STATIC)).
  { split; apply (bool_decide_unpack _); by vm_compute. }
  assert (H256 : size_ok 256) by (unfold size_ok; lia).
  assert (H128 : size_ok 128) by (unfold size_ok; lia).
  split; [exact H256|]. split; [exact H128|].
  destruct (Linear_init_float8_Ok Weight_plain 256 128 float8_e4m3fn (GPU 0)
              true None (float8_config_of TENSOR ROWWISE STATIC) None None []
              Hrec Hsup H256 H128) as (l & h' & Hrun & Hwf & _).
  exists l, h'. split; [exact Hrun|].
  assert (Hh : h' = (Linear_init Weight_plain 256 128 float8_e4m3fn (GPU 0)
                       true None (Some (float8_config_of TENSOR ROWWISE STATIC))
                       None None []).2) by (by rewrite Hrun).
  split_and!; [by rewrite Hh; vm_compute | by rewrite Hh; vm_compute | exact Hwf].
Defined.

(** ** Computations that return, from every extension of a store *)

Lemma returns_ret {A} (h0 : Heap) (a : A) (Q : A → Prop) :
  Q a → returns h0 (ret a) Q.
Proof. intros Ha h _. by exists a, h. Qed.

Lemma returns_bind {A B} (P : A → Prop) (h0 : Heap) (m : M A) (f : A → M B)
    (Q : B → Prop) :
  returns h0 m P → (∀ a, P a → returns h0 (f a) Q) → returns h0 (m ≫= f) Q.
Proof.
  intros Hm Hf h Hh.
  destruct (Hm h Hh) as (a & h1 & E1 & Hh1 & Ha).
  destruct (Hf a Ha h1) as (b & h2 & E2 & Hh2 & Hb); [by etrans|].
  exists b, h2. rewrite bind_eq, E1. split_and!; [done| by etrans |done].
Qed.

Lemma returns_weaken {A} (P Q : A → Prop) (h0 : Heap) (m : M A) :
  returns h0 m P → (∀ a, P a → Q a) → returns h0 m Q.
Proof.
  intros Hm HPQ h Hh. destruct (Hm h Hh) as (a & h1 & ? & ? & ?).
  exists a, h1. split_and!; [done..|]. by apply HPQ.
Qed.

Lemma returns_read (h0 : Heap) r w (Q : Weight → Prop) :
  h0 !! r = Some w → Q w → returns h0 (read r) Q.
Proof.
  intros Hr Hw h Hh. exists w, h.
  by rewrite (read_Some _ _ _ (prefix_lookup _ _ _ _ Hh Hr)).
Qed.

Lemma returns_shape_at (h0 : Heap) w i d (Q : Z → Prop) :
  Forall dim_ok (w_shape w) → w_shape w !! i = Some d → Q d →
  returns h0 (shape_at w i) Q.
Proof.
  intros Hok Hd HQ h _. exists d, h. by rewrite (shape_at_Some _ _ _ _ Hok Hd).
Qed.

Lemma returns_shape_len (h0 : Heap) w (Q : nat → Prop) :
  Forall dim_ok (w_shape w) → Q (length (w_shape w)) →
  returns h0 (shape_len w) Q.
Proof.
  intros Hok HQ h _. eexists _, h. by rewrite (shape_len_Some _ _ Hok).
Qed.

Lemma returns_for_each {A B} (body : nat → A → M B) i xs (h0 : Heap) :
  (∀ k x, xs !! k = Some x → returns h0 (body (i + k)%nat x) (λ _, True)) →
  returns h0 (for_each body i xs) (λ ys, length ys = length xs).
Proof.
  revert i. induction xs as [|x xs IH]; intros i Hb; simpl.
  - by apply returns_ret.
  - apply (returns_bind (λ _, True)).
    { specialize (Hb 0%nat x eq_refl). by rewrite Nat.add_0_r in Hb. }
    intros y _. apply (returns_bind (λ ys, length ys = length xs)).
    { apply IH. intros k x' Hk. specialize (Hb (S k) x' Hk).
      by rewrite Nat.add_succ_r in Hb. }
    intros ys Hlen. apply returns_ret. simpl. by rewrite Hlen.
Qed.

Section Returns.

Variable Weight_new :
  string → DType → list Z → DeviceRef → option QuantizationEncoding → Weight.
Variable partition : ShardingStrategy → Weight → nat → DeviceRef → Weight.
Hypothesis Hrec : Weight_records Weight_new.

Lemma returns_Weight_shard (h0 : Heap) r devs :
  has_strategy h0 r →
  returns h0 (Weight_shard partition r devs)
    (λ refs, length refs = length devs).
Proof.
  intros (w & Hw & [s Hs]) h Hh. unfold Weight_shard.
  rewrite bind_eq, (read_Some _ _ _ (prefix_lookup _ _ _ _ Hh Hw)), Hs.
  rewrite for_each_alloc. eexists _, _. split_and!; [done| |].
  - by apply prefix_app_r.
  - by rewrite length_seq.
Qed.

Lemma returns_Linear_init (h0 : Heap) in_dim out_dim dtype dev has_bias enc f8
    name clip :
  from_option granularities_supported True f8 →
  dim_ok in_dim → dim_ok out_dim →
  returns h0
    (Linear_init Weight_new in_dim out_dim dtype dev has_bias enc f8 name clip)
    (λ _, True).
Proof.
  intros Hsup Hin_ok Hout_ok h Hh. eexists _, _.
  split_and!; [by apply Linear_init_run| |done]. by apply prefix_app_r.
Qed.

Lemma returns_Linear_shard_one (h0 : Heap) self out_dim sb sws i dw :
  Linear_shardable h0 self →
  dim_ok out_dim →
  (is_Some (bias self) → is_Some (sb !! i)) →
  (is_Some (float8_config self) →
   ∀ r w, weight_scale self = Some r → h0 !! r = Some w → w_shape w ≠ [] →
          is_Some (sws !! i)) →
  returns h0 (Linear_shard_one Weight_new self out_dim sb sws i dw)
    (λ _, True).
Proof.
  intros (Hw & Hb & Hsup & Hf8) Hout_ok Hsb Hsws. destruct dw as [dev wsr].
  destruct Hw as (w & s & d0 & d1 & Hw & Hs & Hd0 & Hd1 & Hsz & Hnz).
  pose proof (Forall_size_ok_dim_ok _ Hsz) as Hok.
  unfold Linear_shard_one.
  eapply returns_bind; [by apply (returns_read _ _ w (λ w', w' = w))|].
  intros ? ->.
  apply (returns_bind dim_ok).
  { eapply returns_shape_at; [exact Hok | exact Hd1|].
    eapply Forall_lookup_1; [exact Hok | exact Hd1]. }
  intros in_dim Hin_ok.
  apply (returns_bind (λ _, True)); [by apply returns_Linear_init|].
  intros sharded _.
  apply (returns_bind (λ _, True)).
  { destruct (bias self) as [b|]; [|by apply returns_ret].
    eapply returns_bind; [by apply (returns_read _ _ w (λ w', w' = w))|].
    intros ? ->. rewrite Hs.
    destruct (_ && _); [by apply returns_ret|].
    destruct Hsb as [b' ->]; [by eexists|]. by apply returns_ret. }
  intros sharded1 _.
  destruct (float8_config self) as [cfg|]; [|by apply returns_ret].
  destruct Hf8 as [Hin Hws]; [by eexists|].
  apply (returns_bind (λ _, True)).
  { destruct (input_scale self) as [r|]; [|by apply returns_ret].
    destruct (Hin r eq_refl) as (iw & Hiw & Hshape).
    eapply returns_bind; [by apply (returns_read _ _ iw (λ w', w' = iw))|].
    intros ? ->.
    apply (returns_bind (λ n, n = 0%nat)).
    { apply returns_shape_len; rewrite Hshape; [apply Forall_nil_2 | done]. }
    intros ? ->. by apply returns_ret. }
  intros sharded2 _.
  destruct (weight_scale self) as [r|]; [|by apply returns_ret].
  destruct (Hws r eq_refl) as (ww & Hww & Hwsz & _).
  eapply returns_bind; [by apply (returns_read _ _ ww (λ w', w' = ww))|].
  intros ? ->.
  apply (returns_bind (λ n, n = length (w_shape ww))).
  { apply returns_shape_len; [by apply Forall_size_ok_dim_ok | done]. }
  intros ? ->.
  case_bool_decide as Hlen; [by apply returns_ret|].
  destruct (Hsws (ex_intro _ cfg eq_refl) r ww eq_refl Hww) as [r' ->].
  { intros E. by rewrite E in Hlen. }
  by apply returns_ret.
Qed.

(** [Linear.shard] returns one shard per device for every layer it can
    read. *)
Lemma returns_Linear_shard (h0 : Heap) self devs :
  Linear_shardable h0 self →
  returns h0 (Linear_shard Weight_new partition self devs)
    (λ shards, length shards = length devs).
Proof.
  intros Hsh. pose proof Hsh as (Hw & Hb & Hsup & Hf8).
  destruct Hw as (w & s & d0 & d1 & Hw & Hs & Hd0 & Hd1 & Hsz & Hnz).
  pose proof (Forall_size_ok_dim_ok _ Hsz) as Hok.
  unfold Linear_shard.
  eapply returns_bind; [by apply (returns_read _ _ w (λ w', w' = w))|].
  intros ? ->. rewrite Hs.
  apply (returns_bind dim_ok).
  { unfold Linear_shard_out_dim.
    apply (returns_bind size_ok).
    { eapply returns_shape_at; [exact Hok | exact Hd0|].
      eapply Forall_lookup_1; [exact Hsz | exact Hd0]. }
    intros d Hd. destruct (Strategy.is_rowwise s);
      [|by apply returns_ret, size_ok_dim_ok].
    rewrite bool_decide_eq_false_2 by (by apply Hnz).
    apply returns_ret, size_ok_div; [done | by apply Hnz]. }
  intros out_dim Hout_ok.
  apply (returns_bind (λ refs, length refs = length devs)).
  { apply returns_Weight_shard. exists w. split; [done | by eexists]. }
  intros sw Hsw.
  apply (returns_bind
           (λ refs, is_Some (bias self) → length refs = length devs)).
  { destruct (bias self) as [b|]; [|apply returns_ret; by intros []%is_Some_None].
    eapply returns_weaken; [apply returns_Weight_shard; by apply Hb|].
    by intros. }
  intros sb Hsb.
  apply (returns_bind
           (λ refs, is_Some (float8_config self) →
                    ∀ r ww, weight_scale self = Some r → h0 !! r = Some ww →
                            w_shape ww ≠ [] → length refs = length devs)).
  { destruct (float8_config self) as [cfg|];
      [|apply returns_ret; by intros []%is_Some_None].
    destruct Hf8 as [_ Hws]; [by eexists|].
    destruct (weight_scale self) as [r|];
      [|apply returns_ret; by intros _ ? ? [=]].
    destruct (Hws r eq_refl) as (ww & Hww & Hwsz & Hcase).
    eapply returns_bind; [by apply (returns_read _ _ ww (λ w', w' = ww))|].
    intros ? ->.
    apply (returns_bind (λ n, n = length (w_shape ww))).
    { apply returns_shape_len; [by apply Forall_size_ok_dim_ok | done]. }
    intros ? ->. case_bool_decide as Hlen.
    - destruct Hcase as [E|Hstr]; [rewrite E in Hlen; simpl in Hlen; lia|].
      eapply returns_weaken;
        [apply returns_Weight_shard; by exists ww|]. by intros.
    - apply returns_ret. intros _ r' ww' [= <-] Hr' Hne.
      assert (ww' = ww) as -> by congruence.
      destruct (w_shape ww); [done | simpl in Hlen; lia]. }
  intros sws Hsws.
  eapply returns_weaken.
  { apply returns_for_each. intros k [dev wsr] Hk.
    apply lookup_zip_with_Some in Hk as (? & ? & [= <- <-] & Hdev & _).
    apply lookup_lt_Some in Hdev.
    apply returns_Linear_shard_one; [done|done| |].
    - intros Hbias. apply lookup_lt_is_Some_2. rewrite (Hsb Hbias). done.
    - intros Hcfg r ww Hr Hww Hne. apply lookup_lt_is_Some_2.
      by rewrite (Hsws Hcfg r ww Hr Hww Hne). }
  intros shards ->. rewrite length_zip_with, Hsw. lia.
Qed.

End Returns.

(** ** From construction to sharding *)

Lemma lookup_alter_shape s i r (h : Heap) :
  w_shape <$> alter (set_w_sharding_strategy s) i h !! r = w_shape <$> h !! r.
Proof.
  destruct (decide (i = r)) as [->|Hne].
  - rewrite list_lookup_alter_eq. by destruct (h !! r).
  - by rewrite list_lookup_alter_ne.
Qed.

(** The setter changes no shape. *)
Lemma propagated_shape l strategy (h : Heap) r :
  w_shape <$> propagated l strategy h !! r = w_shape <$> h !! r.
Proof.
  unfold propagated.
  destruct (bias l), (weight_scale l), (float8_config l);
    by rewrite ?lookup_alter_shape.
Qed.

Lemma has_strategy_alter s i r (h : Heap) :
  has_strategy h r → has_strategy (alter (set_w_sharding_strategy s) i h) r.
Proof.
  intros (w & Hw & Hs). destruct (decide (i = r)) as [->|Hne].
  - exists (set_w_sharding_strategy s w).
    rewrite list_lookup_alter_eq, Hw. split; [done | by eexists].
  - exists w. by rewrite list_lookup_alter_ne.
Qed.

Lemma has_strategy_alter_here s r (h : Heap) :
  (r < length h)%nat → has_strategy (alter (set_w_sharding_strategy s) r h) r.
Proof.
  intros [w Hw]%lookup_lt_is_Some_2. exists (set_w_sharding_strategy s w).
  rewrite list_lookup_alter_eq, Hw. split; [done | by eexists].
Qed.

(** The setter leaves a strategy on the weight, on the bias, and on the
    weight scale of a layer with a float8 configuration. *)
Lemma propagated_has_strategy l strategy (h : Heap) r :
  (r < length h)%nat →
  r = weight l ∨ bias l = Some r
  ∨ (weight_scale l = Some r ∧ is_Some (float8_config l)) →
  has_strategy (propagated l strategy h) r.
Proof.
  intros Hr Hcase. unfold propagated.
  destruct Hcase as [-> | [Hb | [Hs [cfg Hc]]]].
  - pose proof (has_strategy_alter_here strategy (weight l) h Hr) as Hhere.
    destruct (bias l), (weight_scale l), (float8_config l);
      solve [repeat first [exact Hhere | apply has_strategy_alter]].
  - rewrite Hb. apply has_strategy_alter_here.
    destruct (weight_scale l), (float8_config l); by rewrite ?length_alter.
  - rewrite Hs, Hc.
    destruct (bias l); [apply has_strategy_alter|];
      apply has_strategy_alter_here; by rewrite length_alter.
Qed.

Lemma Linear_wf_mono (h h' : Heap) l :
  (length h ≤ length h')%nat → Linear_wf h l → Linear_wf h' l.
Proof.
  intros Hle [Hnd Hall]. split; [done|].
  eapply Forall_impl; [exact Hall|]. intros r Hr. simpl in *. lia.
Qed.

(** A constructed layer is declared in every store that extends the one the
    constructor returned. *)
Lemma constructed_Linear_declared Weight_new in_dim out_dim dtype dev has_bias
    enc f8 name clip (h hx : Heap) :
  Weight_records Weight_new →
  from_option granularities_supported True f8 →
  size_ok in_dim → size_ok out_dim →
  h ++ declared_tensors Weight_new in_dim out_dim dtype dev has_bias enc f8 name
    `prefix_of` hx →
  Linear_declared hx (constructed_Linear (length h) dev has_bias f8 clip).
Proof.
  intros [Hshape Hdev] Hsup Hin_ok Hout_ok Hpre.
  destruct (constructed_Linear_lookup Weight_new in_dim out_dim dtype dev
              has_bias enc f8 name clip h) as (Hlw & _ & Hli & Hls).
  split_and!.
  - eapply Linear_wf_mono; [by apply prefix_length | apply constructed_Linear_wf].
  - intros [r Hr]. unfold constructed_Linear in Hr. simpl in Hr.
    destruct f8; [by eexists | done].
  - exact Hsup.
  - eexists _, out_dim, in_dim.
    split_and!; [exact (prefix_lookup _ _ _ _ Hpre Hlw) | apply Hshape | done..].
  - intros r Hr. destruct f8 as [cfg|]; [|done].
    eexists. split; [exact (prefix_lookup _ _ _ _ Hpre (Hli r cfg eq_refl Hr))|].
    apply Hshape.
  - intros r Hr. destruct f8 as [cfg|]; [|done].
    eexists. split; [exact (prefix_lookup _ _ _ _ Hpre (Hls r cfg eq_refl Hr))|].
    rewrite Hshape. destruct (is_rowwise _); [|apply Forall_nil_2].
    apply Forall_cons_2; [done|]. apply Forall_cons_2; [|apply Forall_nil_2].
    unfold size_ok. lia.
Qed.

Lemma restrategized_refl P (h : Heap) : restrategized P h h.
Proof. split; [done|]. intros r w Hw. exists w. split_and!; [done..|by left]. Qed.

Lemma restrategized_alter_step P s i (h h' : Heap) :
  P s → restrategized P h h' →
  restrategized P h (alter (set_w_sharding_strategy s) i h').
Proof.
  intros Hs [Hlen Hh]. split; [by rewrite length_alter|].
  intros r w Hw. destruct (Hh r w Hw) as (w' & Hw' & Hshape & Hstr).
  destruct (decide (i = r)) as [->|Hne].
  - exists (set_w_sharding_strategy s w').
    rewrite list_lookup_alter_eq, Hw'. split_and!; [done..|].
    right. by exists s.
  - exists w'. by rewrite list_lookup_alter_ne.
Qed.

Lemma divisible_replicate n : divisible (Strategy.replicate n).
Proof. by intros ?. Qed.

(** The setter of a layer gives divisible strategies when it is given
    one. *)
Lemma restrategized_propagated l strategy (h : Heap) :
  divisible strategy → restrategized divisible h (propagated l strategy h).
Proof.
  intros Hd. unfold propagated.
  assert (Hb : divisible (bias_strategy strategy)).
  { unfold bias_strategy.
    destruct (Strategy.is_rowwise strategy); [done | apply divisible_replicate]. }
  assert (Hs : ∀ cfg, divisible (weight_scale_strategy cfg strategy)).
  { intros cfg. unfold weight_scale_strategy.
    destruct (_ || _); [apply divisible_replicate | done]. }
  destruct (bias l), (weight_scale l), (float8_config l);
    repeat (apply restrategized_alter_step;
            [first [exact Hd | exact Hb | apply Hs]|]);
    apply restrategized_refl.
Qed.

Lemma Linear_declared_restrategized P (h h' : Heap) l :
  restrategized P h h' → Linear_declared h l → Linear_declared h' l.
Proof.
  intros [Hlen Hh] (Hwf & Hws & Hsup & Hw & Hi & Hsc).
  split_and!; [|done..| | |].
  - by apply (Linear_wf_length h).
  - destruct Hw as (w & d0 & d1 & Hw & Hshape & Hd0 & Hd1).
    destruct (Hh _ _ Hw) as (w' & Hw' & Hshape' & _).
    exists w', d0, d1. by rewrite Hshape'.
  - intros r Hr. destruct (Hi r Hr) as (w & Hw' & Hshape).
    destruct (Hh _ _ Hw') as (w' & ? & Hshape' & _).
    exists w'. by rewrite Hshape'.
  - intros r Hr. destruct (Hsc r Hr) as (w & Hw' & Hshape).
    destruct (Hh _ _ Hw') as (w' & ? & Hshape' & _).
    exists w'. by rewrite Hshape'.
Qed.

(** A layer [Linear.shard] can read stays one when setters run. *)
Lemma Linear_shardable_restrategized (h h' : Heap) l :
  restrategized divisible h h' → Linear_shardable h l → Linear_shardable h' l.
Proof.
  intros [Hlen Hh] (Hw & Hb & Hsup & Hf8). split_and!; [| |done|].
  - destruct Hw as (w & s & d0 & d1 & Hw & Hs & Hd0 & Hd1 & Hsz & Hnz).
    destruct (Hh _ _ Hw) as (w' & Hw' & Hshape & [Hstr|(s' & Hstr & Hs')]).
    + exists w', s, d0, d1. rewrite Hshape, Hstr. by split_and!.
    + exists w', s', d0, d1. rewrite Hshape. by split_and!.
  - intros b Hbias. destruct (Hb b Hbias) as (w & Hw' & Hstr).
    destruct (Hh _ _ Hw') as (w' & ? & _ & [E|(s' & E & _)]);
      exists w'; rewrite E; (split; [done|]); [done | by eexists].
  - intros Hcfg. destruct (Hf8 Hcfg) as [Hin Hws]. split.
    + intros r Hr. destruct (Hin r Hr) as (w & Hw' & Hshape).
      destruct (Hh _ _ Hw') as (w' & ? & Hshape' & _).
      exists w'. by rewrite Hshape'.
    + intros r Hr. destruct (Hws r Hr) as (w & Hw' & Hwsz & Hcase).
      destruct (Hh _ _ Hw') as (w' & ? & Hshape' & Hstr).
      exists w'. split; [done|]. rewrite Hshape'. split; [done|].
      destruct Hcase as [?|Hsome]; [by left|]. right.
      destruct Hstr as [E|(s' & E & _)]; rewrite E; [done | by eexists].
Qed.

(** A declared layer, once its setter has run with a divisible strategy,
    is one [Linear.shard] can read. *)
Lemma declared_shardable l strategy (h : Heap) :
  Linear_declared h l → divisible strategy →
  Linear_shardable (propagated l strategy h) l.
Proof.
  intros (Hwf & Hwsf & Hsup & Hw & Hi & Hsc) Hnz.
  destruct (Linear_wf_bounds h l Hwf) as (Hbw & Hbb & Hbs & _).
  split_and!.
  - destruct Hw as (w0 & d0 & d1 & Hw0 & Hshape & Hd0 & Hd1).
    pose proof (propagated_lookup_weight l strategy h Hwf) as Hstr.
    pose proof (propagated_shape l strategy h (weight l)) as Hsh.
    rewrite Hw0 in Hsh.
    destruct (propagated l strategy h !! weight l) as [w|]; [|done].
    cbn in Hstr, Hsh. rewrite Hshape in Hsh.
    injection Hstr as Hstr. injection Hsh as Hsh.
    exists w, strategy, d0, d1. rewrite Hsh. split_and!; try done.
    apply Forall_cons_2; [done|]. apply Forall_cons_2; [done|].
    apply Forall_nil_2.
  - intros b Hb. apply propagated_has_strategy; [by apply (Hbb b)|].
    right. by left.
  - done.
  - intros Hcfg. split.
    + intros r Hr. destruct (Hi r Hr) as (w0 & Hw0 & Hshape).
      pose proof (propagated_shape l strategy h r) as Hsh.
      rewrite Hw0 in Hsh.
      destruct (propagated l strategy h !! r) as [w|]; [|done].
      cbn in Hsh. rewrite Hshape in Hsh. injection Hsh as Hsh. by exists w.
    + intros r Hr.
      destruct (propagated_has_strategy l strategy h r) as (w & Hw' & Hs).
      * by apply (Hbs r).
      * right. right. by split.
      * exists w. split; [done|]. split; [|by right].
        destruct (Hsc r Hr) as (w0 & Hw0 & Hshape).
        pose proof (propagated_shape l strategy h r) as Hsh.
        rewrite Hw0, Hw' in Hsh. cbn in Hsh. injection Hsh as ->. done.
Qed.

(** X21. A layer as [Linear.__init__] returns it, for dimensions [in_dim]
    and [out_dim] that are natural numbers below 2^63, can be given any
    sharding strategy - of a device count other than zero when rowwise - and
    then be sharded over any list of devices: the constructor, the setter
    and [shard] all return, with one shard per device.  The constructor of
    tensors records the shape and the device it is given, and the
    partition rule is total. *)
Theorem Linear_init_set_shard_Ok Weight_new partition in_dim out_dim dtype dev
    has_bias enc f8 name clip strategy devs (h : Heap) :
  Weight_records Weight_new →
  from_option granularities_supported True f8 →
  size_ok in_dim → size_ok out_dim →
  (Strategy.is_rowwise strategy = true → num_devices strategy ≠ 0) →
  ∃ l h1 h2 shards h3,
    Linear_init Weight_new in_dim out_dim dtype dev has_bias enc f8 name clip h
    = (Ok l, h1)
    ∧ Linear_set_sharding_strategy l strategy h1 = (Ok tt, h2)
    ∧ Linear_shard Weight_new partition l devs h2 = (Ok shards, h3)
    ∧ length shards = length devs.
Proof.
  intros Hrec Hsup Hin_ok Hout_ok Hnz.
  pose proof (constructed_Linear_declared Weight_new in_dim out_dim dtype dev
                has_bias enc f8 name clip h _ Hrec Hsup Hin_ok Hout_ok
                (reflexivity _))
    as Hdecl.
  pose proof (declared_shardable _ strategy _ Hdecl Hnz) as Hsh.
  destruct (returns_Linear_shard Weight_new partition Hrec _ _ devs Hsh _
              (reflexivity _)) as (shards & h3 & Hrun & _ & Hlen).
  destruct Hdecl as (Hwf & Hwsf & _).
  eexists _, _, _, shards, h3. split_and!.
  - apply Linear_init_run; [done..| |]; by apply size_ok_dim_ok.
  - by apply Linear_set_sharding_strategy_Ok.
  - exact Hrun.
  - exact Hlen.
Qed.

Lemma Linear_init_set_shard_Ok_witness :
  size_ok 256 ∧ size_ok 128
  ∧ ∃ l h1 h2 shards h3,
    Linear_init Weight_plain 256 128 float8_e4m3fn (GPU 0) true None
      (Some (float8_config_of TENSOR ROWWISE STATIC)) None None [] = (Ok l, h1)
    ∧ Linear_set_sharding_strategy l (Strategy.rowwise 2) h1 = (Ok tt, h2)
    ∧ Linear_shard Weight_plain partition_even l [GPU 0; GPU 1] h2
      = (Ok shards, h3)
    ∧ length shards = 2%nat.
Proof.
  assert (H256 : size_ok 256) by (unfold size_ok; lia).
  assert (H128 : size_ok 128) by (unfold size_ok; lia).
  split; [exact H256|]. split; [exact H128|].
  apply (Linear_init_set_shard_Ok Weight_plain partition_even 256 128
           float8_e4m3fn (GPU 0) true None
           (Some (float8_config_of TENSOR ROWWISE STATIC)) None None
           (Strategy.rowwise 2) [GPU 0; GPU 1] []).
  - by split.
  - split; apply (bool_decide_unpack _); by vm_compute.
  - exact H256.
  - exact H128.
  - by intros _.
Defined.

(** ** ColumnParallelLinear over a tied weight *)

Lemma returns_for_each_pointwise {A B} (body : nat → A → M B)
    (R : nat → A → B → Prop) i xs (h0 : Heap) :
  (∀ k x, xs !! k = Some x →
          returns h0 (body (i + k)%nat x) (R (i + k)%nat x)) →
  returns h0 (for_each body i xs)
    (λ ys, length ys = length xs
           ∧ ∀ k y, ys !! k = Some y →
                    ∃ x, xs !! k = Some x ∧ R (i + k)%nat x y).
Proof.
  revert i. induction xs as [|x xs IH]; intros i Hb; simpl.
  - apply returns_ret. split; [done|]. intros k y. by rewrite lookup_nil.
  - apply (returns_bind (R i x)).
    { specialize (Hb 0%nat x eq_refl). by rewrite Nat.add_0_r in Hb. }
    intros y Hy. eapply returns_bind.
    { apply IH. intros k x' Hk. specialize (Hb (S k) x' Hk).
      by rewrite Nat.add_succ_r in Hb. }
    intros ys [Hlen Hys]. apply returns_ret. split; [simpl; by rewrite Hlen|].
    intros [|k] y'; simpl.
    + intros [= <-]. exists x. by rewrite Nat.add_0_r.
    + intros Hk. destruct (Hys k y' Hk) as (x' & ? & ?).
      exists x'. by rewrite Nat.add_succ_r.
Qed.

Lemma returns_Linear_init_plain Weight_new (h0 : Heap) in_dim out_dim dtype dev
    enc name clip :
  returns h0
    (Linear_init Weight_new in_dim out_dim dtype dev false enc None name clip)
    (λ l, bias l = None).
Proof.
  intros h Hh. eexists _, _.
  split_and!; [by apply Linear_init_plain_run | by apply prefix_app_r | done].
Qed.

(** X22. Constructing a [ColumnParallelLinear] over a tied weight, with
    neither [float8_config] nor [has_bias] given, returns: the layer holds
    the tied weight itself in place of the weight it declared; the tied
    weight - an object of the caller - now carries the rowwise strategy over
    all the devices; and the layer of index [n] sits on device [n], has no
    bias and holds the [n]-th partition of the tied weight. *)
Theorem ColumnParallelLinear_over_tied_weight Weight_new partition in_dim out_dim
    dtype devs t w kwargs (h : Heap) :
  devs ≠ [] → h !! t = Some w →
  kwargs_get (kw_float8_config kwargs) = None →
  kwargs_get (kw_has_bias kwargs) = None →
  let s := Strategy.rowwise (Z.of_nat (length devs)) in
  ∃ cpl h',
    ColumnParallelLinear_init Weight_new partition in_dim out_dim dtype devs
      (Some t) kwargs h = (Ok cpl, h')
    ∧ weight (cpl_linear cpl) = t
    ∧ devices cpl = devs
    ∧ h' !! t = Some (set_w_sharding_strategy s w)
    ∧ length (distributed_linear_layers cpl) = length devs
    ∧ ∀ n layer, distributed_linear_layers cpl !! n = Some layer →
        ∃ dev, devs !! n = Some dev ∧ device layer = dev ∧ bias layer = None
               ∧ h' !! weight layer
                 = Some (partition s (set_w_sharding_strategy s w) n dev).
Proof.
  intros Hdevs Ht Hf8 Hhb.
  destruct devs as [|dev0 devs']; [done|]. clear Hdevs. intros s.
  unfold ColumnParallelLinear_init, tied_weight_guard, Linear_init_kwargs.
  rewrite Hf8, Hhb.
  rewrite !(bool_decide_eq_false_2 (None ≠ None)) by (by intros ?).
  rewrite andb_false_r. simpl default.
  remember (dev0 :: devs') as devs eqn:Edevs. fold s.
  rewrite bind_eq, Linear_init_plain_run by done.
  set (w0 := Weight_new _ _ _ _ _). set (h1 := h ++ _).
  cbn [set_weight weight bias input_scale weight_scale device clip_weight
       float8_config fst snd].
  assert (Ht1 : h1 !! t = Some w) by (by apply lookup_app_l_Some).
  set (h2 := <[t := set_w_sharding_strategy s w]> h1).
  assert (Ht2 : h2 !! t = Some (set_w_sharding_strategy s w)).
  { apply list_lookup_insert_eq. by apply lookup_lt_Some in Ht1. }
  assert (Hset : Linear_set_sharding_strategy
                   (set_weight t
                      (mkLinear (length h) None None None dev0
                         (kwargs_get (kw_clip_weight kwargs)) None)) s h1
                 = (Ok tt, h2)).
  { unfold Linear_set_sharding_strategy.
    cbn [set_weight weight bias weight_scale float8_config].
    by rewrite bind_eq, (modify_Some _ _ _ _ Ht1). }
  rewrite bind_eq, Hset. cbn [fst snd].
  rewrite bind_eq. unfold Weight_shard at 1.
  rewrite bind_eq, (read_Some _ _ _ Ht2).
  cbn [w_sharding_strategy set_w_sharding_strategy fst snd].
  rewrite for_each_alloc.
  set (h3 := h2 ++ _).
  rewrite bind_eq. unfold ret at 1. cbn [fst snd].
  match goal with |- context [for_each ?body 0%nat devs] =>
    assert (Hret : returns h3 (for_each body 0%nat devs)
              (λ ys, length ys = length devs
                     ∧ ∀ k y, ys !! k = Some y →
                         ∃ x, devs !! k = Some x
                              ∧ device y = x ∧ bias y = None
                              ∧ weight y = (length h2 + (0 + k))%nat))
  end.
  { apply (returns_for_each_pointwise _
             (λ n dev layer, device layer = dev ∧ bias layer = None
                             ∧ weight layer = (length h2 + n)%nat)).
    intros k dev Hk. simpl.
    eapply returns_bind; [apply returns_Linear_init_plain|].
    intros layer Hbias.
    rewrite lookup_seq_lt by (by apply lookup_lt_Some in Hk).
    apply returns_ret. by split_and!. }
  destruct (Hret h3) as (layers & h4 & Hloop & Hpre & Hlen & Hlayers); [done|].
  rewrite bind_eq, Hloop.
  eexists _, _. split; [reflexivity|].
  cbn [cpl_linear devices distributed_linear_layers set_weight weight].
  split_and!; try done.
  - apply (prefix_lookup _ _ _ _ Hpre). unfold h3. by apply lookup_app_l_Some.
  - intros n layer Hn.
    destruct (Hlayers n layer Hn) as (dev & Hdev & Hd & Hb & Hw).
    exists dev. split_and!; try done.
    rewrite Hw. apply (prefix_lookup _ _ _ _ Hpre). unfold h3.
    change (0 + n)%nat with n.
    by rewrite lookup_alloc, list_lookup_imap, Hdev.
Qed.

Lemma ColumnParallelLinear_over_tied_weight_witness :
  ∃ cpl h',
    ColumnParallelLinear_init Weight_plain partition_even 256 128 float32
      [GPU 0; GPU 1] (Some 0%nat) kwargs_absent tied_heap = (Ok cpl, h')
    ∧ weight (cpl_linear cpl) = 0%nat
    ∧ w_sharding_strategy <$> h' !! 0%nat = Some (Some (Strategy.rowwise 2))
    ∧ length (distributed_linear_layers cpl) = 2%nat.
Proof.
  destruct (ColumnParallelLinear_over_tied_weight Weight_plain partition_even 256 128
              float32 [GPU 0; GPU 1] 0%nat
              (Weight_plain "embed_tokens.weight" float32 [128; 256] (GPU 0)
                 None)
              kwargs_absent tied_heap)
    as (cpl & h' & Hrun & Hw & _ & Ht & Hlen & _);
    [discriminate | reflexivity | reflexivity | reflexivity |].
  exists cpl, h'. split_and!; [exact Hrun | exact Hw | by rewrite Ht | exact Hlen].
Defined.

(** ** From the construction of an MLP to its sharding *)

(** The setters of three declared layers, one after the other. *)
Lemma projections_set_run g d u sg sd su (h : Heap) {A} (x : A) :
  Forall (Linear_declared h) [g; d; u] →
  divisible sg → divisible sd → divisible su →
  (Linear_set_sharding_strategy g sg;;
   Linear_set_sharding_strategy d sd;;
   Linear_set_sharding_strategy u su;;
   ret x) h
  = (Ok x, propagated u su (propagated d sd (propagated g sg h)))
  ∧ Forall (Linear_shardable
              (propagated u su (propagated d sd (propagated g sg h))))
      [g; d; u].
Proof.
  intros Hall Hdg Hdd Hdu.
  apply Forall_cons in Hall as [Hg Hall].
  apply Forall_cons in Hall as [Hd Hall].
  apply Forall_cons in Hall as [Hu _].
  assert (Hd1 : Linear_declared (propagated g sg h) d).
  { eapply Linear_declared_restrategized; [|exact Hd].
    by apply restrategized_propagated. }
  assert (Hu2 : Linear_declared (propagated d sd (propagated g sg h)) u).
  { eapply Linear_declared_restrategized;
      [by apply restrategized_propagated|].
    eapply Linear_declared_restrategized; [|exact Hu].
    by apply restrategized_propagated. }
  split.
  - destruct Hg as (? & ? & _), Hd1 as (? & ? & _), Hu2 as (? & ? & _).
    rewrite bind_eq, Linear_set_sharding_strategy_Ok by done.
    rewrite bind_eq, Linear_set_sharding_strategy_Ok by done.
    rewrite bind_eq, Linear_set_sharding_strategy_Ok by done.
    done.
  - apply Forall_cons_2;
      [|apply Forall_cons_2; [|apply Forall_cons_2; [|apply Forall_nil_2]]].
    + eapply Linear_shardable_restrategized;
        [by apply restrategized_propagated|].
      eapply Linear_shardable_restrategized;
        [by apply restrategized_propagated|].
      by apply declared_shardable.
    + eapply Linear_shardable_restrategized;
        [by apply restrategized_propagated|].
      by apply declared_shardable.
    + by apply declared_shardable.
Qed.

(** What [MLP.__init__] returns for a non-empty device list and a
    registered activation. *)
Lemma MLP_init_run Weight_new dtype enc hd ffl dev0 devs has_bias act f8 dist
    (h : Heap) :
  Weight_records Weight_new →
  from_option granularities_supported True f8 →
  act ∈ _ACTIVATION_FUNCTIONS →
  size_ok hd → size_ok ffl →
  ∃ m h',
    MLP_init Weight_new dtype enc hd ffl (dev0 :: devs) has_bias act f8 dist h
    = (Ok m, h')
    ∧ h `prefix_of` h'
    ∧ _sharding_strategy m = None
    ∧ m_float8_config m = f8
    ∧ _activation_function_name m = act
    ∧ m_hidden_dim m = hd ∧ m_feed_forward_length m = ffl
    ∧ Forall (Linear_declared h') [m_gate_proj m; m_down_proj m; m_up_proj m].
Proof.
  intros Hrec Hsup Hact Hhd Hffl. unfold MLP_init.
  pose proof (size_ok_dim_ok _ Hhd) as Hhd'.
  pose proof (size_ok_dim_ok _ Hffl) as Hffl'.
  rewrite bind_eq, Linear_init_run by done.
  rewrite bind_eq, Linear_init_run by done.
  rewrite bind_eq, Linear_init_run by done.
  rewrite bool_decide_eq_true_2 by done.
  eexists _, _. split; [reflexivity|].
  cbn [_sharding_strategy m_float8_config _activation_function_name
       m_gate_proj m_down_proj m_up_proj m_hidden_dim m_feed_forward_length].
  split_and!; [|done..|].
  - do 3 apply prefix_app_r. done.
  - apply Forall_cons_2;
      [|apply Forall_cons_2; [|apply Forall_cons_2; [|apply Forall_nil_2]]].
    + eapply (constructed_Linear_declared Weight_new hd ffl); [done..|].
      do 2 apply prefix_app_r. done.
    + eapply (constructed_Linear_declared Weight_new ffl hd); [done..|].
      apply prefix_app_r. done.
    + by eapply (constructed_Linear_declared Weight_new hd ffl).
Qed.

Lemma returns_MLP_init Weight_new (h0 : Heap) dtype enc hd ffl dev0 devs
    has_bias act f8 dist :
  Weight_records Weight_new →
  from_option granularities_supported True f8 →
  act ∈ _ACTIVATION_FUNCTIONS →
  size_ok hd → size_ok ffl →
  returns h0
    (MLP_init Weight_new dtype enc hd ffl (dev0 :: devs) has_bias act f8 dist)
    (λ _, True).
Proof.
  intros Hrec Hsup Hact Hhd Hffl h Hh.
  destruct (MLP_init_run Weight_new dtype enc hd ffl dev0 devs has_bias act f8
              dist h Hrec Hsup Hact Hhd Hffl) as (m & h' & Hrun & Hpre & _).
  by exists m, h'.
Qed.

(** [MLP.shard] returns one MLP per device for every MLP it can read. *)
Lemma returns_MLP_shard Weight_new partition (h0 : Heap) self devs :
  Weight_records Weight_new → MLP_shardable h0 self →
  returns h0 (MLP_shard Weight_new partition self devs)
    (λ r, ∃ shards, r = inr shards ∧ length shards = length devs).
Proof.
  intros Hrec ([s Hs] & Hall & Hsup & Hact & Hhd & Hffl).
  apply Forall_cons in Hall as [Hg Hall].
  apply Forall_cons in Hall as [Hd Hall].
  apply Forall_cons in Hall as [Hu _].
  unfold MLP_shard. rewrite Hs.
  apply (returns_bind (λ l, length l = length devs));
    [by apply returns_Linear_shard|]. intros gs Hgs.
  apply (returns_bind (λ l, length l = length devs));
    [by apply returns_Linear_shard|]. intros ds Hds.
  apply (returns_bind (λ l, length l = length devs));
    [by apply returns_Linear_shard|]. intros us Hus.
  apply (returns_bind (λ l, length l = length devs)).
  { eapply returns_weaken.
    - apply returns_for_each. intros k [dev [g [d u]]] _.
      unfold MLP_shard_one.
      destruct Hg as ((w & s' & d0 & d1 & Hw & _) & _).
      eapply returns_bind; [by apply (returns_read _ _ w (λ _, True))|].
      intros w' _.
      apply (returns_bind (λ _, True)); [by apply returns_MLP_init|].
      intros sharded _. by apply returns_ret.
    - intros shards ->. rewrite !length_zip_with, Hgs, Hds, Hus. lia. }
  intros shards Hlen. apply returns_ret. by exists shards.
Qed.

(** X23. An MLP as [MLP.__init__] returns it, for dimensions [hidden_dim]
    and [feed_forward_length] that are natural numbers below 2^63, can be
    given a replication or a tensor-parallel strategy - of a device count
    other than zero - and then be sharded over any list of devices: the
    constructor, the setter and [shard] all return, with one MLP per
    device.  The constructor of tensors records the shape and the device it
    is given, and the partition rule is total. *)
Theorem MLP_init_set_shard_Ok Weight_new partition dtype enc hd ffl devs
    has_bias act f8 dist strategy shard_devs (h : Heap) :
  Weight_records Weight_new →
  from_option granularities_supported True f8 →
  devs ≠ [] → act ∈ _ACTIVATION_FUNCTIONS →
  size_ok hd → size_ok ffl →
  kind strategy = Replicate
  ∨ (kind strategy = TensorParallel ∧ num_devices strategy ≠ 0) →
  ∃ m h1 m' h2 shards h3,
    MLP_init Weight_new dtype enc hd ffl devs has_bias act f8 dist h
    = (Ok m, h1)
    ∧ MLP_set_sharding_strategy m strategy h1 = (Ok (m', None), h2)
    ∧ MLP_shard Weight_new partition m' shard_devs h2 = (Ok (inr shards), h3)
    ∧ length shards = length shard_devs.
Proof.
  intros Hrec Hsup Hdevs Hact Hhd Hffl Hk.
  destruct devs as [|dev0 devs']; [done|].
  destruct (MLP_init_run Weight_new dtype enc hd ffl dev0 devs' has_bias act f8
              dist h Hrec Hsup Hact Hhd Hffl)
    as (m & h1 & Hinit & _ & Hnone & Hf8 & Hname & Hmhd & Hmffl & Hdecl).
  assert (∃ h2,
            MLP_set_sharding_strategy m strategy h1
            = (Ok (set_sharding_strategy_attr strategy m, None), h2)
            ∧ Forall (Linear_shardable h2)
                [m_gate_proj m; m_down_proj m; m_up_proj m])
    as (h2 & Hset & Hsh).
  { unfold MLP_set_sharding_strategy,
      Strategy.is_replicate, Strategy.is_tensor_parallel.
    cbn [set_sharding_strategy_attr m_gate_proj m_down_proj m_up_proj].
    destruct Hk as [Hk|[Hk Hnz]].
    - rewrite bool_decide_eq_true_2 by done.
      assert (Hdiv : divisible strategy).
      { unfold divisible, Strategy.is_rowwise. rewrite Hk. by intros ?. }
      eexists. by apply projections_set_run.
    - rewrite bool_decide_eq_false_2 by (rewrite Hk; discriminate).
      rewrite bool_decide_eq_true_2 by done.
      eexists. apply projections_set_run; [done|..].
      + by intros _.
      + by intros ?.
      + by intros _. }
  assert (Hmsh : MLP_shardable h2 (set_sharding_strategy_attr strategy m)).
  { split_and!; [by eexists | exact Hsh |..]; simpl.
    - by rewrite Hf8.
    - by rewrite Hname.
    - by rewrite Hmhd.
    - by rewrite Hmffl. }
  destruct (returns_MLP_shard Weight_new partition h2 _ shard_devs Hrec Hmsh
              h2 (reflexivity _)) as (r & h3 & Hrun & _ & shards & -> & Hlen).
  by exists m, h1, (set_sharding_strategy_attr strategy m), h2, shards, h3.
Qed.

Lemma MLP_init_set_shard_Ok_witness :
  size_ok 8 ∧ size_ok 32
  ∧ ∃ m h1 m' h2 shards h3,
    MLP_init Weight_plain float32 None 8 32 [GPU 0] true "silu" None None []
    = (Ok m, h1)
    ∧ MLP_set_sharding_strategy m (Strategy.tensor_parallel 2) h1
      = (Ok (m', None), h2)
    ∧ MLP_shard Weight_plain partition_even m' [GPU 0; GPU 1] h2
      = (Ok (inr shards), h3)
    ∧ length shards = 2%nat.
Proof.
  assert (H8 : size_ok 8) by (unfold size_ok; lia).
  assert (H32 : size_ok 32) by (unfold size_ok; lia).
  split; [exact H8|]. split; [exact H32|].
  apply (MLP_init_set_shard_Ok Weight_plain partition_even float32 None 8 32
           [GPU 0] true "silu" None None (Strategy.tensor_parallel 2)
           [GPU 0; GPU 1] []).
  - by split.
  - exact I.
  - discriminate.
  - apply (bool_decide_unpack _). by vm_compute.
  - exact H8.
  - exact H32.
  - right. split; [reflexivity | discriminate].
Defined.

(** ** The errors of an empty device list *)

Section EmptyDevices.

Variable Weight_new :
  string → DType → list Z → DeviceRef → option QuantizationEncoding → Weight.
Variable partition : ShardingStrategy → Weight → nat → DeviceRef → Weight.

Lemma Linear_init_not_empty_devices_error in_dim out_dim dtype dev has_bias enc
    f8 name clip :
  raises_only not_empty_devices_error
    (Linear_init Weight_new in_dim out_dim dtype dev has_bias enc f8 name clip).
Proof. unfold Linear_init, not_empty_devices_error. solve_raises. Qed.

Lemma Weight_shard_not_empty_devices_error r devs :
  raises_only not_empty_devices_error (Weight_shard partition r devs).
Proof. unfold Weight_shard, not_empty_devices_error. solve_raises. Qed.

Lemma Linear_set_sharding_strategy_not_empty_devices_error self s :
  raises_only not_empty_devices_error (Linear_set_sharding_strategy self s).
Proof.
  unfold Linear_set_sharding_strategy, not_empty_devices_error. solve_raises.
Qed.

(** X10. [ColumnParallelLinear] raises the empty-devices [ValueError]
    exactly for an empty device list: then whatever its other arguments - a
    tied weight with a bias included - and before it declares anything; for
    a non-empty list no step of the constructor raises it. *)
Theorem ColumnParallelLinear_init_empty_devices in_dim out_dim dtype devs
    tied_weight kwargs (h : Heap) :
  (devs = [] →
   ColumnParallelLinear_init Weight_new partition in_dim out_dim dtype devs
     tied_weight kwargs h
   = (Raise (ValueError EmptyDevices), h))
  ∧ (∀ h',
       ColumnParallelLinear_init Weight_new partition in_dim out_dim dtype devs
         tied_weight kwargs h
       = (Raise (ValueError EmptyDevices), h') →
       devs = []).
Proof.
  split; [by intros ->|].
  destruct devs as [|dev0 devs']; [done|]. intros h' Hrun. exfalso.
  revert Hrun. unfold ColumnParallelLinear_init.
  destruct (tied_weight_guard tied_weight kwargs); [discriminate|].
  match goal with |- ?m h = _ → _ =>
    assert (raises_only not_empty_devices_error m) as Hro end.
  { pose proof Linear_init_not_empty_devices_error.
    pose proof Weight_shard_not_empty_devices_error.
    pose proof Linear_set_sharding_strategy_not_empty_devices_error.
    unfold Linear_init_kwargs. unfold not_empty_devices_error in *.
    solve_raises. }
  intros Hrun. by apply Hro in Hrun.
Qed.

(** With a constructor of tensors that records its arguments, the weight
    that [Linear.__init__] reads has two dimensions: the constructor raises
    no [IndexError]. *)
Lemma Linear_init_not_index_error :
  Weight_records Weight_new →
  ∀ in_dim out_dim dtype dev has_bias enc f8 name clip,
    raises_only not_index_error
      (Linear_init Weight_new in_dim out_dim dtype dev has_bias enc f8 name
         clip).
Proof.
  intros [Hshape Hdev] in_dim out_dim dtype dev has_bias enc f8 name clip
    h e h'.
  unfold not_index_error. intros Hrun ->. revert Hrun.
  rewrite <- (app_nil_r h). unfold Linear_init. run.
  destruct has_bias; run;
    [rewrite !Hdev; rewrite bool_decide_eq_false_2 by (by intros ?); run|].
  all: destruct f8 as [cfg|]; run; [|discriminate].
  all: destruct (is_static cfg); run.
  all: destruct (bool_decide (is_granularity (f8_input_scale cfg)
                              ∉ [TENSOR; COLWISE]));
    [discriminate|]; run.
  all: destruct (is_rowwise (f8_weight_scale cfg)); run.
  all: try (destruct (is_tensor (f8_weight_scale cfg)); run; discriminate).
  all: unfold shape_at, Weight_shape; rewrite Hshape.
  all: case_bool_decide; run; discriminate.
Qed.

(** X11. With a constructor of tensors that records its arguments, [MLP]
    raises [IndexError] exactly for an empty device list: it reads
    [devices[0]] for its first projection, before it declares anything; for
    a non-empty list no step of the constructor raises it. *)
Theorem MLP_init_empty_devices dtype enc hidden_dim feed_forward_length devs
    has_bias activation f8 dist (h : Heap) :
  Weight_records Weight_new →
  (devs = [] →
   MLP_init Weight_new dtype enc hidden_dim feed_forward_length devs has_bias
     activation f8 dist h
   = (Raise IndexError, h))
  ∧ (∀ h',
       MLP_init Weight_new dtype enc hidden_dim feed_forward_length devs
         has_bias activation f8 dist h
       = (Raise IndexError, h') →
       devs = []).
Proof.
  intros Hrec. split; [by intros ->|].
  destruct devs as [|dev0 devs']; [done|]. intros h' Hrun. exfalso.
  revert Hrun. unfold MLP_init.
  match goal with |- ?m h = _ → _ =>
    assert (raises_only not_index_error m) as Hro end.
  { pose proof (Linear_init_not_index_error Hrec) as HL.
    unfold not_index_error in *. solve_raises. }
  intros Hrun. by apply Hro in Hrun.
Qed.

End EmptyDevices.

Lemma ColumnParallelLinear_init_empty_devices_witness :
  ColumnParallelLinear_init Weight_plain partition_even 256 128 float32 []
    (Some 0%nat) kwargs_has_bias_False tied_heap
  = (Raise (ValueError EmptyDevices), tied_heap).
Proof.
  by apply (proj1 (ColumnParallelLinear_init_empty_devices Weight_plain
                     partition_even 256 128 float32 [] (Some 0%nat)
                     kwargs_has_bias_False tied_heap)).
Defined.

Lemma MLP_init_empty_devices_witness :
  MLP_init Weight_plain float32 None 8 32 [] true "silu" None None []
  = (Raise IndexError, []).
Proof.
  apply (proj1 (MLP_init_empty_devices Weight_plain float32 None 8 32 [] true
                  "silu" None None [] ltac:(by split))).
  reflexivity.
Defined.
